(** * Smart campus attendance: aggregation, ledger and notification rules

    A shallow embedding of the Django code of the attendance tracker:
    - [api/views.py]: [mark_attendance], [StudentViewSet.attendance_stats];
    - [attendance/views.py]: the statistics of [session_detail];
    - [face_recognition/ai_engine.py]: [AutomatedAbsenteeDetector] and
      [InstantAttendanceUpdater.get_session_stats];
    - [notifications/utils.py]: the absence and low-attendance senders.

    Tables whose rows are addressed by primary key are finite maps from the
    key to the row; Python [float]s are IEEE 754 binary64 numbers, computed
    with the executable specification [SpecFloat] of the standard library;
    ORM calls thread the database through a state-and-exception monad. *)

From Stdlib Require Import ZArith Uint63 Floats.SpecFloat Floats.PrimFloat
  Floats.FloatOps.
From stdpp Require Import gmap strings list pretty.

(** ** Python numbers *)

Module Py.

(** binary64: 53 bits of mantissa, infinities at exponent 1024. *)
Definition prec : Z := 53.
Definition emax : Z := 1024.

(** [float(z)] for a Python int [z]. *)
Definition float_of_int (z : Z) : spec_float :=
  binary_normalize prec emax z 0 false.

(** An int as an exact (not normalised) binary number. *)
Definition exact_of_int (z : Z) : spec_float :=
  match z with
  | Z0 => S754_zero false
  | Zpos p => S754_finite false p 0
  | Zneg p => S754_finite true p 0
  end.

(** [a / b] on ints: the correctly rounded quotient.  Python raises
    ZeroDivisionError when [b] is 0; every call below guards the divisor
    ([total or 1], [total > 0]), see [divisor_guard_positive]. *)
Definition int_true_divide (a b : Z) : spec_float :=
  SFdiv prec emax (exact_of_int a) (exact_of_int b).

(** [x * n] for a float [x] and an int [n]: the int is converted first. *)
Definition float_mul_int (x : spec_float) (n : Z) : spec_float :=
  SFmul prec emax x (float_of_int n).

(** [x < y] on floats. *)
Definition float_lt (x y : spec_float) : bool := SFltb x y.


(** [n / d] rounded to the nearest integer, a tie going to the even one
    ([d] positive). *)
Definition round_half_even (n d : Z) : Z :=
  let q := (n / d)%Z in
  let r := (n mod d)%Z in
  match (2 * r ?= d)%Z with
  | Lt => q
  | Eq => if Z.even q then q else (q + 1)%Z
  | Gt => (q + 1)%Z
  end.

(** The number of tenths nearest to [m * 2^e]. *)
Definition tenths (m : positive) (e : Z) : Z :=
  match e with
  | Zneg p => round_half_even (10 * Zpos m) (2 ^ Zpos p)
  | _ => (10 * Zpos m * 2 ^ e)%Z
  end.

(** The float written [k / 10] in decimal ([k] tenths), with sign [s]. *)
Definition decimal1 (s : bool) (k : Z) : spec_float :=
  match k with
  | Zpos p => SFdiv prec emax (S754_finite s p 0) (S754_finite false 10 0)
  | _ => S754_zero s
  end.

(** [round(x, 1)]: CPython rounds the exact binary value of [x] to one
    decimal, ties to even, and reads the decimal back as a float;
    zeros, infinities and NaN are returned as they are. *)
Definition round1 (x : spec_float) : spec_float :=
  match x with
  | S754_finite s m e => decimal1 s (tenths m e)
  | _ => x
  end.

(** [a or b] on ints: [b] when [a] is falsy, that is 0. *)
Definition int_or (a b : Z) : Z := if (a =? 0)%Z then b else a.

(** A number held in a dict: an int or a float. *)
Inductive num :=
| Int (z : Z)
| Float (x : spec_float).

(** [x == 0] on numbers. *)
Definition is_zero (x : num) : bool :=
  match x with
  | Int z => (z =? 0)%Z
  | Float (S754_zero _) => true
  | Float _ => false
  end.

End Py.

(** ** The models ([attendance/models.py], [notifications/models.py])

    Only the columns read or written by the modelled views are kept; dates,
    times and message bodies are text that no query reads back.  A foreign
    key holds the primary key of the row it points to. *)

Inductive Status := present | absent | late | excused.

Inductive VerificationMethod := manual | face_recognition | mobile_gps | qr_scan.

Inductive NotificationType :=
  absence | low_attendance | attendance_marked | class_reminder | general.

Inductive Priority := low | medium | high | urgent.

Inductive Channel := email | sms | push.

Inductive LogStatus := pending | sent | delivered | failed.

Global Instance Status_eq_dec : EqDecision Status.
Proof. solve_decision. Defined.

Global Instance VerificationMethod_eq_dec : EqDecision VerificationMethod.
Proof. solve_decision. Defined.

Global Instance NotificationType_eq_dec : EqDecision NotificationType.
Proof. solve_decision. Defined.

Global Instance Channel_eq_dec : EqDecision Channel.
Proof. solve_decision. Defined.

Module Parent.
Record t := { name : string; email : string; phone : string }.
End Parent.

Module Student.
Record t := {
  student_id : string;
  first_name : string;
  last_name : string;
  email : string;
  phone : string;
  parent : option nat;
  is_active : bool }.

Definition full_name (s : t) : string :=
  first_name s +:+ " " +:+ last_name s.
End Student.

Module Course.
(** [students] is the many-to-many enrolment, a set of student keys. *)
Record t := { code : string; name : string; students : gset nat }.
End Course.

Module AttendanceSession.
Record t := { course : nat; is_active : bool }.
End AttendanceSession.

Module Attendance.
Record t := {
  session : nat;
  student : nat;
  status : Status;
  verification_method : VerificationMethod;
  marked_by : option nat;
  face_confidence : option spec_float;
  location_lat : option spec_float;
  location_lng : option spec_float;
  notes : string }.
End Attendance.

Module Notification.
Record t := {
  student : nat;
  notification_type : NotificationType;
  priority : Priority;
  title : string;
  attendance : option nat;
  is_sent : bool;
  send_email : bool;
  send_sms : bool;
  send_push : bool;
  email_sent : bool;
  sms_sent : bool;
  push_sent : bool }.
End Notification.

Module ParentNotification.
Record t := {
  parent : nat;
  student : nat;
  notification_type : NotificationType;
  title : string;
  email_sent : bool;
  sms_sent : bool }.
End ParentNotification.

Module NotificationLog.
Record t := {
  notification : option nat;
  parent_notification : option nat;
  channel : Channel;
  recipient : string;
  status : LogStatus }.
End NotificationLog.

(** ** The database *)

Record DB := {
  parents : gmap nat Parent.t;
  students : gmap nat Student.t;
  courses : gmap nat Course.t;
  sessions : gmap nat AttendanceSession.t;
  attendances : gmap nat Attendance.t;
  notifications : gmap nat Notification.t;
  parent_notifications : gmap nat ParentNotification.t;
  notification_logs : list NotificationLog.t }.

Definition set_attendances (f : gmap nat Attendance.t → gmap nat Attendance.t)
    (db : DB) : DB :=
  {| parents := parents db; students := students db; courses := courses db;
     sessions := sessions db; attendances := f (attendances db);
     notifications := notifications db;
     parent_notifications := parent_notifications db;
     notification_logs := notification_logs db |}.

Definition set_notifications
    (f : gmap nat Notification.t → gmap nat Notification.t) (db : DB) : DB :=
  {| parents := parents db; students := students db; courses := courses db;
     sessions := sessions db; attendances := attendances db;
     notifications := f (notifications db);
     parent_notifications := parent_notifications db;
     notification_logs := notification_logs db |}.

Definition set_parent_notifications
    (f : gmap nat ParentNotification.t → gmap nat ParentNotification.t)
    (db : DB) : DB :=
  {| parents := parents db; students := students db; courses := courses db;
     sessions := sessions db; attendances := attendances db;
     notifications := notifications db;
     parent_notifications := f (parent_notifications db);
     notification_logs := notification_logs db |}.

Definition set_notification_logs
    (f : list NotificationLog.t → list NotificationLog.t) (db : DB) : DB :=
  {| parents := parents db; students := students db; courses := courses db;
     sessions := sessions db; attendances := attendances db;
     notifications := notifications db;
     parent_notifications := parent_notifications db;
     notification_logs := f (notification_logs db) |}.

(** ** Database calls: state and exceptions

    A call runs on a database and either returns or raises; what it wrote
    before raising stays written (autocommit). *)

Inductive Exception :=
| Http404 | DoesNotExist | MultipleObjectsReturned | IntegrityError.

Inductive Outcome (A : Type) :=
| Return (a : A)
| Raise (e : Exception).
Arguments Return {A} a.
Arguments Raise {A} e.

Definition M (A : Type) : Type := DB → Outcome A * DB.

Definition ret {A} (a : A) : M A := λ db, (Return a, db).

Definition raise {A} (e : Exception) : M A := λ db, (Raise e, db).

Definition bind {A B} (m : M A) (k : A → M B) : M B :=
  λ db, match m db with
        | (Return a, db') => k a db'
        | (Raise e, db') => (Raise e, db')
        end.

Notation "'let*' x ':=' m 'in' k" := (bind m (λ x, k))
  (at level 10, x pattern, m at level 100, k at level 200).

Definition get_db : M DB := λ db, (Return db, db).

Definition modify (f : DB → DB) : M unit := λ db, (Return tt, f db).

(** [try: m except Exception: h]. *)
Definition try_except {A} (m : M A) (h : Exception → M A) : M A :=
  λ db, match m db with
        | (Return a, db') => (Return a, db')
        | (Raise e, db') => h e db'
        end.

(** [for x in l: acc = body acc x], from [acc = init]. *)
Fixpoint for_fold {A S} (l : list A) (init : S) (body : S → A → M S) : M S :=
  match l with
  | [] => ret init
  | x :: l' => let* acc := body init x in for_fold l' acc body
  end.

(** Following a foreign key loads the row it points to. *)
Definition fetch {A} (table : DB → gmap nat A) (pk : nat) : M A :=
  λ db, match table db !! pk with
        | Some row => (Return row, db)
        | None => (Raise DoesNotExist, db)
        end.

Definition get_object_or_404 {A} (table : DB → gmap nat A) (pk : nat) : M A :=
  λ db, match table db !! pk with
        | Some row => (Return row, db)
        | None => (Raise Http404, db)
        end.

(** A key no row of the table has yet. *)
Definition new_pk {A} (table : gmap nat A) : nat := fresh (dom table).

(** A non-empty string is truthy. *)
Definition truthy (s : string) : bool :=
  match s with
  | EmptyString => false
  | String _ _ => true
  end.

(** ** Queries on the attendance table *)

(** [Attendance.objects.filter(session=session)]. *)
Definition session_rows (db : DB) (session : nat) : gmap nat Attendance.t :=
  filter (λ kv, Attendance.session kv.2 = session) (attendances db).

(** [Attendance.objects.filter(session=session, student=student)]. *)
Definition pair_rows (db : DB) (session student : nat) : gmap nat Attendance.t :=
  filter (λ kv, Attendance.session kv.2 = session
                ∧ Attendance.student kv.2 = student) (attendances db).

(** [Attendance.objects.filter(student=student)]. *)
Definition student_rows (db : DB) (student : nat) : gmap nat Attendance.t :=
  filter (λ kv, Attendance.student kv.2 = student) (attendances db).

(** [records.filter(session__course=course)]: the join with the sessions. *)
Definition in_course (db : DB) (course : nat) (r : Attendance.t) : Prop :=
  AttendanceSession.course <$> sessions db !! Attendance.session r = Some course.

Global Instance in_course_dec db course r : Decision (in_course db course r).
Proof. unfold in_course. apply _. Defined.

Definition course_rows (db : DB) (course : nat)
    (records : gmap nat Attendance.t) : gmap nat Attendance.t :=
  filter (λ kv, in_course db course kv.2) records.

(** The rows of a queryset, without their keys. *)
Definition rows {A} (q : gmap nat A) : list A := (map_to_list q).*2.

(** [Count('id', filter=Q(...))] over a list of records. *)
Definition Count (P : Attendance.t → Prop) `{∀ r, Decision (P r)}
    (records : list Attendance.t) : Z :=
  Z.of_nat (length (filter P records)).

Definition has_status (s : Status) (r : Attendance.t) : Prop :=
  Attendance.status r = s.

Global Instance has_status_dec s r : Decision (has_status s r).
Proof. unfold has_status. apply _. Defined.

(** [Q(status__in=['present', 'late'])]. *)
Definition present_or_late (r : Attendance.t) : Prop :=
  Attendance.status r = present ∨ Attendance.status r = late.

Global Instance present_or_late_dec r : Decision (present_or_late r).
Proof. unfold present_or_late. apply _. Defined.

(** ** Writes to the attendance table *)

(** [Attendance.objects.create(...)]: [unique_together = ['session',
    'student']] makes the insert fail when the pair has a row. *)
Definition Attendance_create (row : Attendance.t) : M (nat * Attendance.t) :=
  λ db,
    match map_to_list
            (pair_rows db (Attendance.session row) (Attendance.student row)) with
    | [] =>
        let pk := new_pk (attendances db) in
        (Return (pk, row), set_attendances (insert pk row) db)
    | _ :: _ => (Raise IntegrityError, db)
    end.

(** The [defaults] of [update_or_create]. *)
Record Defaults := {
  d_status : Status;
  d_verification_method : VerificationMethod;
  d_marked_by : option nat;
  d_location_lat : option spec_float;
  d_location_lng : option spec_float;
  d_face_confidence : option spec_float;
  d_notes : string }.

Definition apply_defaults (session student : nat) (d : Defaults) : Attendance.t :=
  {| Attendance.session := session;
     Attendance.student := student;
     Attendance.status := d_status d;
     Attendance.verification_method := d_verification_method d;
     Attendance.marked_by := d_marked_by d;
     Attendance.face_confidence := d_face_confidence d;
     Attendance.location_lat := d_location_lat d;
     Attendance.location_lng := d_location_lng d;
     Attendance.notes := d_notes d |}.

(** [Attendance.objects.update_or_create(session=, student=, defaults=)]:
    [get] the row of the pair; none: create it; one: set the defaults on it
    and save it under its key; several: MultipleObjectsReturned. *)
Definition Attendance_update_or_create (session student : nat) (d : Defaults)
    : M (nat * Attendance.t * bool) :=
  λ db,
    match map_to_list (pair_rows db session student) with
    | [] =>
        let pk := new_pk (attendances db) in
        let row := apply_defaults session student d in
        (Return (pk, row, true), set_attendances (insert pk row) db)
    | [(pk, old)] =>
        let row :=
          apply_defaults (Attendance.session old) (Attendance.student old) d in
        (Return (pk, row, false), set_attendances (insert pk row) db)
    | _ :: _ :: _ => (Raise MultipleObjectsReturned, db)
    end.

(** ** Notifications ([notifications/utils.py]) *)

Definition Notification_create (n : Notification.t) : M nat :=
  λ db, let pk := new_pk (notifications db) in
        (Return pk, set_notifications (insert pk n) db).

Definition ParentNotification_create (n : ParentNotification.t) : M nat :=
  λ db, let pk := new_pk (parent_notifications db) in
        (Return pk, set_parent_notifications (insert pk n) db).

Definition NotificationLog_create (l : NotificationLog.t) : M unit :=
  modify (set_notification_logs (λ logs, logs ++ [l])).

(** [obj.save()] writes the row back under its key. *)
Definition Notification_save (pk : nat) (n : Notification.t) : M unit :=
  modify (set_notifications (insert pk n)).

Definition ParentNotification_save (pk : nat) (n : ParentNotification.t) : M unit :=
  modify (set_parent_notifications (insert pk n)).

Definition set_email_sent (n : Notification.t) : Notification.t :=
  {| Notification.student := Notification.student n;
     Notification.notification_type := Notification.notification_type n;
     Notification.priority := Notification.priority n;
     Notification.title := Notification.title n;
     Notification.attendance := Notification.attendance n;
     Notification.is_sent := Notification.is_sent n;
     Notification.send_email := Notification.send_email n;
     Notification.send_sms := Notification.send_sms n;
     Notification.send_push := Notification.send_push n;
     Notification.email_sent := true;
     Notification.sms_sent := Notification.sms_sent n;
     Notification.push_sent := Notification.push_sent n |}.

Definition set_sms_sent (n : Notification.t) : Notification.t :=
  {| Notification.student := Notification.student n;
     Notification.notification_type := Notification.notification_type n;
     Notification.priority := Notification.priority n;
     Notification.title := Notification.title n;
     Notification.attendance := Notification.attendance n;
     Notification.is_sent := Notification.is_sent n;
     Notification.send_email := Notification.send_email n;
     Notification.send_sms := Notification.send_sms n;
     Notification.send_push := Notification.send_push n;
     Notification.email_sent := Notification.email_sent n;
     Notification.sms_sent := true;
     Notification.push_sent := Notification.push_sent n |}.

Definition set_push_sent (n : Notification.t) : Notification.t :=
  {| Notification.student := Notification.student n;
     Notification.notification_type := Notification.notification_type n;
     Notification.priority := Notification.priority n;
     Notification.title := Notification.title n;
     Notification.attendance := Notification.attendance n;
     Notification.is_sent := Notification.is_sent n;
     Notification.send_email := Notification.send_email n;
     Notification.send_sms := Notification.send_sms n;
     Notification.send_push := Notification.send_push n;
     Notification.email_sent := Notification.email_sent n;
     Notification.sms_sent := Notification.sms_sent n;
     Notification.push_sent := true |}.

Definition set_is_sent (n : Notification.t) : Notification.t :=
  {| Notification.student := Notification.student n;
     Notification.notification_type := Notification.notification_type n;
     Notification.priority := Notification.priority n;
     Notification.title := Notification.title n;
     Notification.attendance := Notification.attendance n;
     Notification.is_sent := true;
     Notification.send_email := Notification.send_email n;
     Notification.send_sms := Notification.send_sms n;
     Notification.send_push := Notification.send_push n;
     Notification.email_sent := Notification.email_sent n;
     Notification.sms_sent := Notification.sms_sent n;
     Notification.push_sent := Notification.push_sent n |}.

Definition student_log (notification : nat) (c : Channel) (to : string)
    : NotificationLog.t :=
  {| NotificationLog.notification := Some notification;
     NotificationLog.parent_notification := None;
     NotificationLog.channel := c;
     NotificationLog.recipient := to;
     NotificationLog.status := sent |}.

Definition parent_log (parent_notification : nat) (c : Channel) (to : string)
    : NotificationLog.t :=
  {| NotificationLog.notification := None;
     NotificationLog.parent_notification := Some parent_notification;
     NotificationLog.channel := c;
     NotificationLog.recipient := to;
     NotificationLog.status := sent |}.

(** [_simulate_send_notification(notification)]; [notification.student] is
    the object the notification was created with, here [student]. *)
Definition _simulate_send_notification (pk : nat) (notification : Notification.t)
    (student : Student.t) : M unit :=
  let n := set_is_sent notification in
  let* n :=
    (if Notification.send_email n then
       let* _ := NotificationLog_create
                   (student_log pk email (Student.email student)) in
       ret (set_email_sent n)
     else ret n) in
  let* n :=
    (if Notification.send_sms n && truthy (Student.phone student) then
       let* _ := NotificationLog_create
                   (student_log pk sms (Student.phone student)) in
       ret (set_sms_sent n)
     else ret n) in
  let* n :=
    (if Notification.send_push n then
       let* _ := NotificationLog_create
                   (student_log pk push
                      ("device_" +:+ pretty (Notification.student n))) in
       ret (set_push_sent n)
     else ret n) in
  Notification_save pk n.

(** [_simulate_send_parent_notification(parent_notification)]. *)
Definition _simulate_send_parent_notification (pk : nat)
    (parent_notification : ParentNotification.t) (parent : Parent.t) : M unit :=
  let* _ := NotificationLog_create (parent_log pk email (Parent.email parent)) in
  let sms_sent := truthy (Parent.phone parent) in
  let* _ :=
    (if sms_sent then
       NotificationLog_create (parent_log pk sms (Parent.phone parent))
     else ret tt) in
  ParentNotification_save pk
    {| ParentNotification.parent := ParentNotification.parent parent_notification;
       ParentNotification.student := ParentNotification.student parent_notification;
       ParentNotification.notification_type :=
         ParentNotification.notification_type parent_notification;
       ParentNotification.title := ParentNotification.title parent_notification;
       ParentNotification.email_sent := true;
       ParentNotification.sms_sent :=
         sms_sent || ParentNotification.sms_sent parent_notification |}.

(** The student notification both absence senders create:
    [send_email=True, send_push=True], [send_sms] left at its default. *)
Definition absence_notification (student : nat) (course_code : string)
    (attendance : nat) : Notification.t :=
  {| Notification.student := student;
     Notification.notification_type := absence;
     Notification.priority := high;
     Notification.title := "Absence Alert: " +:+ course_code;
     Notification.attendance := Some attendance;
     Notification.is_sent := false;
     Notification.send_email := true;
     Notification.send_sms := false;
     Notification.send_push := true;
     Notification.email_sent := false;
     Notification.sms_sent := false;
     Notification.push_sent := false |}.

Definition parent_notification (parent student : nat)
    (kind : NotificationType) (title : string) : ParentNotification.t :=
  {| ParentNotification.parent := parent;
     ParentNotification.student := student;
     ParentNotification.notification_type := kind;
     ParentNotification.title := title;
     ParentNotification.email_sent := false;
     ParentNotification.sms_sent := false |}.

(** [Notification.objects.filter(student=, attendance=,
    notification_type='absence')]. *)
Definition absence_notifications (db : DB) (student attendance : nat)
    : gmap nat Notification.t :=
  filter (λ kv, Notification.student kv.2 = student
                ∧ Notification.attendance kv.2 = Some attendance
                ∧ Notification.notification_type kv.2 = absence)
         (notifications db).

(** [queryset.exists()]. *)
Definition exists_ {A} (q : gmap nat A) : bool :=
  match map_to_list q with
  | [] => false
  | _ :: _ => true
  end.

(** The parent part shared by the senders: [if student.parent: ...]. *)
Definition notify_parent (student_pk : nat) (student : Student.t)
    (kind : NotificationType) (title : string) : M unit :=
  match Student.parent student with
  | Some parent_pk =>
      let* parent := fetch parents parent_pk in
      let row := parent_notification parent_pk student_pk kind title in
      let* pk := ParentNotification_create row in
      _simulate_send_parent_notification pk row parent
  | None => ret tt
  end.

(** [send_single_absentee_notification(attendance)]: the attendance object
    is its key and its row; returns the key of the notification created. *)
Definition send_single_absentee_notification (attendance_pk : nat)
    (attendance : Attendance.t) : M (option nat) :=
  if decide (Attendance.status attendance ≠ absent) then ret None
  else
    let* student := fetch students (Attendance.student attendance) in
    let* session := fetch sessions (Attendance.session attendance) in
    let* db := get_db in
    if exists_ (absence_notifications db (Attendance.student attendance)
                  attendance_pk)
    then ret None
    else
      let* course := fetch courses (AttendanceSession.course session) in
      let row := absence_notification (Attendance.student attendance)
                   (Course.code course) attendance_pk in
      let* pk := Notification_create row in
      let* _ := _simulate_send_notification pk row student in
      let* _ := notify_parent (Attendance.student attendance) student absence
                  ("Child Absence: " +:+ Student.full_name student) in
      ret (Some pk).

(** [Attendance.objects.filter(session=session, status='absent')]. *)
Definition absent_rows (db : DB) (session : nat) : gmap nat Attendance.t :=
  filter (λ kv, has_status absent kv.2) (session_rows db session).

(** The body of the loop of [send_absentee_notifications], for one absent
    record (its key and its row). *)
Definition notify_absent_record (session : AttendanceSession.t)
    (notifications_created : nat) (record : nat * Attendance.t) : M nat :=
  let* student := fetch students (Attendance.student record.2) in
  let* course := fetch courses (AttendanceSession.course session) in
  let row := absence_notification (Attendance.student record.2)
               (Course.code course) record.1 in
  let* pk := Notification_create row in
  let* _ := _simulate_send_notification pk row student in
  let* _ := notify_parent (Attendance.student record.2) student absence
              ("Child Absence Alert: " +:+ Student.full_name student) in
  ret (notifications_created + 1).

(** [send_absentee_notifications(session)]: one notification for every
    absent record of the session; returns how many were created. *)
Definition send_absentee_notifications (session_pk : nat)
    (session : AttendanceSession.t) : M nat :=
  let* db := get_db in
  let absent_records := map_to_list (absent_rows db session_pk) in
  for_fold absent_records 0 (notify_absent_record session).

(** ** Marking attendance ([api/views.py]) *)

(** The validated data of [AttendanceMarkSerializer] and the user of the
    request; [status] and [verification_method] are serializer choices. *)
Record MarkRequest := {
  session_id : nat;
  student_id : nat;
  status : Status;
  verification_method : option VerificationMethod;
  location_lat : option spec_float;
  location_lng : option spec_float;
  face_confidence : option spec_float;
  notes : option string;
  user : nat }.

Inductive Response :=
| Response200 (attendance_id : nat) (created : bool)
| Response400 (error : string)
| Response403 (error : string)
| Response500 (e : Exception).

Definition SessionNotActive : Response :=
  Response400 "This attendance session is not active".

Definition StudentNotEnrolled : Response :=
  Response403 "Student is not enrolled in this course".

Definition mark_defaults (data : MarkRequest) : Defaults :=
  {| d_status := status data;
     d_verification_method := default mobile_gps (verification_method data);
     d_marked_by := Some (user data);
     d_location_lat := location_lat data;
     d_location_lng := location_lng data;
     d_face_confidence := face_confidence data;
     d_notes := default EmptyString (notes data) |}.

(** [mark_attendance(request)], after the serializer accepted the data. *)
Definition mark_attendance (data : MarkRequest) : M Response :=
  try_except
    (let* session := get_object_or_404 sessions (session_id data) in
     let* _ := get_object_or_404 students (student_id data) in
     if negb (AttendanceSession.is_active session) then ret SessionNotActive
     else
       let* course := fetch courses (AttendanceSession.course session) in
       if negb (bool_decide (student_id data ∈ Course.students course))
       then ret StudentNotEnrolled
       else
         let* result :=
           Attendance_update_or_create (session_id data) (student_id data)
             (mark_defaults data) in
         let '(pk, attendance, created) := result in
         let* _ :=
           (if decide (status data = absent) then
              try_except
                (let* _ := send_single_absentee_notification pk attendance in
                 ret tt)
                (λ _, ret tt)
            else ret tt) in
         ret (Response200 pk created))
    (λ e, ret (Response500 e)).

(** ** The absentee detector ([face_recognition/ai_engine.py]) *)

(** [session.course.students.filter(is_active=True)]. *)
Definition enrolled_active (db : DB) (course : Course.t) : gmap nat Student.t :=
  filter (λ kv, kv.1 ∈ Course.students course ∧ Student.is_active kv.2 = true)
         (students db).

(** [Attendance.objects.filter(session=session).values_list('student_id',
    flat=True)]. *)
Definition marked_students (db : DB) (session : nat) : list nat :=
  Attendance.student <$> rows (session_rows db session).

(** [enrolled.exclude(id__in=marked)]. *)
Definition unmarked (db : DB) (session : nat) (course : Course.t)
    : gmap nat Student.t :=
  filter (λ kv, kv.1 ∉ marked_students db session) (enrolled_active db course).

Definition auto_absent_row (session student : nat) (marked_by : option nat)
    : Attendance.t :=
  {| Attendance.session := session;
     Attendance.student := student;
     Attendance.status := absent;
     Attendance.verification_method := manual;
     Attendance.marked_by := marked_by;
     Attendance.face_confidence := None;
     Attendance.location_lat := None;
     Attendance.location_lng := None;
     Attendance.notes := "Auto-marked as absent" |}.

(** [auto_mark_absentees(session, marked_by)]; the queryset of the loop is
    evaluated once, when the loop starts. *)
Definition auto_mark_absentees (session_pk : nat) (session : AttendanceSession.t)
    (marked_by : option nat) : M nat :=
  let* course := fetch courses (AttendanceSession.course session) in
  let* db := get_db in
  for_fold (map_to_list (unmarked db session_pk course)) 0 (λ count student,
    let* _ := Attendance_create (auto_absent_row session_pk student.1 marked_by) in
    ret (count + 1)).

(** What a Python set holds in [detect_session_absentees]: [Student]
    instances in one set, the ints of [values_list('student', flat=True)],
    which are the keys stored in the foreign-key column, in the other. *)
Inductive PyObject :=
| StudentInstance (pk : nat) (row : Student.t)
| IntObject (n : nat).

(** [a == b]: Django's [Model.__eq__] answers NotImplemented for an operand
    that is no model instance and [int.__eq__] does so for one that is no
    number, so an instance and an int are equal only if identical: never.
    Two instances of one model are equal when their keys are. *)
Definition py_eq (a b : PyObject) : bool :=
  match a, b with
  | StudentInstance pk1 _, StudentInstance pk2 _ => bool_decide (pk1 = pk2)
  | IntObject n1, IntObject n2 => bool_decide (n1 = n2)
  | _, _ => false
  end.

(** [x in s] for a set [s] given by its elements. *)
Definition py_set_contains (s : list PyObject) (x : PyObject) : bool :=
  existsb (py_eq x) s.

(** [a - b] on sets. *)
Definition py_set_difference (a b : list PyObject) : list PyObject :=
  filter (λ x, py_set_contains b x = false) a.

(** [detect_session_absentees(session)]. *)
Definition detect_session_absentees (session_pk : nat)
    (session : AttendanceSession.t) : M (list PyObject) :=
  let* course := fetch courses (AttendanceSession.course session) in
  let* db := get_db in
  let enrolled_students :=
    (λ kv, StudentInstance kv.1 kv.2) <$> map_to_list (enrolled_active db course) in
  let present_students :=
    (λ r, IntObject (Attendance.student r))
      <$> rows (filter (λ kv, present_or_late kv.2) (session_rows db session_pk)) in
  let absent_students := py_set_difference enrolled_students present_students in
  ret absent_students.

(** [(stats['present'] / stats['total']) * 100]. *)
Definition raw_percentage (present total : Z) : spec_float :=
  Py.float_mul_int (Py.int_true_divide present total) 100.

(** The body of the loop of both low-attendance scans: the percentage of a
    student's records when there are records and it is below the threshold. *)
Definition low_percentage (threshold : spec_float) (records : list Attendance.t)
    : option spec_float :=
  let total := Count (λ _, True) records in
  let present := Count present_or_late records in
  if (0 <? total)%Z then
    let percentage := raw_percentage present total in
    if Py.float_lt percentage threshold then Some percentage else None
  else None.

(** [self.attendance_threshold = 75]. *)
Definition attendance_threshold : spec_float := Py.float_of_int 75.

(** [filter(courses=course)]: the join with the enrolment. *)
Definition enrolled_in (db : DB) (course student : nat) : Prop :=
  match courses db !! course with
  | Some row => student ∈ Course.students row
  | None => False
  end.

Global Instance enrolled_in_dec db course student :
  Decision (enrolled_in db course student).
Proof. unfold enrolled_in. destruct (courses db !! course); apply _. Defined.





(** ** The low-attendance sweep ([notifications/utils.py]) *)





(** ** Statistics *)

Module Stats.
Record t := {
  total : Z;
  present : Z;
  absent : Z;
  late : Z;
  excused : Z;
  percentage : Py.num }.
End Stats.

(** [round(numerator / total * 100, 1)]: the division comes first. *)
Definition rounded_percentage (numerator total : Z) : spec_float :=
  Py.round1 (Py.float_mul_int (Py.int_true_divide numerator total) 100).

(** The body of [InstantAttendanceUpdater.get_session_stats] on the records
    of the session. *)
Definition get_session_stats_on (records : list Attendance.t) : Stats.t :=
  let stats_total := Count (λ _, True) records in
  let stats_present := Count (has_status present) records in
  let stats_absent := Count (has_status absent) records in
  let stats_late := Count (has_status late) records in
  let stats_excused := Count (has_status excused) records in
  let total := Py.int_or stats_total 1 in
  {| Stats.total := stats_total;
     Stats.present := stats_present;
     Stats.absent := stats_absent;
     Stats.late := stats_late;
     Stats.excused := stats_excused;
     Stats.percentage :=
       Py.Float (rounded_percentage (stats_present + stats_late) total) |}.

Definition get_session_stats (db : DB) (session : nat) : Stats.t :=
  get_session_stats_on (rows (session_rows db session)).

(** The statistics of [session_detail] ([attendance/views.py]). *)
Definition session_detail_on (records : list Attendance.t) : Stats.t :=
  let stats_total := Count (λ _, True) records in
  let stats_present := Count (has_status present) records in
  let stats_absent := Count (has_status absent) records in
  let stats_late := Count (has_status late) records in
  let stats_excused := Count (has_status excused) records in
  {| Stats.total := stats_total;
     Stats.present := stats_present;
     Stats.absent := stats_absent;
     Stats.late := stats_late;
     Stats.excused := stats_excused;
     Stats.percentage :=
       if (0 <? stats_total)%Z then
         Py.Float (rounded_percentage (stats_present + stats_late) stats_total)
       else Py.Int 0 |}.

Definition session_detail (db : DB) (session : nat) : Stats.t :=
  session_detail_on (rows (session_rows db session)).

Module CourseStats.
Record t := {
  course_code : string;
  course_name : string;
  total : Z;
  present : Z;
  absent : Z;
  percentage : spec_float }.
End CourseStats.

Module StudentStats.
Record t := {
  total_classes : Z;
  present_count : Z;
  absent_count : Z;
  late_count : Z;
  attendance_percentage : spec_float;
  course_wise_stats : list CourseStats.t }.
End StudentStats.

(** One entry of [course_wise_stats]. *)
Definition course_stats (course : Course.t) (course_records : list Attendance.t)
    : CourseStats.t :=
  let agg_total := Count (λ _, True) course_records in
  let agg_present := Count (has_status present) course_records in
  let agg_absent := Count (has_status absent) course_records in
  let course_total := Py.int_or agg_total 1 in
  {| CourseStats.course_code := Course.code course;
     CourseStats.course_name := Course.name course;
     CourseStats.total := agg_total;
     CourseStats.present := agg_present;
     CourseStats.absent := agg_absent;
     CourseStats.percentage := rounded_percentage agg_present course_total |}.

(** [student.courses.all()]. *)
Definition courses_of (db : DB) (student : nat) : gmap nat Course.t :=
  filter (λ kv, student ∈ Course.students kv.2) (courses db).

(** [StudentViewSet.attendance_stats] for the student of the URL. *)
Definition attendance_stats (db : DB) (student : nat) : StudentStats.t :=
  let records := student_rows db student in
  let stats_total := Count (λ _, True) (rows records) in
  let stats_present := Count (has_status present) (rows records) in
  let stats_absent := Count (has_status absent) (rows records) in
  let stats_late := Count (has_status late) (rows records) in
  let total := Py.int_or stats_total 1 in
  {| StudentStats.total_classes := stats_total;
     StudentStats.present_count := stats_present;
     StudentStats.absent_count := stats_absent;
     StudentStats.late_count := stats_late;
     StudentStats.attendance_percentage :=
       rounded_percentage (stats_present + stats_late) total;
     StudentStats.course_wise_stats :=
       (λ kv, course_stats kv.2 (rows (course_rows db kv.1 records)))
         <$> map_to_list (courses_of db student) |}.

(** ** Writes that touch some columns only *)

Definition with_status (s : Status) (r : Attendance.t) : Attendance.t :=
  {| Attendance.session := Attendance.session r;
     Attendance.student := Attendance.student r;
     Attendance.status := s;
     Attendance.verification_method := Attendance.verification_method r;
     Attendance.marked_by := Attendance.marked_by r;
     Attendance.face_confidence := Attendance.face_confidence r;
     Attendance.location_lat := Attendance.location_lat r;
     Attendance.location_lng := Attendance.location_lng r;
     Attendance.notes := Attendance.notes r |}.

Definition with_verification_method (m : VerificationMethod) (r : Attendance.t)
    : Attendance.t :=
  {| Attendance.session := Attendance.session r;
     Attendance.student := Attendance.student r;
     Attendance.status := Attendance.status r;
     Attendance.verification_method := m;
     Attendance.marked_by := Attendance.marked_by r;
     Attendance.face_confidence := Attendance.face_confidence r;
     Attendance.location_lat := Attendance.location_lat r;
     Attendance.location_lng := Attendance.location_lng r;
     Attendance.notes := Attendance.notes r |}.

Definition with_marked_by (u : option nat) (r : Attendance.t) : Attendance.t :=
  {| Attendance.session := Attendance.session r;
     Attendance.student := Attendance.student r;
     Attendance.status := Attendance.status r;
     Attendance.verification_method := Attendance.verification_method r;
     Attendance.marked_by := u;
     Attendance.face_confidence := Attendance.face_confidence r;
     Attendance.location_lat := Attendance.location_lat r;
     Attendance.location_lng := Attendance.location_lng r;
     Attendance.notes := Attendance.notes r |}.


Definition with_notes (n : string) (r : Attendance.t) : Attendance.t :=
  {| Attendance.session := Attendance.session r;
     Attendance.student := Attendance.student r;
     Attendance.status := Attendance.status r;
     Attendance.verification_method := Attendance.verification_method r;
     Attendance.marked_by := Attendance.marked_by r;
     Attendance.face_confidence := Attendance.face_confidence r;
     Attendance.location_lat := Attendance.location_lat r;
     Attendance.location_lng := Attendance.location_lng r;
     Attendance.notes := n |}.

(** The row of [Attendance(session=, student=)] before any other column is
    set: the defaults of the model ([status] 'absent', [verification_method]
    'manual', the nullable columns null, [notes] blank). *)
Definition blank_attendance (session student : nat) : Attendance.t :=
  {| Attendance.session := session;
     Attendance.student := student;
     Attendance.status := absent;
     Attendance.verification_method := manual;
     Attendance.marked_by := None;
     Attendance.face_confidence := None;
     Attendance.location_lat := None;
     Attendance.location_lng := None;
     Attendance.notes := EmptyString |}.

(** [update_or_create(session=, student=, defaults=)] when [defaults] names
    some columns only: [set_defaults] sets these columns, on the row found or
    on a new row that has the defaults of the model elsewhere. *)
Definition Attendance_update_or_create_with (session student : nat)
    (set_defaults : Attendance.t → Attendance.t)
    : M (nat * Attendance.t * bool) :=
  λ db,
    match map_to_list (pair_rows db session student) with
    | [] =>
        let pk := new_pk (attendances db) in
        let row := set_defaults (blank_attendance session student) in
        (Return (pk, row, true), set_attendances (insert pk row) db)
    | [(pk, old)] =>
        let row := set_defaults old in
        (Return (pk, row, false), set_attendances (insert pk row) db)
    | _ :: _ :: _ => (Raise MultipleObjectsReturned, db)
    end.

(** [attendance.save()] of a row loaded from the table. *)
Definition Attendance_save (pk : nat) (row : Attendance.t) : M unit :=
  modify (set_attendances (insert pk row)).


(** ** Bulk marking ([api/views.py]) *)

(** One dict of [attendance_data]: a key may be missing.  The ids are ints,
    the statuses and methods are those of the model's choices, and the user
    of the request is logged in. *)
Record BulkItem := {
  item_student_id : option nat;
  item_status : option Status;
  item_verification_method : option VerificationMethod;
  item_notes : option string }.

Record BulkRequest := {
  bulk_session_id : nat;
  attendance_data : list BulkItem;
  bulk_user : nat }.

(** Why an item went to [errors]. *)
Inductive BulkError :=
| KeyError
| NotEnrolled
| Raised (e : Exception).

Inductive BulkResponse :=
| Bulk200 (results : list (nat * Status * bool))
          (errors : list (option nat * BulkError))
| Bulk400 (error : string)
| Bulk500 (e : Exception).

Definition bulk_defaults (user : nat) (item : BulkItem)
    (r : Attendance.t) : Attendance.t :=
  with_notes (default EmptyString (item_notes item))
    (with_marked_by (Some user)
       (with_verification_method
          (default manual (item_verification_method item))
          (with_status (default present (item_status item)) r))).

(** The body of the loop of [bulk_mark_attendance]: its [try] catches
    everything, so the loop goes on to the next item. *)
Definition bulk_mark_item (session_pk : nat) (session : AttendanceSession.t)
    (user : nat)
    (acc : list (nat * Status * bool) * list (option nat * BulkError))
    (item : BulkItem)
    : M (list (nat * Status * bool) * list (option nat * BulkError)) :=
  let '(results, errors) := acc in
  match item_student_id item with
  | None => ret (results, errors ++ [(None, KeyError)])
  | Some student_pk =>
      try_except
        (let* _ := get_object_or_404 students student_pk in
         let* course := fetch courses (AttendanceSession.course session) in
         if negb (bool_decide (student_pk ∈ Course.students course))
         then ret (results, errors ++ [(Some student_pk, NotEnrolled)])
         else
           let* result :=
             Attendance_update_or_create_with session_pk student_pk
               (bulk_defaults user item) in
           let '(pk, attendance, created) := result in
           ret (results ++ [(student_pk, Attendance.status attendance, created)],
                errors))
        (λ e, ret (results, errors ++ [(Some student_pk, Raised e)]))
  end.

(** [bulk_mark_attendance(request)], after the serializer accepted the
    data. *)
Definition bulk_mark_attendance (data : BulkRequest) : M BulkResponse :=
  try_except
    (let* session := get_object_or_404 sessions (bulk_session_id data) in
     if negb (AttendanceSession.is_active session)
     then ret (Bulk400 "This attendance session is not active")
     else
       let* acc :=
         for_fold (attendance_data data) ([], [])
           (bulk_mark_item (bulk_session_id data) session (bulk_user data)) in
       let* _ :=
         try_except
           (let* _ := send_absentee_notifications (bulk_session_id data)
                        session in
            ret tt)
           (λ _, ret tt) in
       ret (Bulk200 acc.1 acc.2))
    (λ e, ret (Bulk500 e)).

(** ** Marking by face ([api/views.py]) *)






(** ** Confirming a mark ([notifications/utils.py]) *)

(** The notification of [send_attendance_confirmation]: [send_push=True] is
    passed, [send_email] and [send_sms] are left at their defaults. *)
Definition confirmation_notification (student : nat) (course_code : string)
    (attendance : nat) : Notification.t :=
  {| Notification.student := student;
     Notification.notification_type := attendance_marked;
     Notification.priority := low;
     Notification.title := "Attendance Confirmed: " +:+ course_code;
     Notification.attendance := Some attendance;
     Notification.is_sent := false;
     Notification.send_email := true;
     Notification.send_sms := false;
     Notification.send_push := true;
     Notification.email_sent := false;
     Notification.sms_sent := false;
     Notification.push_sent := false |}.

(** [send_attendance_confirmation(attendance)]; returns the key of the
    notification created. *)
Definition send_attendance_confirmation (attendance_pk : nat)
    (attendance : Attendance.t) : M (option nat) :=
  if bool_decide (Attendance.status attendance ∉ [present; late]) then ret None
  else
    let* student := fetch students (Attendance.student attendance) in
    let* session := fetch sessions (Attendance.session attendance) in
    let* course := fetch courses (AttendanceSession.course session) in
    let row := confirmation_notification (Attendance.student attendance)
                 (Course.code course) attendance_pk in
    let* pk := Notification_create row in
    let* _ := _simulate_send_notification pk row student in
    ret (Some pk).

(** ** The web views ([attendance/views.py]) *)

Module AttendanceViews.

(** The POST data of the manual form, by student key ([status_<id>],
    [notes_<id>]), and the user; the statuses are those the form offers. *)
Record ManualForm := {
  form_status : gmap nat Status;
  form_notes : gmap nat string;
  form_user : nat }.

(** [{att.student_id: att for att in Attendance.objects.filter(session=
    session)}]: a later record of the same student replaces an earlier one. *)
Definition existing_records (db : DB) (session_pk : nat)
    : gmap nat (nat * Attendance.t) :=
  foldl (λ d att, <[Attendance.student att.2 := att]> d) ∅
        (map_to_list (session_rows db session_pk)).

Definition manual_row (session student : nat) (s : Status) (user : nat)
    (n : string) : Attendance.t :=
  {| Attendance.session := session;
     Attendance.student := student;
     Attendance.status := s;
     Attendance.verification_method := manual;
     Attendance.marked_by := Some user;
     Attendance.face_confidence := None;
     Attendance.location_lat := None;
     Attendance.location_lng := None;
     Attendance.notes := n |}.

(** The body of the loop of [mark_attendance], for one student. *)
Definition mark_student (session_pk : nat)
    (existing : gmap nat (nat * Attendance.t)) (form : ManualForm)
    (_ : unit) (student : nat * Student.t) : M unit :=
  let status := default absent (form_status form !! student.1) in
  let notes := default EmptyString (form_notes form !! student.1) in
  match existing !! student.1 with
  | Some (pk, record) =>
      Attendance_save pk (with_notes notes (with_status status record))
  | None =>
      let* _ := Attendance_create
                  (manual_row session_pk student.1 status (form_user form)
                     notes) in
      ret tt
  end.

(** [mark_attendance(request, session_id)] on a POST.  The students come
    [order_by('roll_number')], a column the model leaves out: [by_roll_number]
    stands for that order. *)
Definition mark_attendance
    (by_roll_number : list (nat * Student.t) → list (nat * Student.t))
    (session_pk : nat) (form : ManualForm) : M unit :=
  let* session := get_object_or_404 sessions session_pk in
  let* course := fetch courses (AttendanceSession.course session) in
  let* db := get_db in
  let students := by_roll_number (map_to_list (enrolled_active db course)) in
  let existing := existing_records db session_pk in
  let* _ := for_fold students tt (mark_student session_pk existing form) in
  let* _ := send_absentee_notifications session_pk session in
  ret tt.

Inductive AjaxResponse :=
| Ajax200 (new_status : Status)
| Ajax400 (e : Exception).

(** [update_attendance_ajax(request)]: [attendance_id] and [status] may be
    missing from the POST data; a status that is given is one of the
    choices.  Saving a row without status breaks the NOT NULL constraint of
    the column. *)
Definition update_attendance_ajax (attendance_id : option nat)
    (new_status : option Status) : M AjaxResponse :=
  try_except
    (match attendance_id with
     | None => raise Http404
     | Some pk =>
         let* attendance := get_object_or_404 attendances pk in
         let old_status := Attendance.status attendance in
         match new_status with
         | None => raise IntegrityError
         | Some s =>
             let attendance := with_status s attendance in
             let* _ := Attendance_save pk attendance in
             let* _ :=
               (if bool_decide (s = absent ∧ old_status ≠ absent) then
                  let* _ := send_single_absentee_notification pk attendance in
                  ret tt
                else ret tt) in
             ret (Ajax200 s)
         end
     end)
    (λ e, ret (Ajax400 e)).

End AttendanceViews.

(** ** The views of the detector ([face_recognition/views.py]) *)

Module FaceRecognitionViews.

(** [auto_mark_absentees(request, session_id)]; answers the count. *)
Definition auto_mark_absentees (session_pk : nat) (user : nat) : M nat :=
  let* session := get_object_or_404 sessions session_pk in
  let* count := auto_mark_absentees session_pk session (Some user) in
  let* _ := send_absentee_notifications session_pk session in
  ret count.

End FaceRecognitionViews.

(** ** The formulas of the specification, for comparison *)

(** [round(100 * numerator / max(total, 1), 1)] as written: the product is
    an int, the quotient its correctly rounded float. *)
Definition spec_percentage (numerator total : Z) : spec_float :=
  Py.round1 (Py.int_true_divide (100 * numerator) (Z.max total 1)).

(** Half-up rounding of the exact value [100 * numerator / total] to
    tenths: the tenths of the result. *)
Definition half_up_tenths (numerator total : Z) : Z :=
  ((2000 * numerator + total) / (2 * total))%Z.

(** [k] tenths is a nearest-tenth rounding of [m * 2^e], a tie going to an
    even [k]. *)
Definition nearest_even_tenths (m : positive) (e k : Z) : Prop :=
  let num := (10 * Zpos m * 2 ^ Z.max e 0)%Z in
  let den := (2 ^ Z.max (- e) 0)%Z in
  (Z.abs (2 * num - 2 * k * den) ≤ den)%Z
  ∧ (Z.abs (2 * num - 2 * k * den) = den → Z.even k = true).

(** A record with a given status. *)
Definition record_with (session student : nat) (s : Status) : Attendance.t :=
  {| Attendance.session := session;
     Attendance.student := student;
     Attendance.status := s;
     Attendance.verification_method := manual;
     Attendance.marked_by := None;
     Attendance.face_confidence := None;
     Attendance.location_lat := None;
     Attendance.location_lng := None;
     Attendance.notes := EmptyString |}.

(** Records of one session for students [first], [first + 1], ... with the
    statuses of the list. *)
Fixpoint records_of (session first : nat) (l : list Status) : list Attendance.t :=
  match l with
  | [] => []
  | s :: l' => record_with session first s :: records_of session (S first) l'
  end.

(** ** Vocabulary of the properties *)

(** The scope of the low-attendance computation in the words of the
    specification: the Attendance records of the student and, when a course
    is considered, of the sessions of that course. *)
Definition spec_in_scope (db : DB) (course : option nat) (student : nat)
    (r : Attendance.t) : Prop :=
  Attendance.student r = student
  ∧ match course with
    | Some c =>
        ∃ session,
          sessions db !! Attendance.session r = Some session
          ∧ AttendanceSession.course session = c
    | None => True
    end.

Global Instance spec_in_scope_dec db course student r :
  Decision (spec_in_scope db course student r).
Proof.
  unfold spec_in_scope. apply and_dec; [apply _|].
  destruct course as [c|]; [|apply _].
  destruct (sessions db !! Attendance.session r) as [session|].
  - destruct (decide (AttendanceSession.course session = c)) as [Heq|Hne].
    + left. by exists session.
    + right. intros (session' & [= <-] & ?). done.
  - right. by intros (session' & ? & _).
Defined.



(** The ledger side of the database: everything but the notification
    tables and their log. *)
Definition same_ledger (db db' : DB) : Prop :=
  parents db' = parents db
  ∧ students db' = students db
  ∧ courses db' = courses db
  ∧ sessions db' = sessions db
  ∧ attendances db' = attendances db.

Global Instance spec_float_eq_dec : EqDecision spec_float.
Proof. solve_decision. Defined.

(** [present / total * 100] computed with the floats of the kernel. *)
Definition kernel_percentage (present total : Z) : spec_float :=
  Prim2SF
    (PrimFloat.mul
       (PrimFloat.div (PrimFloat.of_uint63 (Uint63.of_Z present))
          (PrimFloat.of_uint63 (Uint63.of_Z total)))
       (PrimFloat.of_uint63 100)).

(** The model of [present / total * 100] and the kernel agree for
    [present <= total <= n]. *)
Definition raw_percentage_agrees_upto (n : nat) : bool :=
  forallb (λ total,
    forallb (λ present,
      bool_decide
        (raw_percentage (Z.of_nat present) (Z.of_nat total)
         = kernel_percentage (Z.of_nat present) (Z.of_nat total)))
      (seq 0 (S total)))
    (seq 1 n).

(** [unique_together = ['session', 'student']] as a property of the data. *)
Definition unique_together (db : DB) : Prop :=
  ∀ session student, size (pair_rows db session student) ≤ 1.

(** The rows a database points to exist: the student of every attendance
    row and the parent of every student. *)
Definition referential_integrity (db : DB) : Prop :=
  (∀ pk r, attendances db !! pk = Some r →
     is_Some (students db !! Attendance.student r))
  ∧ (∀ st row p, students db !! st = Some row → Student.parent row = Some p →
       is_Some (parents db !! p)).


(** A call keeps the uniqueness of the pairs. *)
Definition keeps_unique (db db' : DB) : Prop :=
  unique_together db → unique_together db'.

(** Whatever the call does, raising included, the database it leaves is
    related to the one it started on. *)
Definition preserves {A} (R : DB → DB → Prop) (m : M A) : Prop :=
  ∀ db o db', m db = (o, db') → R db db'.

(** ** A small campus, for examples

    Course CS101 has Alice (1) and Bob (2) enrolled, not Carol (3);
    session 1 of the course is active, session 2 is closed. *)

Definition alice : Student.t :=
  {| Student.student_id := "S001"; Student.first_name := "Alice";
     Student.last_name := "Rao"; Student.email := "alice@campus.test";
     Student.phone := EmptyString; Student.parent := Some 1;
     Student.is_active := true |}.

Definition bob : Student.t :=
  {| Student.student_id := "S002"; Student.first_name := "Bob";
     Student.last_name := "Iyer"; Student.email := "bob@campus.test";
     Student.phone := "5550102"; Student.parent := None;
     Student.is_active := true |}.

Definition carol : Student.t :=
  {| Student.student_id := "S003"; Student.first_name := "Carol";
     Student.last_name := "Das"; Student.email := "carol@campus.test";
     Student.phone := EmptyString; Student.parent := None;
     Student.is_active := true |}.

Definition alice_parent : Parent.t :=
  {| Parent.name := "Mr Rao"; Parent.email := "rao@home.test";
     Parent.phone := "5550101" |}.

Definition cs101 : Course.t :=
  {| Course.code := "CS101"; Course.name := "Programming";
     Course.students := {[1; 2]} |}.

Definition open_session : AttendanceSession.t :=
  {| AttendanceSession.course := 1; AttendanceSession.is_active := true |}.

Definition closed_session : AttendanceSession.t :=
  {| AttendanceSession.course := 1; AttendanceSession.is_active := false |}.

Definition campus : DB :=
  {| parents := {[1 := alice_parent]};
     students := {[1 := alice; 2 := bob; 3 := carol]};
     courses := {[1 := cs101]};
     sessions := {[1 := open_session; 2 := closed_session]};
     attendances := ∅;
     notifications := ∅;
     parent_notifications := ∅;
     notification_logs := [] |}.

(** A request of user 7 to mark a student in a session. *)
Definition mark (session student : nat) (s : Status) : MarkRequest :=
  {| session_id := session; student_id := student; status := s;
     verification_method := None; location_lat := None; location_lng := None;
     face_confidence := None; notes := None; user := 7 |}.

(** The database a call leaves. *)
Definition after {A} (m : M A) (db : DB) : DB := (m db).2.

(** The campus after Alice was marked present in session 1. *)
Definition campus_alice_present : DB :=
  set_attendances (λ _, {[0 := record_with 1 1 present]}) campus.

(** What the parent part of a sender may change: parent notifications, and
    log entries that belong to no student notification. *)
Definition parent_side (db db' : DB) : Prop :=
  same_ledger db db'
  ∧ notifications db' = notifications db
  ∧ ∃ logs,
      notification_logs db' = notification_logs db ++ logs
      ∧ Forall (λ l, NotificationLog.notification l = None) logs.

(** Alice's absence in session 1, a record not yet notified. *)
Definition alice_absent : Attendance.t := record_with 1 1 absent.

Definition campus_alice_absent : DB :=
  set_attendances (λ _, {[0 := alice_absent]}) campus.

(** The campus after Alice's absence was notified by the single path. *)
Definition campus_alice_notified : DB :=
  after (send_single_absentee_notification 0 alice_absent) campus_alice_absent.

(** A student with 80 sessions of CS101 on record, present at the first 23
    and absent at the rest. *)
Definition semester : DB :=
  {| parents := ∅;
     students := {[1 := alice]};
     courses := {[1 := cs101]};
     sessions := list_to_map ((λ k, (k, open_session)) <$> seq 1 80);
     attendances :=
       list_to_map
         ((λ k, (k, record_with k 1 (if k <=? 23 then present else absent)))
            <$> seq 1 80);
     notifications := ∅;
     parent_notifications := ∅;
     notification_logs := [] |}.



(** ** Vocabulary of the properties of the further views *)

(** A change of a row that leaves its key columns alone. *)
Definition keeps_pair (f : Attendance.t → Attendance.t) : Prop :=
  ∀ r, Attendance.session (f r) = Attendance.session r
       ∧ Attendance.student (f r) = Attendance.student r.

(** Every table but the attendance table is as it was. *)
Definition only_attendances (db db' : DB) : Prop :=
  parents db' = parents db
  ∧ students db' = students db
  ∧ courses db' = courses db
  ∧ sessions db' = sessions db
  ∧ notifications db' = notifications db
  ∧ parent_notifications db' = parent_notifications db
  ∧ notification_logs db' = notification_logs db.

(** The items the loop of [bulk_mark_attendance] marks, with the status it
    reports for them: those of an existing student enrolled in the course. *)
Definition accepted (db : DB) (course : Course.t) (item : BulkItem)
    : option (nat * Status) :=
  match item_student_id item with
  | Some st =>
      if decide (is_Some (students db !! st) ∧ st ∈ Course.students course)
      then Some (st, default present (item_status item))
      else None
  | None => None
  end.

(** The items it sends to [errors], with the error. *)
Definition rejected (db : DB) (course : Course.t) (item : BulkItem)
    : option (option nat * BulkError) :=
  match item_student_id item with
  | None => Some (None, KeyError)
  | Some st =>
      match students db !! st with
      | None => Some (Some st, Raised Http404)
      | Some _ =>
          if decide (st ∈ Course.students course) then None
          else Some (Some st, NotEnrolled)
      end
  end.

(** No record has two absence notifications. *)
Definition notified_once (db : DB) : Prop :=
  ∀ student attendance, size (absence_notifications db student attendance) ≤ 1.

(** A call keeps every record at no more than one absence notification. *)
Definition keeps_notified_once (db db' : DB) : Prop :=
  notified_once db → notified_once db'.

(** ** Requests on the small campus, for examples *)

(** An item of a bulk request that gives no method and no notes. *)
Definition bulk_item (student : option nat) (s : option Status) : BulkItem :=
  {| item_student_id := student; item_status := s;
     item_verification_method := None; item_notes := None |}.

(** A bulk request of user 7. *)
Definition bulk_request (session : nat) (items : list BulkItem) : BulkRequest :=
  {| bulk_session_id := session; attendance_data := items; bulk_user := 7 |}.


(** The manual form posted by user 7, without notes. *)
Definition manual_form (statuses : gmap nat Status)
    : AttendanceViews.ManualForm :=
  {| AttendanceViews.form_status := statuses;
     AttendanceViews.form_notes := ∅;
     AttendanceViews.form_user := 7 |}.

(** * Properties *)

(** ** Counting *)

Section Counting.
Implicit Types (records : list Attendance.t) (r : Attendance.t).

Lemma Count_nonneg (P : Attendance.t → Prop) `{∀ r, Decision (P r)} records :
  (0 ≤ Count P records)%Z.
Proof. unfold Count. lia. Qed.

Lemma Count_nil (P : Attendance.t → Prop) `{∀ r, Decision (P r)} :
  Count P [] = 0%Z.
Proof. reflexivity. Qed.

Lemma Count_cons (P : Attendance.t → Prop) `{∀ r, Decision (P r)} r records :
  Count P (r :: records)
  = ((if decide (P r) then 1 else 0) + Count P records)%Z.
Proof.
  unfold Count. rewrite filter_cons.
  destruct (decide (P r)); simpl length; lia.
Qed.

Lemma Count_all records :
  Count (λ _, True) records = Z.of_nat (length records).
Proof.
  induction records as [|r records IH]; [done|].
  rewrite Count_cons, IH. simpl length. case_decide; [lia | tauto].
Qed.


Lemma Count_none (P : Attendance.t → Prop) `{∀ r, Decision (P r)} records :
  (∀ r, r ∈ records → ¬ P r) → Count P records = 0%Z.
Proof.
  induction records as [|r records IH]; intros Hnone; [done|].
  rewrite Count_cons, IH.
  - case_decide; [|done]. exfalso. eapply Hnone; [left | done].
  - intros r' Hr'. apply Hnone. by right.
Qed.

(** The four statuses partition the records. *)
Lemma Count_by_status records :
  Count (λ _, True) records
  = (Count (has_status present) records + Count (has_status absent) records
     + Count (has_status late) records + Count (has_status excused) records)%Z.
Proof.
  induction records as [|r records IH]; [done|].
  rewrite !Count_cons, IH.
  repeat case_decide; unfold has_status in *; try lia;
    destruct (Attendance.status r); congruence || tauto.
Qed.

Lemma Count_present_or_late records :
  Count present_or_late records
  = (Count (has_status present) records + Count (has_status late) records)%Z.
Proof.
  induction records as [|r records IH]; [done|].
  rewrite !Count_cons, IH.
  repeat case_decide; unfold present_or_late, has_status in *; try lia;
    destruct (Attendance.status r); intuition congruence.
Qed.

End Counting.

(** ** Numbers *)

Lemma int_or_max (a : Z) : (0 ≤ a)%Z → Py.int_or a 1 = Z.max a 1.
Proof.
  intros Ha. unfold Py.int_or. destruct (Z.eqb_spec a 0); lia.
Qed.

(** No division of the model has a zero divisor. *)
Lemma divisor_guard_positive (records : list Attendance.t) :
  (0 < Py.int_or (Count (λ _, True) records) 1)%Z.
Proof.
  rewrite int_or_max by apply Count_nonneg.
  lia.
Qed.

Lemma rounded_percentage_zero (total : Z) :
  (0 < total)%Z → rounded_percentage 0 total = S754_zero false.
Proof.
  intros Ht. destruct total as [|p|p]; try lia. reflexivity.
Qed.

Lemma round_half_even_nearest (n d : Z) :
  (0 < d)%Z →
  let k := Py.round_half_even n d in
  (Z.abs (2 * n - 2 * k * d) ≤ d)%Z
  ∧ (Z.abs (2 * n - 2 * k * d) = d → Z.even k = true).
Proof.
  intros Hd k. subst k. unfold Py.round_half_even.
  pose proof (Z.div_mod n d ltac:(lia)) as Hdiv.
  pose proof (Z.mod_pos_bound n d Hd) as Hmod.
  set (q := (n / d)%Z) in *. set (r := (n mod d)%Z) in *.
  destruct (Z.compare_spec (2 * r) d) as [Heq|Hlt|Hgt].
  - destruct (Z.even q) eqn:Heven.
    + split; [nia | done].
    + split; [nia |]. intros _.
      rewrite Z.add_1_r, Z.even_succ, <- Z.negb_even, Heven. done.
  - split; [nia | nia].
  - split; [nia | nia].
Qed.

Lemma tenths_nearest_even (m : positive) (e : Z) :
  nearest_even_tenths m e (Py.tenths m e).
Proof.
  unfold nearest_even_tenths, Py.tenths.
  destruct e as [|p|p].
  - change (Z.max 0 0) with 0%Z. change (Z.max (- 0) 0) with 0%Z.
    rewrite !Z.pow_0_r. split; [lia | lia].
  - rewrite Z.max_l by lia. rewrite (Z.max_r (- Z.pos p) 0) by lia.
    rewrite Z.pow_0_r. split; [lia | lia].
  - rewrite (Z.max_r (Z.neg p) 0) by lia.
    rewrite (Z.max_l (- Z.neg p) 0) by lia.
    rewrite Z.pow_0_r, Z.mul_1_r.
    change (- Z.neg p)%Z with (Z.pos p).
    apply round_half_even_nearest.
    apply Z.pow_pos_nonneg; lia.
Qed.

(** The binary64 model agrees with the floats of the kernel on the
    computations of the examples: [23 / 80 * 100], [1 / 400 * 100] and the
    float literals 28.7, 28.8, 0.2 and 0.3. *)
Lemma binary64_model_agrees_with_kernel_floats :
  Prim2SF (23 / 80 * 100)%float = raw_percentage 23 80
  ∧ Prim2SF (1 / 400 * 100)%float = raw_percentage 1 400
  ∧ Prim2SF (100 * 23 / 80)%float = Py.int_true_divide (100 * 23) 80
  ∧ Prim2SF (287 / 10)%float = Py.decimal1 false 287
  ∧ Prim2SF (288 / 10)%float = Py.decimal1 false 288
  ∧ Prim2SF (2 / 10)%float = Py.decimal1 false 2
  ∧ Prim2SF (3 / 10)%float = Py.decimal1 false 3
  ∧ Prim2SF 0.25%float = raw_percentage 1 400
  ∧ Prim2SF 75%float = Py.float_of_int 75.
Proof. vm_compute. repeat split; reflexivity. Qed.

(** So do they on every [present / total * 100] with up to 200 records. *)
Lemma raw_percentage_agrees_with_kernel_floats :
  raw_percentage_agrees_upto 200 = true.
Proof. vm_compute. reflexivity. Qed.

(** ** Session statistics *)

(** C2, as amended.  The statistics count the records by status, and the
    percentage is [round((present + late) / max(total, 1) * 100, 1)]
    evaluated as the code writes it: the float quotient first, then the
    product by 100, then [round].  [session_detail] gives the same numbers,
    with the int 0 for no record.  No record gives all zeros, and
    [present, present, absent, late] gives 75.0. *)
Theorem get_session_stats_percentage (records : list Attendance.t) :
  let stats := get_session_stats_on records in
  Stats.total stats = Z.of_nat (length records)
  ∧ Stats.present stats = Count (has_status present) records
  ∧ Stats.absent stats = Count (has_status absent) records
  ∧ Stats.late stats = Count (has_status late) records
  ∧ Stats.excused stats = Count (has_status excused) records
  ∧ Stats.total stats
    = (Stats.present stats + Stats.absent stats + Stats.late stats
       + Stats.excused stats)%Z
  ∧ Stats.percentage stats
    = Py.Float
        (Py.round1
           (Py.float_mul_int
              (Py.int_true_divide (Stats.present stats + Stats.late stats)
                 (Z.max (Stats.total stats) 1))
              100))
  ∧ Stats.percentage (session_detail_on records)
    = (if (0 <? Stats.total stats)%Z then Stats.percentage stats else Py.Int 0)
  ∧ Py.is_zero (Stats.percentage (get_session_stats_on [])) = true
  ∧ get_session_stats_on []
    = {| Stats.total := 0; Stats.present := 0; Stats.absent := 0;
         Stats.late := 0; Stats.excused := 0;
         Stats.percentage := Py.Float (S754_zero false) |}
  ∧ Stats.percentage
      (get_session_stats_on (records_of 1 1 [present; present; absent; late]))
    = Py.Float (Py.float_of_int 75).
Proof.
  intros stats. subst stats. unfold get_session_stats_on, session_detail_on.
  cbn [Stats.total Stats.present Stats.absent Stats.late Stats.excused
       Stats.percentage].
  repeat split; try reflexivity.
  - apply Count_all.
  - apply Count_by_status.
  - rewrite int_or_max by apply Count_nonneg. reflexivity.
  - pose proof (Count_nonneg (λ _, True) records) as Hnn.
    destruct (Z.ltb_spec 0 (Count (λ _, True) records)) as [Hpos|Hle]; [|done].
    unfold Py.int_or. destruct (Z.eqb_spec (Count (λ _, True) records) 0); [lia|].
    reflexivity.
Qed.

(** C2, counterexample: with 23 present among 80 records the exact value
    28.75 is a tie; the quotient 23/80 rounds down in binary64, its product
    by 100 is 28.749999999999996 and the code returns 28.7, while
    [round(100 * 23 / max(80, 1), 1)] is 28.8, as is 28.75 rounded half-up. *)
Lemma get_session_stats_differs_from_spec_formula :
  let stats :=
    get_session_stats_on
      (records_of 1 1 (replicate 23 present ++ replicate 57 absent)) in
  Stats.present stats = 23%Z
  ∧ Stats.late stats = 0%Z
  ∧ Stats.total stats = 80%Z
  ∧ Stats.percentage stats = Py.Float (Py.decimal1 false 287)
  ∧ spec_percentage (Stats.present stats + Stats.late stats) (Stats.total stats)
    = Py.decimal1 false 288
  ∧ half_up_tenths (Stats.present stats + Stats.late stats) (Stats.total stats)
    = 288%Z
  ∧ Stats.percentage stats
    ≠ Py.Float
        (spec_percentage (Stats.present stats + Stats.late stats)
           (Stats.total stats)).
Proof.
  vm_compute. repeat split; congruence.
Qed.

(** C8, as amended.  For a non-empty list of records the percentage is
    Python's [round] of the binary64 number [(present + late) / total * 100]:
    the nearest multiple of 0.1 of that number, and the even multiple when
    it lies exactly halfway.  With present=1 and total=400 the number is
    exactly 0.25 and the percentage is 0.2. *)
Theorem percentage_rounds_half_even (records : list Attendance.t) :
  records ≠ [] →
  let stats := get_session_stats_on records in
  let x :=
    raw_percentage (Stats.present stats + Stats.late stats) (Stats.total stats) in
  Stats.percentage stats = Py.Float (Py.round1 x)
  ∧ Stats.percentage (session_detail_on records) = Py.Float (Py.round1 x)
  ∧ (∀ s m e, x = S754_finite s m e →
       Py.round1 x = Py.decimal1 s (Py.tenths m e)
       ∧ nearest_even_tenths m e (Py.tenths m e))
  ∧ raw_percentage 1 400 = S754_finite false (2 ^ 52) (-54)
  ∧ nearest_even_tenths (2 ^ 52) (-54) 2
  ∧ Stats.percentage
      (get_session_stats_on (records_of 1 1 (present :: replicate 399 absent)))
    = Py.Float (Py.decimal1 false 2).
Proof.
  intros Hne stats x. subst stats x.
  unfold get_session_stats_on, session_detail_on, raw_percentage,
    rounded_percentage.
  cbn [Stats.total Stats.present Stats.absent Stats.late Stats.excused
       Stats.percentage].
  assert (0 < Count (λ _, True) records)%Z as Hpos.
  { rewrite Count_all. destruct records; [done | simpl length; lia]. }
  split; [|split; [|split; [|split; [|split]]]].
  - unfold Py.int_or.
    destruct (Z.eqb_spec (Count (λ _, True) records) 0); [lia | reflexivity].
  - destruct (Z.ltb_spec 0 (Count (λ _, True) records)); [reflexivity | lia].
  - intros s m e ->. split; [reflexivity | apply tenths_nearest_even].
  - vm_compute. reflexivity.
  - apply (tenths_nearest_even (2 ^ 52) (-54)).
  - vm_compute. reflexivity.
Qed.

Lemma percentage_rounds_half_even_witness :
  records_of 1 1 [present; absent; absent] ≠ []
  ∧ Stats.percentage
      (get_session_stats_on (records_of 1 1 [present; absent; absent]))
    = Py.Float
        (Py.round1
           (raw_percentage
              (Stats.present
                 (get_session_stats_on (records_of 1 1 [present; absent; absent]))
               + Stats.late
                   (get_session_stats_on
                      (records_of 1 1 [present; absent; absent])))
              (Stats.total
                 (get_session_stats_on
                    (records_of 1 1 [present; absent; absent]))))).
Proof.
  split; [discriminate |].
  apply (percentage_rounds_half_even (records_of 1 1 [present; absent; absent])).
  discriminate.
Defined.

(** C8, counterexample: with present=1 among 400 records the exact value
    0.25 lies halfway between 0.2 and 0.3; the code returns 0.2, not the
    larger multiple 0.3. *)
Lemma half_up_rounding_fails :
  let stats :=
    get_session_stats_on (records_of 1 1 (present :: replicate 399 absent)) in
  Stats.present stats = 1%Z
  ∧ Stats.late stats = 0%Z
  ∧ Stats.total stats = 400%Z
  ∧ (2000 * (Stats.present stats + Stats.late stats)
     = (2 * 2 + 1) * Stats.total stats)%Z
  ∧ half_up_tenths (Stats.present stats + Stats.late stats) (Stats.total stats)
    = 3%Z
  ∧ Stats.percentage stats = Py.Float (Py.decimal1 false 2)
  ∧ Stats.percentage stats ≠ Py.Float (Py.decimal1 false 3).
Proof.
  vm_compute. repeat split; congruence.
Qed.

(** ** Frame rules of the monad *)

Section Preserves.
Context (R : DB → DB → Prop) `{!Reflexive R, !Transitive R}.

Lemma preserves_ret {A} (a : A) : preserves R (ret a).
Proof. intros db o db' [= <- <-]. reflexivity. Qed.

Lemma preserves_raise {A} (e : Exception) : preserves R (@raise A e).
Proof. intros db o db' [= <- <-]. reflexivity. Qed.

Lemma preserves_get_db : preserves R get_db.
Proof. intros db o db' [= <- <-]. reflexivity. Qed.

Lemma preserves_fetch {A} (table : DB → gmap nat A) pk :
  preserves R (fetch table pk).
Proof.
  intros db o db'. unfold fetch.
  destruct (table db !! pk); intros [= <- <-]; reflexivity.
Qed.

Lemma preserves_get_object_or_404 {A} (table : DB → gmap nat A) pk :
  preserves R (get_object_or_404 table pk).
Proof.
  intros db o db'. unfold get_object_or_404.
  destruct (table db !! pk); intros [= <- <-]; reflexivity.
Qed.

Lemma bind_Return {A B} (m : M A) (k : A → M B) db a db1 :
  m db = (Return a, db1) → bind m k db = k a db1.
Proof using Type. unfold bind. by intros ->. Qed.

Lemma bind_Raise {A B} (m : M A) (k : A → M B) db e db1 :
  m db = (Raise e, db1) → bind m k db = (Raise e, db1).
Proof using Type. unfold bind. by intros ->. Qed.

Lemma preserves_bind {A B} (m : M A) (k : A → M B) :
  preserves R m → (∀ a, preserves R (k a)) → preserves R (bind m k).
Proof.
  intros Hm Hk db o db'. unfold bind.
  destruct (m db) as [[a|e] db1] eqn:Hrun; intros Hout.
  - etransitivity; [by eapply Hm | by eapply Hk].
  - injection Hout as <- <-. by eapply Hm.
Qed.

Lemma preserves_try_except {A} (m : M A) (h : Exception → M A) :
  preserves R m → (∀ e, preserves R (h e)) → preserves R (try_except m h).
Proof.
  intros Hm Hh db o db'. unfold try_except.
  destruct (m db) as [[a|e] db1] eqn:Hrun; intros Hout.
  - injection Hout as <- <-. by eapply Hm.
  - etransitivity; [by eapply Hm | by eapply Hh].
Qed.

Lemma preserves_for_fold {A S} (l : list A) (init : S) (body : S → A → M S) :
  (∀ acc x, preserves R (body acc x)) → preserves R (for_fold l init body).
Proof.
  intros Hbody. revert init.
  induction l as [|x l IH]; intros init; simpl.
  - apply preserves_ret.
  - apply preserves_bind; [apply Hbody | intros acc; apply IH].
Qed.

Lemma preserves_modify (f : DB → DB) :
  (∀ db, R db (f db)) → preserves R (modify f).
Proof. intros Hf db o db' [= <- <-]. apply Hf. Qed.

End Preserves.

Global Instance same_ledger_refl : Reflexive same_ledger.
Proof. intros db. by repeat split. Qed.

Global Instance same_ledger_trans : Transitive same_ledger.
Proof.
  intros db1 db2 db3 (?&?&?&?&?) (?&?&?&?&?).
  repeat split; congruence.
Qed.

(** Rules for the calls of the notification module. *)
Ltac preserves_step :=
  first
    [ apply preserves_ret; typeclasses eauto
    | apply preserves_get_db; typeclasses eauto
    | apply preserves_fetch; typeclasses eauto
    | apply preserves_bind; try typeclasses eauto; [| intros ?]
    | apply preserves_for_fold; try typeclasses eauto; intros ? ?
    | apply preserves_modify; intros ?; by repeat split
    | match goal with
      | |- preserves _ (if ?b then _ else _) => destruct b
      | |- preserves _ (match ?o with Some _ => _ | None => _ end) => destruct o
      end ].

Lemma Notification_create_ledger n : preserves same_ledger (Notification_create n).
Proof. intros db o db' [= <- <-]. by repeat split. Qed.

Lemma ParentNotification_create_ledger n :
  preserves same_ledger (ParentNotification_create n).
Proof. intros db o db' [= <- <-]. by repeat split. Qed.

Lemma simulate_send_notification_ledger pk n student :
  preserves same_ledger (_simulate_send_notification pk n student).
Proof.
  unfold _simulate_send_notification, NotificationLog_create, Notification_save.
  repeat preserves_step.
Qed.

Lemma simulate_send_parent_notification_ledger pk n parent :
  preserves same_ledger (_simulate_send_parent_notification pk n parent).
Proof.
  unfold _simulate_send_parent_notification, NotificationLog_create,
    ParentNotification_save.
  repeat preserves_step.
Qed.

Lemma notify_parent_ledger student_pk student kind title :
  preserves same_ledger (notify_parent student_pk student kind title).
Proof.
  unfold notify_parent.
  repeat first
    [ apply ParentNotification_create_ledger
    | apply simulate_send_parent_notification_ledger
    | preserves_step ].
Qed.

Lemma send_single_absentee_notification_ledger pk attendance :
  preserves same_ledger (send_single_absentee_notification pk attendance).
Proof.
  unfold send_single_absentee_notification.
  repeat first
    [ apply Notification_create_ledger
    | apply simulate_send_notification_ledger
    | apply notify_parent_ledger
    | preserves_step
    | case_decide ].
Qed.

Lemma send_absentee_notifications_ledger pk session :
  preserves same_ledger (send_absentee_notifications pk session).
Proof.
  unfold send_absentee_notifications, notify_absent_record.
  repeat first
    [ apply Notification_create_ledger
    | apply simulate_send_notification_ledger
    | apply notify_parent_ledger
    | preserves_step ].
Qed.

(** ** The attendance table *)

Lemma new_pk_fresh {A} (table : gmap nat A) : table !! new_pk table = None.
Proof. apply not_elem_of_dom. apply is_fresh. Qed.

Lemma pair_rows_lookup db s st pk r :
  pair_rows db s st !! pk = Some r
  ↔ attendances db !! pk = Some r
    ∧ Attendance.session r = s ∧ Attendance.student r = st.
Proof. unfold pair_rows. rewrite map_lookup_filter_Some. simpl. tauto. Qed.

Lemma session_rows_lookup db s pk r :
  session_rows db s !! pk = Some r
  ↔ attendances db !! pk = Some r ∧ Attendance.session r = s.
Proof. unfold session_rows. rewrite map_lookup_filter_Some. simpl. tauto. Qed.

Lemma map_to_list_singleton_inv {A} (m : gmap nat A) pk x :
  map_to_list m = [(pk, x)] → m = {[pk := x]}.
Proof.
  intros Hl. rewrite <- (list_to_map_to_list m), Hl. simpl.
  by rewrite insert_empty.
Qed.

Lemma pair_rows_ledger db db' s st :
  attendances db' = attendances db → pair_rows db' s st = pair_rows db s st.
Proof. unfold pair_rows. by intros ->. Qed.

Lemma session_rows_ledger db db' s :
  attendances db' = attendances db → session_rows db' s = session_rows db s.
Proof. unfold session_rows. by intros ->. Qed.

(** What [update_or_create] returns and writes, by the rows of the pair. *)
Lemma update_or_create_created db s st d :
  pair_rows db s st = ∅ →
  Attendance_update_or_create s st d db
  = (Return (new_pk (attendances db), apply_defaults s st d, true),
     set_attendances (insert (new_pk (attendances db)) (apply_defaults s st d)) db).
Proof.
  intros Hnone. unfold Attendance_update_or_create.
  by rewrite Hnone, map_to_list_empty.
Qed.

Lemma update_or_create_updated db s st d pk old :
  pair_rows db s st = {[pk := old]} →
  Attendance_update_or_create s st d db
  = (Return (pk, apply_defaults s st d, false),
     set_attendances (insert pk (apply_defaults s st d)) db).
Proof.
  intros Hone. unfold Attendance_update_or_create.
  rewrite Hone, map_to_list_singleton.
  assert (pair_rows db s st !! pk = Some old) as Hold
    by (rewrite Hone; apply lookup_singleton_eq).
  apply pair_rows_lookup in Hold as (_ & -> & ->). reflexivity.
Qed.

Lemma update_or_create_inv db s st d pk row created db' :
  Attendance_update_or_create s st d db = (Return (pk, row, created), db') →
  row = apply_defaults s st d
  ∧ db' = set_attendances (insert pk row) db
  ∧ (created = true ∧ pair_rows db s st = ∅ ∧ attendances db !! pk = None
     ∨ created = false ∧ ∃ old, pair_rows db s st = {[pk := old]}).
Proof.
  unfold Attendance_update_or_create.
  destruct (map_to_list (pair_rows db s st)) as [|[pk0 old] [|? ?]] eqn:Hl;
    intros Hrun; [| |discriminate].
  - injection Hrun as <- <- <- <-.
    apply map_to_list_empty_iff in Hl.
    split; [done|]. split; [done|]. left.
    split; [done|]. split; [done | apply new_pk_fresh].
  - injection Hrun as <- <- <- <-.
    apply map_to_list_singleton_inv in Hl.
    assert (pair_rows db s st !! pk0 = Some old) as Hold
      by (rewrite Hl; apply lookup_singleton_eq).
    apply pair_rows_lookup in Hold as (_ & -> & ->).
    split; [done|]. split; [done|]. right. eauto.
Qed.

(** After a successful [update_or_create] the pair has exactly its row. *)
Lemma update_or_create_pair db s st d pk row created db' :
  Attendance_update_or_create s st d db = (Return (pk, row, created), db') →
  pair_rows db' s st = {[pk := row]}.
Proof.
  intros Hrun. apply update_or_create_inv in Hrun as (-> & -> & Hcase).
  unfold pair_rows in *. simpl attendances.
  rewrite map_filter_insert_True by done.
  destruct Hcase as [(_ & -> & _) | (_ & old & ->)].
  - by rewrite insert_empty.
  - by rewrite insert_singleton_eq.
Qed.

(** An update keeps the number of rows of every session and of the table. *)
Lemma update_or_create_sizes db s st d pk row db' :
  Attendance_update_or_create s st d db = (Return (pk, row, false), db') →
  (∀ s', size (session_rows db' s') = size (session_rows db s'))
  ∧ size (attendances db') = size (attendances db).
Proof.
  intros Hrun. apply update_or_create_inv in Hrun as (-> & -> & Hcase).
  destruct Hcase as [(? & _) | (_ & old & Hone)]; [done|].
  assert (pair_rows db s st !! pk = Some old) as Hold
    by (rewrite Hone; apply lookup_singleton_eq).
  apply pair_rows_lookup in Hold as (Hold & Hs & Hst).
  split.
  - intros s'. unfold session_rows. simpl attendances.
    destruct (decide (s = s')) as [<-|Hne].
    + rewrite map_filter_insert_True by done.
      apply map_size_insert_Some.
      exists old. apply map_lookup_filter_Some. done.
    + rewrite map_filter_insert_False by done.
      rewrite map_filter_delete_not; [done|].
      intros y Hy. rewrite Hold in Hy. injection Hy as <-. simpl. congruence.
  - simpl attendances. apply map_size_insert_Some. by exists old.
Qed.

(** ** Marking attendance *)

Section MarkAttendance.
Context (db : DB) (data : MarkRequest) (session : AttendanceSession.t).
Hypothesis Hsession : sessions db !! session_id data = Some session.
Hypothesis Hstudent : is_Some (students db !! student_id data).

Lemma mark_attendance_inactive :
  AttendanceSession.is_active session = false →
  mark_attendance data db = (Return SessionNotActive, db).
Proof using Hsession Hstudent.
  intros Hoff. destruct Hstudent as [student Hst].
  unfold mark_attendance, try_except, bind, get_object_or_404.
  rewrite Hsession, Hst, Hoff. reflexivity.
Qed.

Lemma mark_attendance_not_enrolled course :
  AttendanceSession.is_active session = true →
  courses db !! AttendanceSession.course session = Some course →
  student_id data ∉ Course.students course →
  mark_attendance data db = (Return StudentNotEnrolled, db).
Proof using Hsession Hstudent.
  intros Hon Hcourse Hout. destruct Hstudent as [student Hst].
  unfold mark_attendance, try_except, bind, get_object_or_404, fetch.
  rewrite Hsession, Hst, Hon. simpl. rewrite Hcourse.
  rewrite bool_decide_eq_false_2 by done. reflexivity.
Qed.

(** Past the two checks the view answers 200 with what [update_or_create]
    returned, and the notification leaves the ledger as it was. *)
Lemma mark_attendance_marked course pk row created dbm :
  AttendanceSession.is_active session = true →
  courses db !! AttendanceSession.course session = Some course →
  student_id data ∈ Course.students course →
  Attendance_update_or_create (session_id data) (student_id data)
    (mark_defaults data) db = (Return (pk, row, created), dbm) →
  ∃ db', mark_attendance data db = (Return (Response200 pk created), db')
         ∧ same_ledger dbm db'.
Proof using Hsession Hstudent.
  intros Hon Hcourse Hin Hrun. destruct Hstudent as [student Hst].
  unfold mark_attendance, try_except, bind, get_object_or_404, fetch.
  rewrite Hsession, Hst, Hon. simpl. rewrite Hcourse.
  rewrite bool_decide_eq_true_2 by done. simpl.
  rewrite Hrun.
  destruct (decide (status data = absent)) as [Habs|Hother].
  - destruct (send_single_absentee_notification pk row dbm)
      as [[o|e] db1] eqn:Hsend; simpl;
      (eexists; split; [reflexivity |]);
      by eapply send_single_absentee_notification_ledger.
  - simpl. eexists. split; [reflexivity | reflexivity].
Qed.

End MarkAttendance.

(** A 200 answer tells that the checks passed and what was written. *)
Lemma mark_attendance_200_inv db data pk created db' :
  mark_attendance data db = (Return (Response200 pk created), db') →
  ∃ session course row dbm,
    sessions db !! session_id data = Some session
    ∧ is_Some (students db !! student_id data)
    ∧ AttendanceSession.is_active session = true
    ∧ courses db !! AttendanceSession.course session = Some course
    ∧ student_id data ∈ Course.students course
    ∧ Attendance_update_or_create (session_id data) (student_id data)
        (mark_defaults data) db = (Return (pk, row, created), dbm)
    ∧ same_ledger dbm db'.
Proof.
  unfold mark_attendance, try_except, bind, get_object_or_404, fetch, ret,
    SessionNotActive, StudentNotEnrolled.
  destruct (sessions db !! session_id data) as [session|] eqn:Hs; [|done].
  destruct (students db !! student_id data) as [student|] eqn:Hst; [|done].
  destruct (AttendanceSession.is_active session) eqn:Hon; simpl; [|done].
  destruct (courses db !! AttendanceSession.course session) as [course|]
    eqn:Hc; [|done].
  destruct (bool_decide (student_id data ∈ Course.students course)) eqn:Hin;
    simpl; [|done].
  apply bool_decide_eq_true in Hin.
  destruct (Attendance_update_or_create _ _ _ db) as [[[[pk0 row] c]|?] dbm]
    eqn:Hrun; [|done].
  intros Hout.
  assert (pk0 = pk ∧ c = created ∧ same_ledger dbm db') as (-> & -> & Hframe).
  { destruct (decide (status data = absent)).
    - destruct (send_single_absentee_notification pk0 row dbm)
        as [[o|e'] db1] eqn:Hsend; simpl in Hout;
        injection Hout as -> -> <-;
        (split; [done|]; split; [done|]);
        by eapply send_single_absentee_notification_ledger.
    - simpl in Hout. injection Hout as -> -> <-. done. }
  exists session, course, row, dbm. eauto 10.
Qed.

Lemma map_size_le_1 {A} (m : gmap nat A) :
  size m ≤ 1 → m = ∅ ∨ ∃ pk x, m = {[pk := x]}.
Proof.
  rewrite <- length_map_to_list.
  destruct (map_to_list m) as [|[pk x] [|? ?]] eqn:Hl; simpl; intros Hle.
  - left. by apply map_to_list_empty_iff.
  - right. exists pk, x. by apply map_to_list_singleton_inv.
  - lia.
Qed.

(** With at most one row for the pair, [update_or_create] returns. *)
Lemma update_or_create_returns db s st d :
  size (pair_rows db s st) ≤ 1 →
  ∃ pk created db',
    Attendance_update_or_create s st d db
    = (Return (pk, apply_defaults s st d, created), db').
Proof.
  intros Hle. destruct (map_size_le_1 _ Hle) as [Hnone | (pk & old & Hone)].
  - eexists _, _, _. by apply update_or_create_created.
  - eexists _, _, _. by eapply update_or_create_updated.
Qed.

(** C6.  A mark attempt on an existing session and student answers
    SessionNotActive when the session is not active and, for an active
    session, StudentNotEnrolled when the student is not in the enrolment
    of its course; either way the database is left as it was, so no
    Attendance record is created.  When the session is active and the
    student enrolled the attempt passes the checks: it answers 200 and the
    pair has its one record (the table holding at most one row for the pair
    before, as [unique_together] has it).  A 200 answer is given only then. *)
Theorem mark_attendance_eligibility (db : DB) (data : MarkRequest)
    (session : AttendanceSession.t) :
  sessions db !! session_id data = Some session →
  is_Some (students db !! student_id data) →
  (AttendanceSession.is_active session = false →
     mark_attendance data db = (Return SessionNotActive, db))
  ∧ (∀ course,
       AttendanceSession.is_active session = true →
       courses db !! AttendanceSession.course session = Some course →
       student_id data ∉ Course.students course →
       mark_attendance data db = (Return StudentNotEnrolled, db))
  ∧ (∀ course,
       AttendanceSession.is_active session = true →
       courses db !! AttendanceSession.course session = Some course →
       student_id data ∈ Course.students course →
       size (pair_rows db (session_id data) (student_id data)) ≤ 1 →
       ∃ pk created db',
         mark_attendance data db = (Return (Response200 pk created), db')
         ∧ size (pair_rows db' (session_id data) (student_id data)) = 1)
  ∧ (∀ pk created db',
       mark_attendance data db = (Return (Response200 pk created), db') →
       AttendanceSession.is_active session = true
       ∧ ∃ course,
           courses db !! AttendanceSession.course session = Some course
           ∧ student_id data ∈ Course.students course).
Proof.
  intros Hsession Hstudent. split; [|split; [|split]].
  - by apply mark_attendance_inactive.
  - intros course. by apply mark_attendance_not_enrolled.
  - intros course Hon Hcourse Hin Hle.
    destruct (update_or_create_returns db (session_id data) (student_id data)
                (mark_defaults data) Hle) as (pk & created & dbm & Hrun).
    destruct (mark_attendance_marked db data session Hsession Hstudent
                course pk _ created dbm Hon Hcourse Hin Hrun)
      as (db' & Hmark & Hframe).
    exists pk, created, db'. split; [done|].
    rewrite (pair_rows_ledger dbm db') by apply Hframe.
    rewrite (update_or_create_pair _ _ _ _ _ _ _ _ Hrun).
    apply map_size_singleton.
  - intros pk created db' Hmark.
    apply mark_attendance_200_inv in Hmark
      as (session' & course & row & dbm & Hs & _ & Hon & Hc & Hin & _).
    rewrite Hsession in Hs. injection Hs as <-. eauto.
Qed.

Lemma mark_attendance_eligibility_witness :
  mark_attendance (mark 2 1 present) campus = (Return SessionNotActive, campus)
  ∧ mark_attendance (mark 1 3 present) campus
    = (Return StudentNotEnrolled, campus)
  ∧ ∃ pk created db',
      mark_attendance (mark 1 1 present) campus
      = (Return (Response200 pk created), db')
      ∧ size (pair_rows db' 1 1) = 1.
Proof.
  split; [|split].
  - apply (mark_attendance_eligibility campus (mark 2 1 present) closed_session);
      [reflexivity | by eexists | reflexivity].
  - apply (mark_attendance_eligibility campus (mark 1 3 present) open_session)
      with (course := cs101);
      [reflexivity | by eexists | reflexivity | reflexivity |].
    simpl. rewrite elem_of_union, !elem_of_singleton. lia.
  - apply (mark_attendance_eligibility campus (mark 1 1 present) open_session)
      with (course := cs101);
      [reflexivity | by eexists | reflexivity | reflexivity
      | | vm_compute; lia ].
    simpl. rewrite elem_of_union, !elem_of_singleton. lia.
Defined.

(** C1.  When a mark for a (session, student) pair has been accepted, a
    second mark for the same pair, with any status, is accepted too and
    updates the row of the first: the pair then has exactly one Attendance
    record, under the same key, carrying the status (and the other
    defaults) of the latest mark, and the repeated mark changes neither the
    number of rows of the session nor that of the table. *)
Theorem mark_attendance_twice (db : DB) (data1 data2 : MarkRequest)
    (pk : nat) (created : bool) (db1 : DB) :
  session_id data2 = session_id data1 →
  student_id data2 = student_id data1 →
  mark_attendance data1 db = (Return (Response200 pk created), db1) →
  ∃ db2 row,
    mark_attendance data2 db1 = (Return (Response200 pk false), db2)
    ∧ pair_rows db2 (session_id data1) (student_id data1) = {[pk := row]}
    ∧ size (pair_rows db2 (session_id data1) (student_id data1)) = 1
    ∧ size (pair_rows db1 (session_id data1) (student_id data1)) = 1
    ∧ Attendance.status row = status data2
    ∧ row = apply_defaults (session_id data1) (student_id data1)
              (mark_defaults data2)
    ∧ size (session_rows db2 (session_id data1))
      = size (session_rows db1 (session_id data1))
    ∧ size (attendances db2) = size (attendances db1).
Proof.
  intros Hs Hst Hfirst.
  apply mark_attendance_200_inv in Hfirst
    as (session & course & row1 & dbm & Hsession & Hstudent & Hon & Hcourse
        & Hin & Hrun1 & Hframe1).
  pose proof (update_or_create_pair _ _ _ _ _ _ _ _ Hrun1) as Hpair1.
  assert (pair_rows db1 (session_id data2) (student_id data2) = {[pk := row1]})
    as Hpair1'.
  { rewrite Hs, Hst, (pair_rows_ledger dbm db1) by apply Hframe1. done. }
  pose proof (update_or_create_updated db1 _ _ (mark_defaults data2) _ _ Hpair1')
    as Hrun2.
  assert (students db1 = students db ∧ courses db1 = courses db
          ∧ sessions db1 = sessions db) as (Hstudents & Hcourses & Hsessions).
  { apply update_or_create_inv in Hrun1 as (_ & -> & _).
    destruct Hframe1 as (? & ? & ? & ? & ?). done. }
  assert (sessions db1 !! session_id data2 = Some session) as Hsession2
    by (by rewrite Hs, Hsessions).
  assert (is_Some (students db1 !! student_id data2)) as Hstudent2
    by (by rewrite Hst, Hstudents).
  assert (courses db1 !! AttendanceSession.course session = Some course)
    as Hcourse2 by (by rewrite Hcourses).
  assert (student_id data2 ∈ Course.students course) as Hin2
    by (by rewrite Hst).
  destruct (mark_attendance_marked db1 data2 session Hsession2 Hstudent2
              course pk _ false _ Hon Hcourse2 Hin2 Hrun2)
    as (db2 & Hsecond & Hframe2).
  exists db2, (apply_defaults (session_id data1) (student_id data1)
                 (mark_defaults data2)).
  pose proof (update_or_create_pair _ _ _ _ _ _ _ _ Hrun2) as Hpair2.
  pose proof (update_or_create_sizes _ _ _ _ _ _ _ Hrun2) as [Hsess Hall].
  destruct Hframe2 as (_ & _ & _ & _ & Hatt2).
  rewrite Hs, Hst in *.
  split; [done|].
  rewrite <- (pair_rows_ledger _ db2) in Hpair2 by done.
  rewrite Hpair2, Hpair1', !map_size_singleton.
  specialize (Hsess (session_id data1)).
  rewrite <- (session_rows_ledger _ db2) in Hsess by done.
  rewrite <- Hatt2 in Hall.
  repeat split; done.
Qed.

Lemma mark_attendance_twice_witness :
  ∃ db2 row,
    mark_attendance (mark 1 1 absent)
      (after (mark_attendance (mark 1 1 present)) campus)
    = (Return (Response200 0 false), db2)
    ∧ pair_rows db2 1 1 = {[0 := row]}
    ∧ Attendance.status row = absent.
Proof.
  destruct (mark_attendance_twice campus (mark 1 1 present) (mark 1 1 absent)
              0 true (after (mark_attendance (mark 1 1 present)) campus))
    as (db2 & row & Hrun & Hpair & _ & _ & Hstatus & _);
    [reflexivity | reflexivity | vm_compute; reflexivity |].
  exists db2, row. split; [exact Hrun | split; [exact Hpair | exact Hstatus]].
Defined.

(** ** Automatic absences *)

Lemma marked_students_pair_rows db s st :
  st ∈ marked_students db s ↔ pair_rows db s st ≠ ∅.
Proof.
  unfold marked_students, rows. split.
  - intros Hin. apply list_elem_of_fmap in Hin as (r & -> & Hr).
    apply list_elem_of_fmap in Hr as ([pk r'] & -> & Hr). simpl.
    apply elem_of_map_to_list, session_rows_lookup in Hr as [Hr Hs].
    intros Hnone.
    assert (pair_rows db s (Attendance.student r') !! pk = Some r') as Hpk
      by (by apply pair_rows_lookup).
    rewrite Hnone in Hpk. by rewrite lookup_empty in Hpk.
  - intros Hsome. apply map_choose in Hsome as (pk & r & Hr).
    apply pair_rows_lookup in Hr as (Hr & Hs & <-).
    apply list_elem_of_fmap. exists r. split; [done|].
    apply list_elem_of_fmap. exists (pk, r). split; [done|].
    apply elem_of_map_to_list, session_rows_lookup. done.
Qed.

(** The unmarked students: active, enrolled, without a record in the
    session. *)
Lemma unmarked_lookup db s course st row :
  unmarked db s course !! st = Some row
  ↔ students db !! st = Some row
    ∧ st ∈ Course.students course
    ∧ Student.is_active row = true
    ∧ pair_rows db s st = ∅.
Proof.
  unfold unmarked, enrolled_active.
  rewrite !map_lookup_filter_Some. simpl.
  rewrite marked_students_pair_rows.
  split.
  - intros ((? & ? & ?) & Hnone). repeat split; try done.
    destruct (decide (pair_rows db s st = ∅)); [done | tauto].
  - intros (? & ? & ? & Hnone). repeat split; try done. by intros [].
Qed.

Lemma Attendance_create_fresh db row :
  pair_rows db (Attendance.session row) (Attendance.student row) = ∅ →
  Attendance_create row db
  = (Return (new_pk (attendances db), row),
     set_attendances (insert (new_pk (attendances db)) row) db).
Proof.
  intros Hnone. unfold Attendance_create.
  by rewrite Hnone, map_to_list_empty.
Qed.

(** A row inserted under a fresh key is the only change to the pairs. *)
Lemma pair_rows_insert_same db pk row :
  pair_rows db (Attendance.session row) (Attendance.student row) = ∅ →
  pair_rows (set_attendances (insert pk row) db)
    (Attendance.session row) (Attendance.student row) = {[pk := row]}.
Proof.
  intros Hnone. unfold pair_rows in *. simpl attendances.
  rewrite map_filter_insert_True by done.
  by rewrite Hnone, insert_empty.
Qed.

Lemma pair_rows_insert_other db pk row s st :
  attendances db !! pk = None →
  ¬ (Attendance.session row = s ∧ Attendance.student row = st) →
  pair_rows (set_attendances (insert pk row) db) s st = pair_rows db s st.
Proof.
  intros Hfresh Hother. unfold pair_rows. simpl attendances.
  rewrite map_filter_insert_False by done.
  by rewrite delete_id.
Qed.

Section AutoMark.
Context (s : nat) (marked_by : option nat).

(** The loop of [auto_mark_absentees] over students without a record. *)
Lemma auto_mark_loop (l : list (nat * Student.t)) :
  ∀ db count,
    NoDup l.*1 →
    (∀ st, st ∈ l.*1 → pair_rows db s st = ∅) →
    ∃ db',
      for_fold l count (λ count student,
        let* _ := Attendance_create (auto_absent_row s student.1 marked_by) in
        ret (count + 1)) db
      = (Return (count + length l), db')
      ∧ (∀ st, st ∈ l.*1 →
           ∃ pk, pair_rows db' s st = {[pk := auto_absent_row s st marked_by]}
                 ∧ attendances db !! pk = None)
      ∧ (∀ st, st ∉ l.*1 → pair_rows db' s st = pair_rows db s st)
      ∧ attendances db ⊆ attendances db'
      ∧ size (attendances db') = size (attendances db) + length l
      ∧ students db' = students db
      ∧ courses db' = courses db.
Proof.
  induction l as [|[st row] l IH]; intros db count Hnodup Hnone; simpl.
  - exists db. rewrite Nat.add_0_r.
    repeat split; try done. intros st Hst. by apply elem_of_nil in Hst.
  - apply NoDup_cons in Hnodup as [Hst_l Hnodup].
    set (r := auto_absent_row s st marked_by).
    set (pk := new_pk (attendances db)).
    set (db1 := set_attendances (insert pk r) db).
    assert (attendances db !! pk = None) as Hfresh by apply new_pk_fresh.
    assert (∀ st', st' ≠ st → pair_rows db1 s st' = pair_rows db s st')
      as Hother.
    { intros st' Hne. apply pair_rows_insert_other; [done|].
      simpl. intros [_ ?]. congruence. }
    destruct (IH db1 (count + 1)) as (db' & Hrun & Hnew & Hold & Hsub & Hsize
                                      & Hstudents & Hcourses); [done | |].
    { intros st' Hst'. rewrite Hother; [|by intros ->].
      apply Hnone. by right. }
    exists db'.
    split.
    { rewrite (bind_Return _ _ db (count + 1) db1).
      - rewrite Hrun. f_equal. f_equal. lia.
      - rewrite (bind_Return _ _ db (pk, r) db1); [done|].
        apply Attendance_create_fresh. apply Hnone. by left. }
    split; [|split; [|split; [|split; [|done]]]].
    + intros st' Hst'. apply elem_of_cons in Hst' as [->|Hst'].
      * exists pk. split; [|done]. rewrite Hold by done.
        apply (pair_rows_insert_same db pk r). apply Hnone. by left.
      * destruct (Hnew st' Hst') as (pk' & Hpair & Hfresh').
        exists pk'. split; [done|]. subst db1. simpl in Hfresh'.
        destruct (decide (pk = pk')) as [<-|Hne].
        -- by rewrite lookup_insert_eq in Hfresh'.
        -- by rewrite lookup_insert_ne in Hfresh'.
    + intros st' Hst'. apply not_elem_of_cons in Hst' as [Hne Hst'].
      rewrite Hold by done. by apply Hother.
    + etransitivity; [|exact Hsub]. subst db1. simpl.
      by apply insert_subseteq.
    + rewrite Hsize. subst db1. simpl attendances.
      rewrite map_size_insert_None by done. lia.
Qed.

End AutoMark.

(** C3.  On a session whose course exists, [auto_mark_absentees] returns
    the number of unmarked students (the active enrolled students without
    an Attendance record in the session) and gives each of them exactly one
    record, with status absent, method manual and notes "Auto-marked as
    absent"; the rows the table had are all kept as they were, so the
    records of the students already marked, of any status, are unchanged,
    and nothing else is added; a second call right after marks nobody and
    changes nothing. *)
Theorem auto_mark_absentees_top_up (db : DB) (session_pk : nat)
    (session : AttendanceSession.t) (course : Course.t)
    (marked_by : option nat) :
  courses db !! AttendanceSession.course session = Some course →
  ∃ db1,
    auto_mark_absentees session_pk session marked_by db
    = (Return (size (unmarked db session_pk course)), db1)
    ∧ (∀ st row,
         students db !! st = Some row →
         Student.is_active row = true →
         st ∈ Course.students course →
         pair_rows db session_pk st = ∅ →
         ∃ pk new,
           pair_rows db1 session_pk st = {[pk := new]}
           ∧ attendances db !! pk = None
           ∧ Attendance.status new = absent
           ∧ Attendance.verification_method new = manual
           ∧ Attendance.notes new = "Auto-marked as absent"
           ∧ Attendance.marked_by new = marked_by)
    ∧ (∀ st, pair_rows db session_pk st ≠ ∅ →
         pair_rows db1 session_pk st = pair_rows db session_pk st)
    ∧ attendances db ⊆ attendances db1
    ∧ size (attendances db1)
      = size (attendances db) + size (unmarked db session_pk course)
    ∧ auto_mark_absentees session_pk session marked_by db1 = (Return 0, db1).
Proof.
  intros Hcourse.
  set (l := map_to_list (unmarked db session_pk course)).
  assert (∀ st, st ∈ l.*1 ↔ is_Some (unmarked db session_pk course !! st))
    as Hl.
  { intros st. subst l. rewrite list_elem_of_fmap. split.
    - intros ([st' row] & -> & Hin). apply elem_of_map_to_list in Hin. eauto.
    - intros [row Hrow]. exists (st, row). split; [done|].
      by apply elem_of_map_to_list. }
  destruct (auto_mark_loop session_pk marked_by l db 0)
    as (db1 & Hrun & Hnew & Hold & Hsub & Hsize & Hstudents & Hcourses).
  { apply NoDup_fst_map_to_list. }
  { intros st [row Hrow]%Hl. by apply unmarked_lookup in Hrow as (_&_&_&?). }
  assert (length l = size (unmarked db session_pk course)) as Hlen
    by apply length_map_to_list.
  assert (∀ db0, courses db0 = courses db →
            auto_mark_absentees session_pk session marked_by db0
            = for_fold (map_to_list (unmarked db0 session_pk course)) 0
                (λ count student,
                   let* _ := Attendance_create
                               (auto_absent_row session_pk student.1 marked_by) in
                   ret (count + 1)) db0) as Hunfold.
  { intros db0 Hc. unfold auto_mark_absentees.
    rewrite (bind_Return _ _ db0 course db0).
    - by rewrite (bind_Return _ _ db0 db0 db0).
    - unfold fetch. by rewrite Hc, Hcourse. }
  exists db1. split; [|split; [|split; [|split; [|split]]]].
  - rewrite Hunfold by done. fold l. by rewrite Hrun, <- Hlen.
  - intros st row Hst Hactive Hin Hnone.
    destruct (Hnew st) as (pk & Hpair & Hfresh).
    { apply Hl. exists row. by apply unmarked_lookup. }
    exists pk, (auto_absent_row session_pk st marked_by). done.
  - intros st Hsome. apply Hold. intros [row Hrow]%Hl.
    by apply unmarked_lookup in Hrow as (_&_&_&?).
  - done.
  - by rewrite Hsize, Hlen.
  - rewrite Hunfold by done.
    assert (unmarked db1 session_pk course = ∅) as ->.
    { apply map_empty. intros st.
      destruct (unmarked db1 session_pk course !! st) as [row|] eqn:Hrow;
        [|done].
      exfalso. apply unmarked_lookup in Hrow as (Hst & Hin & Hactive & Hnone).
      rewrite Hstudents in Hst.
      destruct (decide (pair_rows db session_pk st = ∅)) as [Hnone0|Hsome0].
      - destruct (Hnew st) as (pk & Hpair & _).
        { apply Hl. exists row. by apply unmarked_lookup. }
        rewrite Hnone in Hpair. symmetry in Hpair.
        by apply map_non_empty_singleton in Hpair.
      - rewrite Hold in Hnone; [done|].
        intros [row' Hrow']%Hl.
        by apply unmarked_lookup in Hrow' as (_&_&_&?). }
    by rewrite map_to_list_empty.
Qed.

Lemma auto_mark_absentees_top_up_witness :
  ∃ db1,
    auto_mark_absentees 1 open_session (Some 7) campus_alice_present
    = (Return 1, db1)
    ∧ auto_mark_absentees 1 open_session (Some 7) db1 = (Return 0, db1).
Proof.
  destruct (auto_mark_absentees_top_up campus_alice_present 1 open_session
              cs101 (Some 7)) as (db1 & Hrun & _ & _ & _ & _ & Hagain);
    [reflexivity |].
  exists db1. split; [exact Hrun | exact Hagain].
Defined.

(** ** Absence notifications *)

Global Instance parent_side_refl : Reflexive parent_side.
Proof.
  intros db. split; [reflexivity|]. split; [done|].
  exists []. by rewrite app_nil_r.
Qed.

Global Instance parent_side_trans : Transitive parent_side.
Proof.
  intros db1 db2 db3 (Hl1 & Hn1 & logs1 & Hlogs1 & Hall1)
    (Hl2 & Hn2 & logs2 & Hlogs2 & Hall2).
  split; [by etransitivity|]. split; [congruence|].
  exists (logs1 ++ logs2). split.
  - by rewrite Hlogs2, Hlogs1, app_assoc.
  - by apply Forall_app.
Qed.

Lemma notify_parent_side student_pk student kind title :
  preserves parent_side (notify_parent student_pk student kind title).
Proof.
  unfold notify_parent. destruct (Student.parent student) as [parent_pk|].
  - apply preserves_bind; try typeclasses eauto;
      [apply preserves_fetch; typeclasses eauto | intros parent].
    apply preserves_bind; try typeclasses eauto.
    { intros db o db' [= <- <-]. split; [by repeat split|].
      split; [done|]. exists []. by rewrite app_nil_r. }
    intros pk. unfold _simulate_send_parent_notification.
    assert (∀ c to, preserves parent_side
                      (NotificationLog_create (parent_log pk c to))) as Hlog.
    { intros c to db o db' [= <- <-]. split; [by repeat split|].
      split; [done|]. exists [parent_log pk c to]. split; [done|].
      by apply Forall_singleton. }
    apply preserves_bind; try typeclasses eauto; [apply Hlog | intros _].
    apply preserves_bind; try typeclasses eauto.
    { destruct (truthy _); [apply Hlog | apply preserves_ret; typeclasses eauto]. }
    intros _ db o db' [= <- <-]. split; [by repeat split|].
    split; [done|]. exists []. by rewrite app_nil_r.
  - apply preserves_ret; typeclasses eauto.
Qed.

Lemma notify_parent_returns student_pk student kind title db :
  (∀ p, Student.parent student = Some p → is_Some (parents db !! p)) →
  ∃ db', notify_parent student_pk student kind title db = (Return tt, db').
Proof.
  intros Hparent. unfold notify_parent.
  destruct (Student.parent student) as [parent_pk|]; [|by eexists].
  destruct (Hparent parent_pk eq_refl) as [parent Hp].
  rewrite (bind_Return _ _ db parent db)
    by (unfold fetch; by rewrite Hp).
  unfold bind, ParentNotification_create, _simulate_send_parent_notification,
    bind, NotificationLog_create, ParentNotification_save, modify, ret.
  destruct (truthy (Parent.phone parent)); by eexists.
Qed.

Lemma exists_empty {A} (q : gmap nat A) : q = ∅ → exists_ q = false.
Proof. intros ->. unfold exists_. by rewrite map_to_list_empty. Qed.

Lemma exists_singleton {A} pk (x : A) : exists_ ({[pk := x]} : gmap nat A) = true.
Proof. unfold exists_. by rewrite map_to_list_singleton. Qed.

(** The notification as [_simulate_send_notification] saves it. *)
Lemma simulate_send_absence_notification pk student_pk code attendance_pk
    student db :
  _simulate_send_notification pk
    (absence_notification student_pk code attendance_pk) student db
  = (Return tt,
     set_notifications
       (insert pk
          (set_push_sent
             (set_email_sent
                (set_is_sent
                   (absence_notification student_pk code attendance_pk)))))
       (set_notification_logs
          (λ logs, logs ++ [student_log pk email (Student.email student);
                            student_log pk push ("device_" +:+ pretty student_pk)])
          db)).
Proof.
  unfold _simulate_send_notification, bind, NotificationLog_create,
    Notification_save, modify, ret, set_notifications, set_notification_logs.
  simpl. by rewrite <- app_assoc.
Qed.

(** C4.  For an absent record whose student, session, course and parent
    (if any) exist and which has no absence notification yet, the first
    [send_single_absentee_notification] creates one notification for the
    key (student, attendance, absence), sent by email and push, with one
    log entry for each of these two channels, the other new log entries
    belonging to the parent notification; the second invocation returns
    None and leaves the database as it is: no Notification,
    ParentNotification or NotificationLog row is created. *)
Theorem send_single_absentee_notification_twice (db : DB) (attendance_pk : nat)
    (attendance : Attendance.t) (student : Student.t)
    (session : AttendanceSession.t) (course : Course.t) :
  Attendance.status attendance = absent →
  students db !! Attendance.student attendance = Some student →
  sessions db !! Attendance.session attendance = Some session →
  courses db !! AttendanceSession.course session = Some course →
  (∀ p, Student.parent student = Some p → is_Some (parents db !! p)) →
  absence_notifications db (Attendance.student attendance) attendance_pk = ∅ →
  ∃ pk n db1 parent_logs,
    send_single_absentee_notification attendance_pk attendance db
    = (Return (Some pk), db1)
    ∧ send_single_absentee_notification attendance_pk attendance db1
      = (Return None, db1)
    ∧ absence_notifications db1 (Attendance.student attendance) attendance_pk
      = {[pk := n]}
    ∧ size (absence_notifications db1 (Attendance.student attendance)
              attendance_pk) = 1
    ∧ size (notifications db1) = S (size (notifications db))
    ∧ notification_logs db1
      = notification_logs db
        ++ [student_log pk email (Student.email student);
            student_log pk push
              ("device_" +:+ pretty (Attendance.student attendance))]
        ++ parent_logs
    ∧ Forall (λ l, NotificationLog.notification l = None) parent_logs
    ∧ Notification.is_sent n = true
    ∧ Notification.email_sent n = true
    ∧ Notification.push_sent n = true
    ∧ Notification.sms_sent n = false.
Proof.
  intros Habsent Hst Hsess Hcourse Hparent Hnone.
  set (pk := new_pk (notifications db)).
  set (row := absence_notification (Attendance.student attendance) (Course.code course) attendance_pk).
  set (final := set_push_sent (set_email_sent (set_is_sent row))).
  set (db_a := set_notifications (insert pk row) db).
  set (db_b :=
         set_notifications (insert pk final)
           (set_notification_logs
              (λ logs, logs ++ [student_log pk email (Student.email student);
                                student_log pk push ("device_" +:+ pretty (Attendance.student attendance))])
              db_a)).
  destruct (notify_parent_returns (Attendance.student attendance) student
              absence ("Child Absence: " +:+ Student.full_name student) db_b)
    as [db1 Hnotify]; [done|].
  destruct (notify_parent_side _ _ _ _ _ _ _ Hnotify)
    as ((_ & Hstudents & Hcourses & Hsessions & _) & Hnotifs
        & parent_logs & Hlogs & Hparent_logs).
  change (students db1 = students db) in Hstudents.
  change (sessions db1 = sessions db) in Hsessions.
  assert (absence_notifications db1 (Attendance.student attendance) attendance_pk = {[pk := final]})
    as Hkey.
  { unfold absence_notifications in *. rewrite Hnotifs. subst db_b db_a.
    simpl notifications. rewrite insert_insert_eq.
    rewrite map_filter_insert_True by done.
    by rewrite Hnone, insert_empty. }
  exists pk, final, db1, parent_logs.
  split; [|split; [|split; [done|split; [|split; [|split]]]]].
  - unfold send_single_absentee_notification.
    destruct (decide (Attendance.status attendance ≠ absent)); [done|].
    rewrite (bind_Return _ _ db student db) by (unfold fetch; by rewrite Hst).
    rewrite (bind_Return _ _ db session db) by (unfold fetch; by rewrite Hsess).
    rewrite (bind_Return _ _ db db db) by done.
    rewrite (exists_empty _ Hnone).
    rewrite (bind_Return _ _ db course db) by (unfold fetch; by rewrite Hcourse).
    rewrite (bind_Return _ _ db pk db_a) by done.
    rewrite (bind_Return _ _ db_a tt db_b)
      by apply simulate_send_absence_notification.
    by rewrite (bind_Return _ _ db_b tt db1).
  - unfold send_single_absentee_notification.
    destruct (decide (Attendance.status attendance ≠ absent)); [done|].
    rewrite (bind_Return _ _ db1 student db1)
      by (unfold fetch; by rewrite Hstudents, Hst).
    rewrite (bind_Return _ _ db1 session db1)
      by (unfold fetch; by rewrite Hsessions, Hsess).
    rewrite (bind_Return _ _ db1 db1 db1) by done.
    by rewrite Hkey, exists_singleton.
  - rewrite Hkey. apply map_size_singleton.
  - rewrite Hnotifs. subst db_b db_a. simpl notifications.
    rewrite insert_insert_eq. apply map_size_insert_None, new_pk_fresh.
  - rewrite Hlogs. subst db_b db_a. simpl notification_logs.
    by rewrite <- app_assoc.
  - done.
Qed.

Lemma send_single_absentee_notification_twice_witness :
  ∃ pk db1,
    send_single_absentee_notification 0 alice_absent campus_alice_absent
    = (Return (Some pk), db1)
    ∧ send_single_absentee_notification 0 alice_absent db1 = (Return None, db1)
    ∧ size (absence_notifications db1 1 0) = 1.
Proof.
  destruct (send_single_absentee_notification_twice campus_alice_absent 0
              alice_absent alice open_session cs101)
    as (pk & n & db1 & logs & Hfirst & Hsecond & _ & Hone & _);
    [reflexivity | reflexivity | reflexivity | reflexivity
    | intros p [= <-]; by eexists | reflexivity |].
  exists pk, db1. split; [exact Hfirst | split; [exact Hsecond | exact Hone]].
Defined.

(** C5, the code at a failing input.  Alice's absence in session 1 already
    has its absence notification, so the single path does nothing on it;
    the bulk path over the session creates a second notification for the
    same (student, attendance, absence) key, with its log entries and a
    second parent notification. *)
Theorem send_absentee_notifications_duplicates :
  size (absence_notifications campus_alice_notified 1 0) = 1
  ∧ after (send_single_absentee_notification 0 alice_absent)
      campus_alice_notified = campus_alice_notified
  ∧ (send_absentee_notifications 1 open_session campus_alice_notified).1
    = Return 1
  ∧ size (absence_notifications
            (after (send_absentee_notifications 1 open_session)
               campus_alice_notified) 1 0) = 2
  ∧ size (parent_notifications
            (after (send_absentee_notifications 1 open_session)
               campus_alice_notified))
    = S (size (parent_notifications campus_alice_notified))
  ∧ length (notification_logs
              (after (send_absentee_notifications 1 open_session)
                 campus_alice_notified))
    = length (notification_logs campus_alice_notified) + 4.
Proof.
  vm_compute. repeat split; reflexivity.
Qed.

(** ** Detecting absentees *)

Lemma py_set_contains_instance (ints : list nat) pk row :
  py_set_contains (IntObject <$> ints) (StudentInstance pk row) = false.
Proof.
  unfold py_set_contains. induction ints as [|n ints IH]; [done|].
  rewrite fmap_cons. simpl. exact IH.
Qed.

(** No int of the second set equals an instance of the first, so the
    difference removes nothing. *)
Lemma py_set_difference_instances (l : list (nat * Student.t)) (ints : list nat) :
  py_set_difference ((λ kv, StudentInstance kv.1 kv.2) <$> l)
    (IntObject <$> ints)
  = (λ kv, StudentInstance kv.1 kv.2) <$> l.
Proof.
  unfold py_set_difference.
  induction l as [|[pk row] l IH]; [done|].
  rewrite fmap_cons, filter_cons. simpl.
  rewrite decide_True by apply py_set_contains_instance.
  by rewrite IH.
Qed.

(** [detect_session_absentees] returns every active enrolled student of
    the course, whatever the attendance table holds. *)
Lemma detect_session_absentees_all db session_pk session course :
  courses db !! AttendanceSession.course session = Some course →
  detect_session_absentees session_pk session db
  = (Return ((λ kv, StudentInstance kv.1 kv.2)
               <$> map_to_list (enrolled_active db course)), db).
Proof.
  intros Hcourse. unfold detect_session_absentees.
  rewrite (bind_Return _ _ db course db) by (unfold fetch; by rewrite Hcourse).
  rewrite (bind_Return _ _ db db db) by done.
  unfold ret. f_equal. f_equal.
  rewrite (list_fmap_compose Attendance.student IntObject).
  apply py_set_difference_instances.
Qed.

(** C9, the code at a failing input.  Alice is marked present in session 1
    and Bob has no record; [detect_session_absentees] returns both, Alice
    included, although she has a 'present' record: the set of present
    students holds keys, which never equal the [Student] instances of the
    set of enrolled students.  (The list of a set comes in no particular
    order.) *)
Theorem detect_session_absentees_keeps_present :
  Attendance.status <$> rows (pair_rows campus_alice_present 1 1) = [present]
  ∧ detect_session_absentees 1 open_session campus_alice_present
    = (Return [StudentInstance 2 bob; StudentInstance 1 alice],
       campus_alice_present).
Proof.
  vm_compute. split; reflexivity.
Qed.

(** ** Student statistics *)

Lemma Count_submseteq (P : Attendance.t → Prop) `{∀ r, Decision (P r)}
    (l1 l2 : list Attendance.t) :
  l1 ⊆+ l2 → (Count P l1 ≤ Count P l2)%Z.
Proof.
  induction 1 as [|x l1 l2 _ IH|x y l|x l1 l2 _ IH|l1 l2 l3 _ IH1 _ IH2].
  - done.
  - rewrite !Count_cons. lia.
  - rewrite !Count_cons. lia.
  - rewrite Count_cons. case_decide; lia.
  - lia.
Qed.

Lemma rows_filter_submseteq {A} (P : nat * A → Prop) `{∀ x, Decision (P x)}
    (m : gmap nat A) :
  rows (filter P m) ⊆+ rows m.
Proof.
  unfold rows. apply fmap_submseteq, map_to_list_submseteq, map_filter_subseteq.
Qed.

Lemma Count_all_status (s : Status) (records : list Attendance.t) :
  (∀ r, r ∈ records → Attendance.status r = s) →
  Count (has_status s) records = Z.of_nat (length records).
Proof.
  induction records as [|r records IH]; intros Hall; [done|].
  rewrite Count_cons, IH by (intros r' Hr'; apply Hall; by right).
  rewrite decide_True by (apply Hall; by left).
  simpl length. lia.
Qed.

(** C10, as amended.  In [attendance_stats] the overall percentage is
    [round((present + late) / max(total, 1) * 100, 1)] and each per-course
    percentage is [round(present / max(total, 1) * 100, 1)] over the records
    of the student in the course, counting only status present, both
    evaluated as the code writes them (quotient first, then the product by
    100).  A course whose records are all late gets 0.0 while these records
    are among the late ones counted in the overall percentage. *)
Theorem attendance_stats_percentages (db : DB) (student : nat) :
  let result := attendance_stats db student in
  let records := rows (student_rows db student) in
  StudentStats.present_count result = Count (has_status present) records
  ∧ StudentStats.late_count result = Count (has_status late) records
  ∧ StudentStats.total_classes result = Z.of_nat (length records)
  ∧ StudentStats.attendance_percentage result
    = rounded_percentage
        (StudentStats.present_count result + StudentStats.late_count result)
        (Z.max (StudentStats.total_classes result) 1)
  ∧ (∀ cs, cs ∈ StudentStats.course_wise_stats result ↔
       ∃ course_pk course,
         courses db !! course_pk = Some course
         ∧ student ∈ Course.students course
         ∧ cs = course_stats course
                  (rows (course_rows db course_pk (student_rows db student))))
  ∧ (∀ course course_records,
       let cs := course_stats course course_records in
       CourseStats.total cs = Z.of_nat (length course_records)
       ∧ CourseStats.present cs = Count (has_status present) course_records
       ∧ CourseStats.percentage cs
         = rounded_percentage (CourseStats.present cs)
             (Z.max (CourseStats.total cs) 1))
  ∧ (∀ course_pk course,
       let course_records :=
         rows (course_rows db course_pk (student_rows db student)) in
       (∀ r, r ∈ course_records → Attendance.status r = late) →
       CourseStats.percentage (course_stats course course_records)
       = S754_zero false
       ∧ (Z.of_nat (length course_records)
          ≤ StudentStats.late_count result)%Z).
Proof.
  intros result records. subst result records.
  unfold attendance_stats.
  cbn [StudentStats.present_count StudentStats.late_count
       StudentStats.total_classes StudentStats.attendance_percentage
       StudentStats.course_wise_stats].
  split; [done|]. split; [done|]. split; [apply Count_all|].
  split; [by rewrite int_or_max by apply Count_nonneg|].
  split; [|split].
  - intros cs. rewrite list_elem_of_fmap. unfold courses_of. split.
    + intros ([course_pk course] & -> & Hin).
      apply elem_of_map_to_list, map_lookup_filter_Some in Hin as [Hc Hin].
      exists course_pk, course. done.
    + intros (course_pk & course & Hc & Hin & ->).
      exists (course_pk, course). split; [done|].
      apply elem_of_map_to_list, map_lookup_filter_Some. done.
  - intros course course_records. unfold course_stats.
    cbn [CourseStats.total CourseStats.present CourseStats.percentage].
    split; [apply Count_all|]. split; [done|].
    by rewrite int_or_max by apply Count_nonneg.
  - intros course_pk course Hlate. split.
    + unfold course_stats. cbn [CourseStats.percentage].
      rewrite (Count_none (has_status present)).
      * apply rounded_percentage_zero, divisor_guard_positive.
      * intros r Hr. unfold has_status. rewrite (Hlate r Hr). done.
    + rewrite <- (Count_all_status late) by done.
      apply Count_submseteq, rows_filter_submseteq.
Qed.

Lemma attendance_stats_percentages_witness :
  StudentStats.attendance_percentage (attendance_stats campus_alice_present 1)
  = rounded_percentage
      (StudentStats.present_count (attendance_stats campus_alice_present 1)
       + StudentStats.late_count (attendance_stats campus_alice_present 1))
      (Z.max
         (StudentStats.total_classes (attendance_stats campus_alice_present 1))
         1).
Proof.
  pose proof (attendance_stats_percentages campus_alice_present 1) as Hstats.
  cbv zeta in Hstats.
  destruct Hstats as (_ & _ & _ & Hpercentage & _).
  exact Hpercentage.
Defined.

(** C10, counterexample: a student with 23 present among 80 records of one
    course gets the per-course percentage 28.7, where
    [round(100 * 23 / max(80, 1), 1)] is 28.8. *)
Lemma per_course_percentage_differs_from_spec_formula :
  (λ cs, (CourseStats.present cs, CourseStats.total cs,
          CourseStats.percentage cs))
    <$> StudentStats.course_wise_stats (attendance_stats semester 1)
  = [(23%Z, 80%Z, Py.decimal1 false 287)]
  ∧ spec_percentage 23 80 = Py.decimal1 false 288
  ∧ Py.decimal1 false 287 ≠ Py.decimal1 false 288.
Proof.
  vm_compute. repeat split; congruence.
Qed.

(** ** Low attendance *)




(** *** The sweep *)








Section Sweep.
Context (db : DB).
Hypothesis Hparents :
  ∀ st row p,
    students db !! st = Some row → Student.parent row = Some p →
    is_Some (parents db !! p).

Implicit Types (l : list (nat * Student.t)) (n : nat).




End Sweep.

(** *** The float comparison and the exact percentage *)


(** A threshold other than the default can sit on a tie: 23 present among
    80 records is exactly 28.75 percent, yet the computed percentage,
    28.749999999999996, is below a threshold of 28.75. *)
Lemma low_percentage_at_a_tie :
  let records := records_of 1 1 (replicate 23 present ++ replicate 57 absent) in
  let threshold := Py.int_true_divide 115 4 in
  (4 * (100 * Count present_or_late records)
   = 115 * Count (λ _, True) records)%Z
  ∧ low_percentage threshold records = Some (raw_percentage 23 80)
  ∧ Py.float_lt (raw_percentage 23 80) threshold = true.
Proof. vm_compute. repeat split; reflexivity. Qed.

(** *** The list, in the terms of the specification *)














(** ** The scenario of the specification

    Session 1 is active, its course has Alice and Bob.  Alice is marked
    present and Bob left unmarked; [auto_mark_absentees] then marks one
    student, Bob, absent, and the statistics of the session are
    total 2, present 1, absent 1, percentage 50.0.  Carol, who is not on
    the roster, is refused and gets no row. *)
Lemma scenario_mark_then_auto_mark :
  let db1 := after (mark_attendance (mark 1 1 present)) campus in
  let db2 := after (auto_mark_absentees 1 open_session (Some 7)) db1 in
  (auto_mark_absentees 1 open_session (Some 7) db1).1 = Return 1
  ∧ Attendance.status <$> rows (pair_rows db2 1 2) = [absent]
  ∧ Attendance.status <$> rows (pair_rows db2 1 1) = [present]
  ∧ get_session_stats db2 1
    = {| Stats.total := 2; Stats.present := 1; Stats.absent := 1;
         Stats.late := 0; Stats.excused := 0;
         Stats.percentage := Py.Float (Py.float_of_int 50) |}
  ∧ mark_attendance (mark 1 3 present) db2 = (Return StudentNotEnrolled, db2)
  ∧ size (pair_rows db2 1 3) = 0.
Proof. vm_compute. repeat split; reflexivity. Qed.

(** ** The uniqueness of the pairs is an invariant *)

Global Instance keeps_unique_refl : Reflexive keeps_unique.
Proof. intros db Hu. exact Hu. Qed.

Global Instance keeps_unique_trans : Transitive keeps_unique.
Proof. intros db1 db2 db3 H12 H23 Hu. by apply H23, H12. Qed.

Lemma preserves_weaken {A} (R1 R2 : DB → DB → Prop) (m : M A) :
  (∀ db db', R1 db db' → R2 db db') → preserves R1 m → preserves R2 m.
Proof. intros Hsub Hm db o db' Hrun. by eapply Hsub, Hm. Qed.

Lemma same_ledger_keeps_unique db db' : same_ledger db db' → keeps_unique db db'.
Proof.
  intros (_ & _ & _ & _ & Ha) Hu s st.
  by rewrite (pair_rows_ledger db db').
Qed.

Lemma insert_keeps_unique db pk row :
  attendances db !! pk = None →
  pair_rows db (Attendance.session row) (Attendance.student row) = ∅ →
  keeps_unique db (set_attendances (insert pk row) db).
Proof.
  intros Hfresh Hnone Hu s st.
  destruct (decide (Attendance.session row = s ∧ Attendance.student row = st))
    as [[<- <-]|Hother].
  - by rewrite pair_rows_insert_same, map_size_singleton.
  - by rewrite pair_rows_insert_other.
Qed.

Lemma Attendance_create_keeps_unique row :
  preserves keeps_unique (Attendance_create row).
Proof.
  intros db o db'. unfold Attendance_create.
  destruct (map_to_list (pair_rows db _ _)) eqn:Hl; intros [= <- <-];
    [|reflexivity].
  apply insert_keeps_unique; [apply new_pk_fresh|].
  by apply map_to_list_empty_iff.
Qed.

Lemma update_or_create_other_pairs db s st d pk row created db' s' st' :
  Attendance_update_or_create s st d db = (Return (pk, row, created), db') →
  ¬ (s = s' ∧ st = st') →
  pair_rows db' s' st' = pair_rows db s' st'.
Proof.
  intros Hrun Hother. apply update_or_create_inv in Hrun as (-> & -> & Hcase).
  destruct Hcase as [(_ & _ & Hfresh) | (_ & old & Hone)].
  - by apply pair_rows_insert_other.
  - assert (pair_rows db s st !! pk = Some old) as Hold
      by (rewrite Hone; apply lookup_singleton_eq).
    apply pair_rows_lookup in Hold as (Hold & Hs & Hst).
    unfold pair_rows. simpl attendances.
    rewrite map_filter_insert_False by done.
    rewrite map_filter_delete_not; [done|].
    intros y Hy. rewrite Hold in Hy. injection Hy as <-. simpl. congruence.
Qed.

Lemma update_or_create_keeps_unique s st d :
  preserves keeps_unique (Attendance_update_or_create s st d).
Proof.
  intros db [[[pk row] created]|e] db' Hrun Hu s' st'.
  - destruct (decide (s = s' ∧ st = st')) as [[<- <-]|Hother].
    + by rewrite (update_or_create_pair _ _ _ _ _ _ _ _ Hrun),
        map_size_singleton.
    + by rewrite (update_or_create_other_pairs _ _ _ _ _ _ _ _ _ _ Hrun).
  - revert Hrun. unfold Attendance_update_or_create.
    destruct (map_to_list (pair_rows db s st)) as [|[? ?] [|? ?]];
      intros Hrun; try discriminate Hrun.
    injection Hrun as _ <-. apply Hu.
Qed.

(** Whatever [mark_attendance] answers, it keeps the pairs unique. *)
Lemma mark_attendance_keeps_unique data :
  preserves keeps_unique (mark_attendance data).
Proof.
  unfold mark_attendance.
  apply preserves_try_except; try typeclasses eauto;
    [|intros e; apply preserves_ret; typeclasses eauto].
  apply preserves_bind; try typeclasses eauto;
    [apply preserves_get_object_or_404; typeclasses eauto | intros session].
  apply preserves_bind; try typeclasses eauto;
    [apply preserves_get_object_or_404; typeclasses eauto | intros _].
  destruct (negb _); [apply preserves_ret; typeclasses eauto|].
  apply preserves_bind; try typeclasses eauto;
    [apply preserves_fetch; typeclasses eauto | intros course].
  destruct (negb _); [apply preserves_ret; typeclasses eauto|].
  apply preserves_bind; try typeclasses eauto;
    [apply update_or_create_keeps_unique | intros [[pk attendance] created]].
  apply preserves_bind; try typeclasses eauto;
    [|intros _; apply preserves_ret; typeclasses eauto].
  apply (preserves_weaken same_ledger); [apply same_ledger_keeps_unique|].
  case_decide; [|apply preserves_ret; typeclasses eauto].
  apply preserves_try_except; try typeclasses eauto;
    [|intros e; apply preserves_ret; typeclasses eauto].
  apply preserves_bind; try typeclasses eauto;
    [apply send_single_absentee_notification_ledger
    |intros _; apply preserves_ret; typeclasses eauto].
Qed.

(** So does [auto_mark_absentees]. *)
Lemma auto_mark_absentees_keeps_unique session_pk session marked_by :
  preserves keeps_unique (auto_mark_absentees session_pk session marked_by).
Proof.
  unfold auto_mark_absentees.
  apply preserves_bind; try typeclasses eauto;
    [apply preserves_fetch; typeclasses eauto | intros course].
  apply preserves_bind; try typeclasses eauto;
    [apply preserves_get_db; typeclasses eauto | intros db].
  apply preserves_for_fold; try typeclasses eauto. intros count student.
  apply preserves_bind; try typeclasses eauto;
    [apply Attendance_create_keeps_unique
    |intros _; apply preserves_ret; typeclasses eauto].
Qed.

(** ** The bulk path never suppresses *)

Section Bulk.
Context (db : DB) (session : AttendanceSession.t) (course : Course.t).
Hypothesis Hintegrity : referential_integrity db.
Hypothesis Hcourse : courses db !! AttendanceSession.course session = Some course.

(** One turn of the loop: a notification is created for the record,
    whether or not the record already has some. *)
Lemma notify_absent_record_always db0 n pk r :
  same_ledger db db0 →
  attendances db !! pk = Some r →
  ∃ db1,
    notify_absent_record session n (pk, r) db0 = (Return (n + 1), db1)
    ∧ same_ledger db db1
    ∧ size (notifications db1) = S (size (notifications db0))
    ∧ size (absence_notifications db1 (Attendance.student r) pk)
      = S (size (absence_notifications db0 (Attendance.student r) pk)).
Proof using Hintegrity Hcourse.
  intros Hframe Hr. destruct Hintegrity as [Hstudents Hparents].
  destruct (Hstudents pk r Hr) as [student Hst].
  destruct Hframe as (Hp & Hs & Hc & Hse & Ha).
  unfold notify_absent_record. cbn [fst snd].
  rewrite (bind_Return _ _ db0 student db0)
    by (unfold fetch; by rewrite Hs, Hst).
  rewrite (bind_Return _ _ db0 course db0)
    by (unfold fetch; by rewrite Hc, Hcourse).
  set (row := absence_notification (Attendance.student r) (Course.code course)
                pk).
  set (key := new_pk (notifications db0)).
  set (final := set_push_sent (set_email_sent (set_is_sent row))).
  set (db_a := set_notifications (insert key row) db0).
  rewrite (bind_Return _ _ db0 key db_a) by done.
  set (db_b :=
         set_notifications (insert key final)
           (set_notification_logs
              (λ logs, logs ++ [student_log key email (Student.email student);
                                student_log key push
                                  ("device_" +:+ pretty (Attendance.student r))])
              db_a)).
  rewrite (bind_Return _ _ db_a tt db_b)
    by apply simulate_send_absence_notification.
  destruct (notify_parent_returns (Attendance.student r) student absence
              ("Child Absence Alert: " +:+ Student.full_name student) db_b)
    as [db1 Hnotify].
  { intros p Hparent. change (parents db_b) with (parents db0).
    rewrite Hp. by eapply Hparents. }
  destruct (notify_parent_side _ _ _ _ _ _ _ Hnotify)
    as (Hframe1 & Hnotifs & _).
  rewrite (bind_Return _ _ db_b tt db1 Hnotify).
  exists db1. split; [done|].
  assert (notifications db1 = <[key := final]> (notifications db0)) as Hn.
  { rewrite Hnotifs. subst db_b db_a. simpl notifications.
    apply insert_insert_eq. }
  split; [|split].
  - etransitivity; [|exact Hframe1]. by repeat split.
  - rewrite Hn. apply map_size_insert_None, new_pk_fresh.
  - unfold absence_notifications. rewrite Hn.
    rewrite map_filter_insert_True by done.
    apply map_size_insert_None, map_lookup_filter_None. left.
    apply new_pk_fresh.
Qed.

Lemma send_absentee_notifications_loop (l : list (nat * Attendance.t)) :
  (∀ kv, kv ∈ l → attendances db !! kv.1 = Some kv.2) →
  ∀ db0 n,
    same_ledger db db0 →
    ∃ db',
      for_fold l n (notify_absent_record session) db0
      = (Return (n + length l), db')
      ∧ same_ledger db db'
      ∧ size (notifications db') = size (notifications db0) + length l.
Proof using Hintegrity Hcourse.
  induction l as [|[pk r] l IH]; intros Hl db0 n Hframe.
  - exists db0. simpl. rewrite !Nat.add_0_r. done.
  - destruct (notify_absent_record_always db0 n pk r Hframe)
      as (db1 & Hstep & Hframe1 & Hsize1 & _).
    { apply (Hl (pk, r)). by left. }
    destruct (IH (λ kv Hkv, Hl kv (list_elem_of_further _ _ _ Hkv)) db1 (n + 1)
                Hframe1) as (db' & Hrun & Hframe' & Hsize').
    exists db'. simpl for_fold.
    rewrite (bind_Return _ _ db0 _ db1 Hstep), Hrun.
    split; [f_equal; f_equal; simpl; lia|]. split; [done | simpl; lia].
Qed.

(** On a database whose foreign keys resolve, the bulk path creates one
    new notification for each absent record of the session and returns
    their number, whatever notifications exist already. *)
Lemma send_absentee_notifications_count session_pk :
  ∃ db',
    send_absentee_notifications session_pk session db
    = (Return (size (absent_rows db session_pk)), db')
    ∧ same_ledger db db'
    ∧ size (notifications db')
      = size (notifications db) + size (absent_rows db session_pk).
Proof using Hintegrity Hcourse.
  destruct (send_absentee_notifications_loop
              (map_to_list (absent_rows db session_pk))) with
    (db0 := db) (n := 0) as (db' & Hrun & Hframe & Hsize).
  - intros [pk r] Hkv. simpl.
    apply elem_of_map_to_list, map_lookup_filter_Some in Hkv as [Hkv _].
    by apply session_rows_lookup in Hkv as [? _].
  - reflexivity.
  - rewrite length_map_to_list in Hrun, Hsize.
    exists db'. unfold send_absentee_notifications.
    rewrite (bind_Return _ _ db db db) by done.
    split; [exact Hrun|]. split; [done | exact Hsize].
Qed.

End Bulk.

(** * Further properties of the views *)

Global Instance only_attendances_refl : Reflexive only_attendances.
Proof. intros db. by repeat split. Qed.

Global Instance only_attendances_trans : Transitive only_attendances.
Proof.
  intros db1 db2 db3 (?&?&?&?&?&?&?) (?&?&?&?&?&?&?).
  repeat split; congruence.
Qed.

Lemma keeps_pair_bulk_defaults user item : keeps_pair (bulk_defaults user item).
Proof. by intros r. Qed.


(** ** [update_or_create] with some columns *)

Lemma update_or_create_with_inv db s st f pk row created db' :
  Attendance_update_or_create_with s st f db = (Return (pk, row, created), db') →
  db' = set_attendances (insert pk row) db
  ∧ (created = true ∧ pair_rows db s st = ∅ ∧ attendances db !! pk = None
     ∧ row = f (blank_attendance s st)
     ∨ created = false ∧ ∃ old, pair_rows db s st = {[pk := old]} ∧ row = f old).
Proof.
  unfold Attendance_update_or_create_with.
  destruct (map_to_list (pair_rows db s st)) as [|[pk0 old] [|? ?]] eqn:Hl;
    intros Hrun; [| |discriminate].
  - injection Hrun as <- <- <- <-.
    apply map_to_list_empty_iff in Hl.
    split; [done|]. left. repeat split; [done | apply new_pk_fresh].
  - injection Hrun as <- <- <- <-.
    apply map_to_list_singleton_inv in Hl.
    split; [done|]. right. eauto.
Qed.

Lemma update_or_create_with_raises db s st f e db' :
  Attendance_update_or_create_with s st f db = (Raise e, db') →
  e = MultipleObjectsReturned ∧ db' = db ∧ 1 < size (pair_rows db s st).
Proof.
  unfold Attendance_update_or_create_with.
  rewrite <- length_map_to_list.
  destruct (map_to_list (pair_rows db s st)) as [|[pk0 old] [|? ?]];
    intros Hrun; try discriminate Hrun.
  injection Hrun as <- <-. simpl. repeat split; lia.
Qed.

Lemma update_or_create_with_only_attendances s st f :
  preserves only_attendances (Attendance_update_or_create_with s st f).
Proof.
  intros db [[[pk row] created]|e] db' Hrun.
  - apply update_or_create_with_inv in Hrun as (-> & _). by repeat split.
  - apply update_or_create_with_raises in Hrun as (_ & -> & _). reflexivity.
Qed.

(** After a successful call the pair has exactly its row. *)
Lemma update_or_create_with_pair db s st f pk row created db' :
  keeps_pair f →
  Attendance_update_or_create_with s st f db = (Return (pk, row, created), db') →
  pair_rows db' s st = {[pk := row]}.
Proof.
  intros Hf Hrun. apply update_or_create_with_inv in Hrun as (-> & Hcase).
  unfold pair_rows in *. simpl attendances.
  destruct Hcase as [(_ & Hnone & _ & ->) | (_ & old & Hone & ->)].
  - rewrite map_filter_insert_True
      by (destruct (Hf (blank_attendance s st)) as [Hs' Hst']; simpl;
          by rewrite Hs', Hst').
    by rewrite Hnone, insert_empty.
  - assert (filter (λ kv : nat * Attendance.t, Attendance.session kv.2 = s
                      ∧ Attendance.student kv.2 = st) (attendances db) !! pk
            = Some old) as Hold by (rewrite Hone; apply lookup_singleton_eq).
    apply map_lookup_filter_Some in Hold as (_ & Hs & Hst). simpl in Hs, Hst.
    rewrite map_filter_insert_True
      by (destruct (Hf old) as [Hs' Hst']; simpl; by rewrite Hs', Hst').
    by rewrite Hone, insert_singleton_eq.
Qed.

Lemma update_or_create_with_other_pairs db s st f pk row created db' s' st' :
  keeps_pair f →
  Attendance_update_or_create_with s st f db = (Return (pk, row, created), db') →
  ¬ (s = s' ∧ st = st') →
  pair_rows db' s' st' = pair_rows db s' st'.
Proof.
  intros Hf Hrun Hother. apply update_or_create_with_inv in Hrun as (-> & Hcase).
  destruct Hcase as [(_ & _ & Hfresh & ->) | (_ & old & Hone & ->)].
  - apply pair_rows_insert_other; [done|].
    destruct (Hf (blank_attendance s st)) as [Hs' Hst'].
    rewrite Hs', Hst'. done.
  - assert (pair_rows db s st !! pk = Some old) as Hold
      by (rewrite Hone; apply lookup_singleton_eq).
    apply pair_rows_lookup in Hold as (Hold & Hs & Hst).
    unfold pair_rows. simpl attendances.
    rewrite map_filter_insert_False
      by (destruct (Hf old) as [Hs' Hst']; simpl; rewrite Hs', Hst'; congruence).
    rewrite map_filter_delete_not; [done|].
    intros y Hy. rewrite Hold in Hy. injection Hy as <-. simpl. congruence.
Qed.

Lemma update_or_create_with_keeps_unique s st f :
  keeps_pair f →
  preserves keeps_unique (Attendance_update_or_create_with s st f).
Proof.
  intros Hf db [[[pk row] created]|e] db' Hrun Hu s' st'.
  - destruct (decide (s = s' ∧ st = st')) as [[<- <-]|Hother].
    + by rewrite (update_or_create_with_pair _ _ _ _ _ _ _ _ Hf Hrun),
        map_size_singleton.
    + by rewrite (update_or_create_with_other_pairs _ _ _ _ _ _ _ _ _ _ Hf Hrun).
  - apply update_or_create_with_raises in Hrun as (_ & -> & _). apply Hu.
Qed.

(** With at most one row for the pair the call returns. *)
Lemma update_or_create_with_returns db s st f :
  size (pair_rows db s st) ≤ 1 →
  ∃ pk row db',
    Attendance_update_or_create_with s st f db
    = (Return (pk, row, bool_decide (pair_rows db s st = ∅)), db').
Proof.
  intros Hle. unfold Attendance_update_or_create_with.
  destruct (map_size_le_1 _ Hle) as [Hnone | (pk & old & Hone)].
  - rewrite Hnone, map_to_list_empty, bool_decide_eq_true_2 by done. eauto.
  - rewrite Hone, map_to_list_singleton.
    rewrite bool_decide_eq_false_2 by apply insert_non_empty. eauto.
Qed.

(** ** Bulk marking *)

Section BulkMark.
Context (sid : nat) (session : AttendanceSession.t) (user : nat).

(** One turn of the loop never raises: the item goes to [results] or to
    [errors]. *)
Lemma bulk_mark_item_returns results errors item db :
  ∃ acc' db',
    bulk_mark_item sid session user (results, errors) item db
    = (Return acc', db')
    ∧ length acc'.1 + length acc'.2 = S (length results + length errors)
    ∧ only_attendances db db'
    ∧ keeps_unique db db'.
Proof.
  unfold bulk_mark_item.
  destruct (item_student_id item) as [st|].
  2:{ eexists _, db. split; [reflexivity|]. simpl. rewrite length_app. simpl.
      split; [lia|]. split; reflexivity. }
  unfold try_except, bind, get_object_or_404, fetch, ret.
  destruct (students db !! st) as [student|].
  2:{ eexists _, db. split; [reflexivity|]. simpl. rewrite length_app. simpl.
      split; [lia|]. split; reflexivity. }
  destruct (courses db !! AttendanceSession.course session) as [course|].
  2:{ eexists _, db. split; [reflexivity|]. simpl. rewrite length_app. simpl.
      split; [lia|]. split; reflexivity. }
  destruct (negb (bool_decide (st ∈ Course.students course))).
  { eexists _, db. split; [reflexivity|]. simpl. rewrite length_app. simpl.
    split; [lia|]. split; reflexivity. }
  destruct (Attendance_update_or_create_with sid st (bulk_defaults user item) db)
    as [[[[pk row] created]|e] db1] eqn:Hrun.
  - eexists _, db1. split; [reflexivity|]. simpl. rewrite length_app. simpl.
    split; [lia|]. split.
    + by eapply update_or_create_with_only_attendances.
    + eapply update_or_create_with_keeps_unique; [|exact Hrun].
      apply keeps_pair_bulk_defaults.
  - apply update_or_create_with_raises in Hrun as (_ & -> & _).
    eexists _, db. split; [reflexivity|]. simpl. rewrite length_app. simpl.
    split; [lia|]. split; reflexivity.
Qed.

Lemma bulk_mark_loop_returns (l : list BulkItem) :
  ∀ acc db,
    ∃ acc' db',
      for_fold l acc (bulk_mark_item sid session user) db = (Return acc', db')
      ∧ length acc'.1 + length acc'.2 = length acc.1 + length acc.2 + length l
      ∧ only_attendances db db'
      ∧ keeps_unique db db'.
Proof.
  induction l as [|item l IH]; intros [results errors] db.
  - exists (results, errors), db. simpl. split; [done|]. split; [lia|].
    split; reflexivity.
  - destruct (bulk_mark_item_returns results errors item db)
      as (acc1 & db1 & Hstep & Hlen1 & Hframe1 & Hu1).
    destruct (IH acc1 db1) as (acc' & db' & Hrun & Hlen & Hframe & Hu).
    exists acc', db'. simpl for_fold.
    rewrite (bind_Return _ _ db acc1 db1 Hstep), Hrun.
    split; [done|]. simpl in *. split; [lia|].
    split; etransitivity; eassumption.
Qed.

End BulkMark.

(** [try: send_absentee_notifications(session) except Exception: log]
    returns and leaves the ledger as it was. *)
Lemma guarded_send_absentee_notifications sid session db :
  ∃ db',
    try_except
      (let* _ := send_absentee_notifications sid session in ret tt)
      (λ _, ret tt) db = (Return tt, db')
    ∧ same_ledger db db'.
Proof.
  destruct (try_except
              (let* _ := send_absentee_notifications sid session in ret tt)
              (λ _, ret tt) db) as [o db'] eqn:Hrun.
  assert (same_ledger db db') as Hframe.
  { revert Hrun. apply preserves_try_except; try typeclasses eauto.
    - apply preserves_bind; try typeclasses eauto.
      + apply send_absentee_notifications_ledger.
      + intros _. apply preserves_ret; typeclasses eauto.
    - intros _. apply preserves_ret; typeclasses eauto. }
  exists db'. split; [|done].
  revert Hrun. unfold try_except, bind, ret.
  destruct (send_absentee_notifications sid session db) as [[n|e] db1];
    intros [= <- <-]; reflexivity.
Qed.

(** X1.  [bulk_mark_attendance] always answers.  A session that does not
    exist gives 500 (the 404 of the lookup is caught by the outer handler)
    and a session that is not active gives 400, both with the database left
    as it was.  For an active session the answer is 200 and every item of
    the request is counted once, in [results] or in [errors]; the students,
    courses and sessions are left as they were and so is the uniqueness of
    the (session, student) pairs. *)
Theorem bulk_mark_attendance_answers (db : DB) (data : BulkRequest) :
  ∃ response db',
    bulk_mark_attendance data db = (Return response, db')
    ∧ match sessions db !! bulk_session_id data with
      | None => response = Bulk500 Http404 ∧ db' = db
      | Some session =>
          if AttendanceSession.is_active session then
            ∃ results errors,
              response = Bulk200 results errors
              ∧ length results + length errors = length (attendance_data data)
              ∧ students db' = students db
              ∧ courses db' = courses db
              ∧ sessions db' = sessions db
              ∧ (unique_together db → unique_together db')
          else
            response = Bulk400 "This attendance session is not active"
            ∧ db' = db
      end.
Proof.
  unfold bulk_mark_attendance.
  destruct (sessions db !! bulk_session_id data) as [session|] eqn:Hsession.
  2:{ exists (Bulk500 Http404), db.
      unfold try_except, bind, get_object_or_404, ret. by rewrite Hsession. }
  destruct (AttendanceSession.is_active session) eqn:Hon.
  2:{ exists (Bulk400 "This attendance session is not active"), db.
      unfold try_except, bind, get_object_or_404, ret.
      by rewrite Hsession, Hon. }
  destruct (bulk_mark_loop_returns (bulk_session_id data) session
              (bulk_user data) (attendance_data data) ([], []) db)
    as ([results errors] & db1 & Hloop & Hlen & Hframe1 & Hu1).
  destruct (guarded_send_absentee_notifications (bulk_session_id data) session
              db1) as (db' & Hsend & Hframe2).
  exists (Bulk200 results errors), db'. split.
  - unfold try_except at 1.
    rewrite (bind_Return _ _ db session db)
      by (unfold get_object_or_404; by rewrite Hsession).
    rewrite Hon. cbn [negb].
    rewrite (bind_Return _ _ db _ db1 Hloop).
    rewrite (bind_Return _ _ db1 tt db' Hsend). reflexivity.
  - exists results, errors. split; [done|]. split; [exact Hlen|].
    destruct Hframe1 as (_ & Hst & Hc & Hse & _).
    pose proof Hframe2 as (_ & Hst2 & Hc2 & Hse2 & Ha2).
    repeat split; try congruence.
    intros Hu. by eapply same_ledger_keeps_unique, Hu1.
Qed.

Lemma insert_referential_integrity db pk row :
  referential_integrity db →
  is_Some (students db !! Attendance.student row) →
  referential_integrity (set_attendances (insert pk row) db).
Proof.
  intros [Hrows Hparents] Hstudent. split; [|exact Hparents].
  intros pk' r. simpl attendances. simpl students.
  destruct (decide (pk' = pk)) as [->|Hne].
  - rewrite lookup_insert_eq. by intros [= <-].
  - rewrite lookup_insert_ne by done. apply Hrows.
Qed.

Section BulkMarkSpec.
Context (db : DB) (sid : nat) (session : AttendanceSession.t) (user : nat)
  (course : Course.t).
Hypothesis Hcourse : courses db !! AttendanceSession.course session = Some course.

(** One turn of the loop, on a database with the students and courses of
    [db] and unique pairs. *)
Lemma bulk_mark_item_spec db0 results errors item :
  students db0 = students db → courses db0 = courses db →
  unique_together db0 →
  ∃ db1,
    match accepted db course item with
    | Some (st, s) =>
        ∃ pk row,
          bulk_mark_item sid session user (results, errors) item db0
          = (Return (results
                     ++ [(st, s, bool_decide (pair_rows db0 sid st = ∅))],
                     errors), db1)
          ∧ item_student_id item = Some st
          ∧ rejected db course item = None
          ∧ Attendance.status row = s
          ∧ Attendance_update_or_create_with sid st (bulk_defaults user item) db0
            = (Return (pk, row, bool_decide (pair_rows db0 sid st = ∅)), db1)
    | None =>
        ∃ err,
          rejected db course item = Some err
          ∧ bulk_mark_item sid session user (results, errors) item db0
            = (Return (results, errors ++ [err]), db1)
          ∧ db1 = db0
    end.
Proof using Hcourse.
  intros Hst Hc Hu. unfold accepted, rejected, bulk_mark_item.
  destruct (item_student_id item) as [st|]; [|by eexists db0, _].
  unfold try_except, bind, get_object_or_404, fetch, ret.
  rewrite Hst.
  destruct (students db !! st) as [student|] eqn:Hstudent.
  2:{ rewrite decide_False by (intros [[? ?] _]; done). by eexists db0, _. }
  rewrite Hc, Hcourse.
  destruct (decide (st ∈ Course.students course)) as [Hin|Hout].
  2:{ rewrite decide_False by tauto.
      rewrite bool_decide_eq_false_2 by done. by eexists db0, _. }
  rewrite decide_True by (split; [by eexists | done]).
  rewrite bool_decide_eq_true_2 by done. cbn [negb].
  destruct (update_or_create_with_returns db0 sid st (bulk_defaults user item)
              (Hu sid st)) as (pk & row & db1 & Hrun).
  exists db1, pk, row. rewrite Hrun.
  pose proof Hrun as Hinv.
  apply update_or_create_with_inv in Hinv as (_ & Hcase).
  repeat split; try done.
  all: try (destruct Hcase as [(_ & _ & _ & ->) | (_ & old & _ & ->)]; reflexivity).
Qed.

Lemma accepted_student item st s :
  accepted db course item = Some (st, s) →
  item_student_id item = Some st
  ∧ s = default present (item_status item)
  ∧ is_Some (students db !! st) ∧ st ∈ Course.students course.
Proof.
  unfold accepted. destruct (item_student_id item) as [st'|]; [|done].
  case_decide; [|done]. intros [= <- <-]. tauto.
Qed.

Lemma bulk_mark_loop_spec (l : list BulkItem) :
  ∀ db0 results errors,
    students db0 = students db → courses db0 = courses db →
    unique_together db0 →
    ∃ results' errors' db',
      for_fold l (results, errors) (bulk_mark_item sid session user) db0
      = (Return (results', errors'), db')
      ∧ (λ r, (r.1.1, r.1.2)) <$> results'
        = ((λ r, (r.1.1, r.1.2)) <$> results) ++ omap (accepted db course) l
      ∧ errors' = errors ++ omap (rejected db course) l
      ∧ (∀ st s, (st, s, true) ∈ results' →
           (st, s, true) ∈ results ∨ pair_rows db0 sid st = ∅)
      ∧ (∀ s' st',
           s' ≠ sid ∨ st' ∉ (omap (accepted db course) l).*1 →
           pair_rows db' s' st' = pair_rows db0 s' st')
      ∧ (∀ before item after st s,
           l = before ++ item :: after →
           accepted db course item = Some (st, s) →
           Forall (λ i, item_student_id i ≠ Some st) after →
           ∃ pk row,
             pair_rows db' sid st = {[pk := row]}
             ∧ Attendance.status row = s
             ∧ Attendance.verification_method row
               = default manual (item_verification_method item)
             ∧ Attendance.marked_by row = Some user
             ∧ Attendance.notes row = default EmptyString (item_notes item))
      ∧ (∀ st pk0 old,
           pair_rows db0 sid st = {[pk0 := old]} →
           ∃ row,
             pair_rows db' sid st = {[pk0 := row]}
             ∧ Attendance.face_confidence row = Attendance.face_confidence old
             ∧ Attendance.location_lat row = Attendance.location_lat old
             ∧ Attendance.location_lng row = Attendance.location_lng old)
      ∧ (∀ st, st ∈ (omap (accepted db course) l).*1 →
           size (pair_rows db' sid st) = 1)
      ∧ (referential_integrity db0 → referential_integrity db')
      ∧ unique_together db'
      ∧ only_attendances db0 db'.
Proof using Hcourse.
  induction l as [|item l IH]; intros db0 results errors Hst Hc Hu.
  { exists results, errors, db0. simpl. rewrite !app_nil_r.
    repeat split; try done.
    - intros st s Hin. by left.
    - intros before item after st s Hl. by destruct before.
    - intros st pk0 old Hone. by exists old.
    - intros st Hin. by apply elem_of_nil in Hin.
    - by destruct H.
    - by destruct H. }
  destruct (bulk_mark_item_spec db0 results errors item Hst Hc Hu)
    as (db1 & Hstep).
  assert (only_attendances db0 db1 ∧ unique_together db1) as [Hframe1 Hu1].
  { destruct (accepted db course item) as [[st s]|].
    - destruct Hstep as (pk & row & _ & _ & _ & _ & Hrun). split.
      + by eapply update_or_create_with_only_attendances.
      + eapply update_or_create_with_keeps_unique; [|exact Hrun|exact Hu].
        apply keeps_pair_bulk_defaults.
    - destruct Hstep as (err & _ & _ & ->). split; [reflexivity | done]. }
  pose proof Hframe1 as (_ & Hst1 & Hc1 & _).
  simpl for_fold. simpl omap.
  destruct (accepted db course item) as [[st s]|] eqn:Hacc.
  - destruct Hstep as (pk & row & Hstep & Hid & Hrej & Hstatus & Hrun).
    rewrite Hrej.
    destruct (IH db1 (results ++ [(st, s, bool_decide (pair_rows db0 sid st = ∅))])
                errors) as (results' & errors' & db' & Hloop & Hres & Herr & Hcreated
                            & Hother & Hlast & Hkeep & Hsize' & Hint' & Hu'
                            & Hframe');
      [congruence | congruence | done |].
    exists results', errors', db'.
    rewrite (bind_Return _ _ db0 _ db1 Hstep), Hloop.
    pose proof (update_or_create_with_pair _ _ _ _ _ _ _ _
                  (keeps_pair_bulk_defaults user item) Hrun) as Hpair.
    split; [done|]. split.
    { rewrite Hres, fmap_app. simpl. by rewrite <- app_assoc. }
    split; [done|]. split.
    { intros st' s' Hin. destruct (Hcreated st' s' Hin) as [Hold|Hnone].
      - apply elem_of_app in Hold as [Hold|Hnew]; [by left|].
        apply list_elem_of_singleton in Hnew. injection Hnew as -> -> Hb.
        right. symmetry in Hb. by apply bool_decide_eq_true in Hb.
      - destruct (decide (st' = st)) as [->|Hne].
        + rewrite Hpair in Hnone. by apply map_non_empty_singleton in Hnone.
        + right. rewrite <- Hnone. symmetry.
          eapply update_or_create_with_other_pairs;
            [apply keeps_pair_bulk_defaults | exact Hrun | ].
          intros [_ ?]. congruence. }
    split.
    { intros s' st' Hcond. rewrite Hother.
      - eapply update_or_create_with_other_pairs;
          [apply keeps_pair_bulk_defaults | exact Hrun | ].
        intros [<- <-]. destruct Hcond as [Hs|Hnotin]; [done|].
        apply Hnotin. simpl. left.
      - destruct Hcond as [Hs|Hnotin]; [by left|]. right.
        intros Hin. apply Hnotin. simpl. by right. }
    split.
    { intros before item' after st' s' Hl Hacc' Hafter.
      destruct before as [|item0 before].
      - simpl in Hl. injection Hl as <- <-.
        rewrite Hacc in Hacc'. injection Hacc' as <- <-.
        exists pk, row. rewrite Hother.
        + split; [done|]. split; [done|].
          apply update_or_create_with_inv in Hrun as (_ & Hcase).
          destruct Hcase as [(_ & _ & _ & ->) | (_ & old & _ & ->)]; done.
        + right. intros Hin.
          apply list_elem_of_fmap in Hin as ([st0 s0] & -> & Hin).
          apply list_elem_of_omap in Hin as (i & Hi & Hacci).
          apply accepted_student in Hacci as (Hidi & _).
          rewrite Forall_forall in Hafter. by apply (Hafter i).
      - simpl in Hl. injection Hl as <- ->.
        by eapply Hlast. }
    split.
    { intros st' pk0 old Hone.
      destruct (decide (st' = st)) as [->|Hne].
      - apply update_or_create_with_inv in Hrun as (_ & Hcase).
        destruct Hcase as [(_ & Hnone & _) | (_ & old' & Hone' & Hrow)].
        { rewrite Hnone in Hone. symmetry in Hone.
          by apply map_non_empty_singleton in Hone. }
        rewrite Hone in Hone'.
        assert (({[pk0 := old]} : gmap nat Attendance.t) !! pk0 = Some old)
          as Hlook by apply lookup_singleton_eq.
        rewrite Hone' in Hlook.
        apply lookup_singleton_Some in Hlook as [<- <-].
        destruct (Hkeep st pk row Hpair) as (row' & Hpair' & Hconf & Hlat & Hlng).
        exists row'. split; [done|]. rewrite Hconf, Hlat, Hlng, Hrow. done.
      - apply Hkeep. rewrite <- Hone.
        eapply update_or_create_with_other_pairs;
          [apply keeps_pair_bulk_defaults | exact Hrun | ].
        intros [_ ?]. congruence. }
    split.
    { intros st' Hin. simpl in Hin. apply elem_of_cons in Hin as [->|Hin].
      - destruct (Hkeep st pk row Hpair) as (row' & -> & _).
        apply map_size_singleton.
      - by apply Hsize'. }
    split.
    { intros Hint. apply Hint'.
      apply update_or_create_with_inv in Hrun as (-> & Hcase).
      apply accepted_student in Hacc as (_ & _ & Hexists & _).
      apply insert_referential_integrity; [done|].
      rewrite Hst.
      destruct Hcase as [(_ & _ & _ & ->) | (_ & old & Hold & ->)]; [done|].
      assert (pair_rows db0 sid st !! pk = Some old) as Hlook
        by (rewrite Hold; apply lookup_singleton_eq).
      apply pair_rows_lookup in Hlook as (_ & _ & Hstudent).
      simpl. by rewrite Hstudent. }
    split; [done|]. by etransitivity.
  - destruct Hstep as (err & Hrej & Hstep & ->). rewrite Hrej.
    destruct (IH db0 results (errors ++ [err]))
      as (results' & errors' & db' & Hloop & Hres & Herr & Hcreated
          & Hother & Hlast & Hkeep & Hsize' & Hint' & Hu' & Hframe');
      [done | done | done |].
    exists results', errors', db'.
    rewrite (bind_Return _ _ db0 _ db0 Hstep), Hloop.
    split; [done|]. split; [done|].
    split; [by rewrite Herr, <- app_assoc|].
    split; [done|]. split; [done|]. split; [|done].
    intros before item' after st' s' Hl Hacc' Hafter.
    destruct before as [|item0 before].
    + simpl in Hl. injection Hl as <- <-. congruence.
    + simpl in Hl. injection Hl as <- ->. by eapply Hlast.
Qed.

End BulkMarkSpec.

(** The view past its two checks: the loop, then the notifications. *)
Lemma bulk_mark_attendance_run db data session acc db1 :
  sessions db !! bulk_session_id data = Some session →
  AttendanceSession.is_active session = true →
  for_fold (attendance_data data) ([], [])
    (bulk_mark_item (bulk_session_id data) session (bulk_user data)) db
  = (Return acc, db1) →
  bulk_mark_attendance data db
  = (match send_absentee_notifications (bulk_session_id data) session db1 with
     | (_, db') => (Return (Bulk200 acc.1 acc.2), db')
     end).
Proof.
  intros Hsession Hon Hloop. unfold bulk_mark_attendance.
  unfold try_except at 1.
  rewrite (bind_Return _ _ db session db)
    by (unfold get_object_or_404; by rewrite Hsession).
  rewrite Hon. cbn [negb].
  rewrite (bind_Return _ _ db _ db1 Hloop).
  unfold try_except, bind, ret.
  by destruct (send_absentee_notifications (bulk_session_id data) session db1)
    as [[n|e] db'].
Qed.

Lemma absent_rows_ledger db db' s :
  attendances db' = attendances db → absent_rows db' s = absent_rows db s.
Proof. intros Ha. unfold absent_rows. by rewrite (session_rows_ledger db db'). Qed.



(** X4.  On a database whose foreign keys resolve, every bulk request sends
    an absence notification for every record of the session that is absent
    once the items are marked, those the request did not touch and those
    already notified included: the notification table grows by the number
    of absent records of the session. *)
Theorem bulk_mark_attendance_renotifies (db : DB) (data : BulkRequest)
    (session : AttendanceSession.t) (course : Course.t) :
  sessions db !! bulk_session_id data = Some session →
  AttendanceSession.is_active session = true →
  courses db !! AttendanceSession.course session = Some course →
  unique_together db →
  referential_integrity db →
  ∃ response db',
    bulk_mark_attendance data db = (Return response, db')
    ∧ size (notifications db')
      = size (notifications db)
        + size (absent_rows db' (bulk_session_id data)).
Proof.
  intros Hsession Hon Hcourse Hu Hint.
  destruct (bulk_mark_loop_spec db (bulk_session_id data) session
              (bulk_user data) course Hcourse (attendance_data data) db [] [])
    as (results & errors & db1 & Hloop & _ & _ & _ & _
        & _ & _ & _ & Hint1 & _ & Hframe1); [done | done | done |].
  pose proof (bulk_mark_attendance_run db data session _ db1 Hsession Hon Hloop)
    as Hrun.
  destruct Hframe1 as (_ & _ & Hc1 & _ & Hn1 & _).
  destruct (send_absentee_notifications_count db1 session course (Hint1 Hint)
              (eq_trans (f_equal (λ c, c !! _) Hc1) Hcourse)
              (bulk_session_id data))
    as (db' & Hsend & Hframe & Hsize).
  rewrite Hsend in Hrun. destruct Hframe as (_ & _ & _ & _ & Ha).
  exists (Bulk200 results errors), db'. split; [exact Hrun|].
  rewrite Hsize, Hn1. by rewrite (absent_rows_ledger db1 db').
Qed.

(** ** Marking by face *)



(** ** Changing a status *)

(** Writing a row over one of the same pair keeps the size of every pair. *)
Lemma overwrite_pair_rows db pk old row s st :
  attendances db !! pk = Some old →
  Attendance.session row = Attendance.session old →
  Attendance.student row = Attendance.student old →
  size (pair_rows (set_attendances (insert pk row) db) s st)
  = size (pair_rows db s st).
Proof.
  intros Hold Hs Hst. unfold pair_rows. simpl attendances.
  destruct (decide (Attendance.session old = s ∧ Attendance.student old = st))
    as [Hsame|Hother].
  - rewrite map_filter_insert_True by (simpl; by rewrite Hs, Hst).
    apply map_size_insert_Some. exists old. by apply map_lookup_filter_Some.
  - rewrite map_filter_insert_False by (simpl; by rewrite Hs, Hst).
    rewrite map_filter_delete_not; [done|].
    intros y Hy. rewrite Hold in Hy. by injection Hy as <-.
Qed.

Lemma exists_nonempty {A} (q : gmap nat A) : q ≠ ∅ → exists_ q = true.
Proof.
  intros Hne. unfold exists_.
  destruct (map_to_list q) eqn:Hl; [|done].
  by apply map_to_list_empty_iff in Hl.
Qed.

Lemma exists_false {A} (q : gmap nat A) : exists_ q = false → q = ∅.
Proof.
  unfold exists_. destruct (map_to_list q) eqn:Hl; [|done].
  intros _. by apply map_to_list_empty_iff.
Qed.

(** What [send_single_absentee_notification] does to the notification
    table, whether it returns or raises: nothing, or one new absence
    notification for a record that had none. *)
Lemma send_single_absentee_notification_table pk attendance db o db' :
  send_single_absentee_notification pk attendance db = (o, db') →
  same_ledger db db'
  ∧ (notifications db' = notifications db
     ∨ absence_notifications db (Attendance.student attendance) pk = ∅
       ∧ ∃ n, notifications db'
              = <[new_pk (notifications db) := n]> (notifications db)
              ∧ Notification.student n = Attendance.student attendance
              ∧ Notification.attendance n = Some pk
              ∧ Notification.notification_type n = absence).
Proof.
  intros Hrun. split; [by eapply send_single_absentee_notification_ledger|].
  revert Hrun. unfold send_single_absentee_notification.
  case_decide; [intros [= <- <-]; by left|].
  unfold bind at 1. unfold fetch at 1.
  destruct (students db !! Attendance.student attendance) as [student|];
    [|intros [= <- <-]; by left].
  unfold bind at 1. unfold fetch at 1.
  destruct (sessions db !! Attendance.session attendance) as [session|];
    [|intros [= <- <-]; by left].
  unfold bind at 1. unfold get_db at 1.
  destruct (exists_ _) eqn:Hex; [intros [= <- <-]; by left|].
  apply exists_false in Hex.
  unfold bind at 1. unfold fetch at 1.
  destruct (courses db !! AttendanceSession.course session) as [course|];
    [|intros [= <- <-]; by left].
  set (row := absence_notification (Attendance.student attendance)
                (Course.code course) pk).
  set (key := new_pk (notifications db)).
  set (db_a := set_notifications (insert key row) db).
  rewrite (bind_Return _ _ db key db_a) by done.
  set (final := set_push_sent (set_email_sent (set_is_sent row))).
  set (db_b :=
         set_notifications (insert key final)
           (set_notification_logs
              (λ logs, logs ++ [student_log key email (Student.email student);
                                student_log key push
                                  ("device_" +:+ pretty (Attendance.student attendance))])
              db_a)).
  rewrite (bind_Return _ _ db_a tt db_b)
    by apply simulate_send_absence_notification.
  intros Hrun. right. split; [done|]. exists final.
  assert (notifications db' = notifications db_b) as ->.
  { revert Hrun. unfold bind.
    destruct (notify_parent _ _ _ _ db_b) as [[[]|e] db1] eqn:Hnotify;
      intros [= <- <-];
      by destruct (notify_parent_side _ _ _ _ _ _ _ Hnotify) as (_ & -> & _). }
  split; [|done]. subst db_b db_a. simpl notifications.
  apply insert_insert_eq.
Qed.

Lemma send_single_absentee_notification_once pk attendance :
  preserves (λ db db', notified_once db → notified_once db')
    (send_single_absentee_notification pk attendance).
Proof.
  intros db o db' Hrun Hn st a.
  apply send_single_absentee_notification_table in Hrun
    as (_ & [Hsame | (Hnone & n & Hnew & Hst & Ha & Htype)]).
  - unfold absence_notifications. rewrite Hsame. apply Hn.
  - unfold absence_notifications in *. rewrite Hnew.
    destruct (decide (st = Attendance.student attendance ∧ a = pk))
      as [[-> ->]|Hother].
    + rewrite map_filter_insert_True by done.
      rewrite Hnone, insert_empty, map_size_singleton. done.
    + rewrite map_filter_insert_False
        by (simpl; rewrite Hst, Ha; intros (? & [= ?] & _); apply Hother;
            by split).
      rewrite delete_id; [apply Hn | apply new_pk_fresh].
Qed.

(** The first notification of an absent record. *)
Lemma send_single_absentee_notification_first db pk attendance student session
    course :
  Attendance.status attendance = absent →
  students db !! Attendance.student attendance = Some student →
  sessions db !! Attendance.session attendance = Some session →
  courses db !! AttendanceSession.course session = Some course →
  (∀ p, Student.parent student = Some p → is_Some (parents db !! p)) →
  absence_notifications db (Attendance.student attendance) pk = ∅ →
  ∃ key db',
    send_single_absentee_notification pk attendance db = (Return (Some key), db')
    ∧ size (absence_notifications db' (Attendance.student attendance) pk) = 1
    ∧ size (notifications db') = S (size (notifications db)).
Proof.
  intros Habsent Hst Hsess Hcourse Hparent Hnone.
  set (key := new_pk (notifications db)).
  set (row := absence_notification (Attendance.student attendance)
                (Course.code course) pk).
  set (final := set_push_sent (set_email_sent (set_is_sent row))).
  set (db_a := set_notifications (insert key row) db).
  set (db_b :=
         set_notifications (insert key final)
           (set_notification_logs
              (λ logs, logs ++ [student_log key email (Student.email student);
                                student_log key push
                                  ("device_" +:+ pretty (Attendance.student attendance))])
              db_a)).
  destruct (notify_parent_returns (Attendance.student attendance) student
              absence ("Child Absence: " +:+ Student.full_name student) db_b)
    as [db1 Hnotify]; [done|].
  assert (send_single_absentee_notification pk attendance db
          = (Return (Some key), db1)) as Hrun.
  { unfold send_single_absentee_notification.
    destruct (decide (Attendance.status attendance ≠ absent)); [done|].
    rewrite (bind_Return _ _ db student db) by (unfold fetch; by rewrite Hst).
    rewrite (bind_Return _ _ db session db) by (unfold fetch; by rewrite Hsess).
    rewrite (bind_Return _ _ db db db) by done.
    rewrite (exists_empty _ Hnone).
    rewrite (bind_Return _ _ db course db) by (unfold fetch; by rewrite Hcourse).
    rewrite (bind_Return _ _ db key db_a) by done.
    rewrite (bind_Return _ _ db_a tt db_b)
      by apply simulate_send_absence_notification.
    by rewrite (bind_Return _ _ db_b tt db1). }
  exists key, db1. split; [exact Hrun|].
  apply send_single_absentee_notification_table in Hrun
    as (_ & [Hsame | (_ & n & Hnew & Hn1 & Hn2 & Hn3)]).
  { exfalso. destruct (notify_parent_side _ _ _ _ _ _ _ Hnotify) as (_ & Hn & _).
    rewrite Hn in Hsame. subst db_b db_a. simpl in Hsame.
    rewrite insert_insert_eq in Hsame.
    assert (notifications db !! key = Some final) as Hlook
      by (rewrite <- Hsame; apply lookup_insert_eq).
    pose proof (new_pk_fresh (notifications db)) as Hfresh.
    fold key in Hfresh. congruence. }
  split.
  - unfold absence_notifications in *. rewrite Hnew.
    rewrite map_filter_insert_True by done.
    by rewrite Hnone, insert_empty, map_size_singleton.
  - rewrite Hnew. apply map_size_insert_None, new_pk_fresh.
Qed.

(** A record that has an absence notification gets no other. *)
Lemma send_single_absentee_notification_suppressed db pk attendance :
  is_Some (students db !! Attendance.student attendance) →
  is_Some (sessions db !! Attendance.session attendance) →
  absence_notifications db (Attendance.student attendance) pk ≠ ∅ →
  send_single_absentee_notification pk attendance db = (Return None, db).
Proof.
  intros [student Hst] [session Hse] Hsome.
  unfold send_single_absentee_notification.
  case_decide; [done|].
  unfold bind, fetch, get_db. rewrite Hst, Hse.
  by rewrite (exists_nonempty _ Hsome).
Qed.

(** X7.  [update_attendance_ajax] always answers.  Without a record of the
    given id the answer is 400 and nothing is written, and so it is when
    the POST data has no status.  Otherwise the status of the record is set
    and saved, whatever the answer is: no other column and no other row
    changes, the students, courses and sessions stay as they are, and the
    pairs stay unique.  Unless the status goes from another one to
    'absent', the answer is 200 and no notification, parent notification or
    log entry is written; and a record never gets a second absence
    notification. *)
Theorem update_attendance_ajax_answers (db : DB) (attendance_id : option nat)
    (new_status : option Status) :
  ∃ response db',
    AttendanceViews.update_attendance_ajax attendance_id new_status db
    = (Return response, db')
    ∧ match attendance_id ≫= (λ pk, (pk,.) <$> attendances db !! pk) with
      | None => response = AttendanceViews.Ajax400 Http404 ∧ db' = db
      | Some (pk, old) =>
          match new_status with
          | None => response = AttendanceViews.Ajax400 IntegrityError ∧ db' = db
          | Some s =>
              attendances db' = <[pk := with_status s old]> (attendances db)
              ∧ students db' = students db
              ∧ courses db' = courses db
              ∧ sessions db' = sessions db
              ∧ (unique_together db → unique_together db')
              ∧ (notified_once db → notified_once db')
              ∧ (s ≠ absent ∨ Attendance.status old = absent →
                 response = AttendanceViews.Ajax200 s
                 ∧ notifications db' = notifications db
                 ∧ parent_notifications db' = parent_notifications db
                 ∧ notification_logs db' = notification_logs db)
          end
      end.
Proof.
  unfold AttendanceViews.update_attendance_ajax.
  destruct attendance_id as [pk|]; [|by exists (AttendanceViews.Ajax400 Http404), db].
  cbn [mbind option_bind].
  destruct (attendances db !! pk) as [old|] eqn:Hold; cbn [fmap option_fmap option_map].
  2:{ exists (AttendanceViews.Ajax400 Http404), db.
      unfold try_except, bind, get_object_or_404, ret. by rewrite Hold. }
  destruct new_status as [s|].
  2:{ exists (AttendanceViews.Ajax400 IntegrityError), db.
      unfold try_except, bind, get_object_or_404, raise, ret. by rewrite Hold. }
  set (db1 := set_attendances (insert pk (with_status s old)) db).
  assert (unique_together db → unique_together db1) as Hu1.
  { intros Hu s' st'. subst db1.
    rewrite (overwrite_pair_rows db pk old) by done. apply Hu. }
  unfold try_except.
  rewrite (bind_Return _ _ db old db)
    by (unfold get_object_or_404; by rewrite Hold).
  rewrite (bind_Return _ _ db tt db1) by done.
  case_bool_decide as Hturn.
  - destruct (send_single_absentee_notification pk (with_status s old) db1)
      as [o db'] eqn:Hsend.
    pose proof (send_single_absentee_notification_once _ _ _ _ _ Hsend) as Honce.
    pose proof (send_single_absentee_notification_ledger _ _ _ _ _ Hsend)
      as (_ & Hst & Hc & Hse & Ha).
    destruct o as [r|e];
      (eexists _, db'; split; [unfold bind; rewrite Hsend; reflexivity|]).
    all: split; [by rewrite Ha|]. all: split; [by rewrite Hst|].
    all: split; [by rewrite Hc|]. all: split; [by rewrite Hse|].
    all: split;
      [intros Hu s' st'; rewrite (pair_rows_ledger db1 db') by done;
       by apply Hu1|].
    all: split; [exact Honce|]. all: intros [Hs|Hwas]; tauto.
  - exists (AttendanceViews.Ajax200 s), db1. split; [reflexivity|].
    repeat split; try done.
Qed.

(** X8.  When [update_attendance_ajax] turns a record that was not absent
    into 'absent', and the student, session, course and parent of the
    record exist, it answers 200 and the record has an absence notification
    afterwards: a new one, the only one of the record, when it had none;
    and when it had one already (it was absent before), nothing is added to
    the notifications and the log. *)
Theorem update_attendance_ajax_notifies (db : DB) (pk : nat)
    (old : Attendance.t) (student : Student.t) (session : AttendanceSession.t)
    (course : Course.t) :
  attendances db !! pk = Some old →
  Attendance.status old ≠ absent →
  students db !! Attendance.student old = Some student →
  sessions db !! Attendance.session old = Some session →
  courses db !! AttendanceSession.course session = Some course →
  (∀ p, Student.parent student = Some p → is_Some (parents db !! p)) →
  ∃ db',
    AttendanceViews.update_attendance_ajax (Some pk) (Some absent) db
    = (Return (AttendanceViews.Ajax200 absent), db')
    ∧ attendances db' = <[pk := with_status absent old]> (attendances db)
    ∧ (absence_notifications db (Attendance.student old) pk = ∅ →
       size (absence_notifications db' (Attendance.student old) pk) = 1
       ∧ size (notifications db') = S (size (notifications db)))
    ∧ (absence_notifications db (Attendance.student old) pk ≠ ∅ →
       notifications db' = notifications db
       ∧ parent_notifications db' = parent_notifications db
       ∧ notification_logs db' = notification_logs db).
Proof.
  intros Hold Hwas Hst Hse Hc Hparent.
  set (db1 := set_attendances (insert pk (with_status absent old)) db).
  assert (∀ o db',
            send_single_absentee_notification pk (with_status absent old) db1
            = (Return o, db') →
            AttendanceViews.update_attendance_ajax (Some pk) (Some absent) db
            = (Return (AttendanceViews.Ajax200 absent), db')) as Hview.
  { intros o db' Hrun.
    unfold AttendanceViews.update_attendance_ajax, try_except.
    rewrite (bind_Return _ _ db old db)
      by (unfold get_object_or_404; by rewrite Hold).
    rewrite (bind_Return _ _ db tt db1) by done.
    rewrite bool_decide_eq_true_2 by done.
    unfold bind. by rewrite Hrun. }
  destruct (decide (absence_notifications db (Attendance.student old) pk = ∅))
    as [Hnone|Hsome].
  - destruct (send_single_absentee_notification_first db1 pk
                (with_status absent old) student session course)
      as (key & db' & Hrun & Hone & Hsize); try done.
    exists db'. split; [by eapply Hview|].
    apply send_single_absentee_notification_ledger in Hrun
      as (_ & _ & _ & _ & Ha).
    split; [by rewrite Ha|]. split; [by intros _|]. by intros ?.
  - exists db1. split.
    + apply (Hview None).
      apply send_single_absentee_notification_suppressed; [by eexists..|done].
    + split; [done|]. split; [by intros ?|]. by intros _.
Qed.

(** ** The percentages at their ends *)

(** [n / n] is exactly 1.0 for every positive int, however large. *)
Lemma int_true_divide_same (p : positive) :
  Py.int_true_divide (Zpos p) (Zpos p) = Py.float_of_int 1.
Proof.
  unfold Py.int_true_divide, Py.exact_of_int, SFdiv.
  assert (SFdiv_core_binary Py.prec Py.emax (Z.pos p) 0 (Z.pos p) 0
          = (2 ^ 53, -53, loc_Exact)%Z) as ->.
  { unfold SFdiv_core_binary.
    rewrite !Z.add_0_r, (Z.sub_diag (Zdigits2 _)).
    change (Z.min (fexp Py.prec Py.emax 0) (0 - 0)) with (-53)%Z.
    change (0 - 0 - -53)%Z with 53%Z. cbv beta zeta iota.
    rewrite Z.shiftl_mul_pow2 by lia.
    assert (Z.div_eucl (Z.pos p * 2 ^ 53) (Z.pos p) = (2 ^ 53, 0)%Z) as ->.
    { assert (∀ a b, Z.div_eucl a b = (a / b, a mod b)%Z) as Hdiv.
      { intros a b. unfold Z.div, Z.modulo. by destruct (Z.div_eucl a b). }
      rewrite Hdiv, (Z.mul_comm (Z.pos p)), Z.div_mul, Z.mod_mul by lia.
      reflexivity. }
    f_equal. unfold new_location, new_location_even, new_location_odd.
    destruct (Z.even (Z.pos p)); reflexivity. }
  vm_compute. reflexivity.
Qed.

Lemma raw_percentage_all (n : Z) :
  (0 < n)%Z → raw_percentage n n = Py.float_of_int 100.
Proof.
  intros Hn. destruct n as [|p|p]; try lia.
  unfold raw_percentage. rewrite int_true_divide_same.
  vm_compute. reflexivity.
Qed.

Lemma rounded_percentage_all (n : Z) :
  (0 < n)%Z → rounded_percentage n n = Py.float_of_int 100.
Proof.
  intros Hn. unfold rounded_percentage.
  change (Py.float_mul_int (Py.int_true_divide n n) 100)
    with (raw_percentage n n).
  rewrite raw_percentage_all by done. vm_compute. reflexivity.
Qed.

Lemma Count_every (P : Attendance.t → Prop) `{∀ r, Decision (P r)} records :
  Forall P records → Count P records = Z.of_nat (length records).
Proof.
  induction 1 as [|r records Hr _ IH]; [done|].
  rewrite Count_cons, IH. simpl length. case_decide; [lia | tauto].
Qed.

(** X9.  The percentage is exact at both ends, for any number of records:
    when every record of a non-empty list is present or late the session
    statistics, those of [session_detail] and the overall percentage of a
    student report exactly 100.0, and when none is they report 0.0; the
    low-attendance scan passes over the former ([100.0 < 75] fails) and
    reports the latter with 0.0. *)
Theorem percentage_extremes (records : list Attendance.t) :
  records ≠ [] →
  (Forall present_or_late records →
     Stats.percentage (get_session_stats_on records)
     = Py.Float (Py.float_of_int 100)
     ∧ Stats.percentage (session_detail_on records)
       = Py.Float (Py.float_of_int 100)
     ∧ (∀ db student,
          rows (student_rows db student) = records →
          StudentStats.attendance_percentage (attendance_stats db student)
          = Py.float_of_int 100)
     ∧ low_percentage attendance_threshold records = None)
  ∧ (Forall (λ r, ¬ present_or_late r) records →
     Stats.percentage (get_session_stats_on records)
     = Py.Float (S754_zero false)
     ∧ Stats.percentage (session_detail_on records)
       = Py.Float (S754_zero false)
     ∧ (∀ db student,
          rows (student_rows db student) = records →
          StudentStats.attendance_percentage (attendance_stats db student)
          = S754_zero false)
     ∧ low_percentage attendance_threshold records = Some (S754_zero false)).
Proof.
  intros Hne.
  assert (0 < Count (λ _, True) records)%Z as Hpos.
  { rewrite Count_all. destruct records; [done | simpl; lia]. }
  assert (Py.int_or (Count (λ _, True) records) 1 = Count (λ _, True) records)
    as Hor by (rewrite int_or_max; lia).
  assert (∀ db student,
            rows (student_rows db student) = records →
            StudentStats.attendance_percentage (attendance_stats db student)
            = rounded_percentage (Count present_or_late records)
                (Count (λ _, True) records)) as Hstudent.
  { intros db student Hrows. unfold attendance_stats.
    cbn [StudentStats.attendance_percentage].
    by rewrite Hrows, Hor, Count_present_or_late. }
  unfold get_session_stats_on, session_detail_on, low_percentage.
  cbn [Stats.percentage]. rewrite Hor, <- Count_present_or_late.
  destruct (Z.ltb_spec 0 (Count (λ _, True) records)) as [_|?]; [|lia].
  split; intros Hall.
  - rewrite (Count_every present_or_late) in * by done.
    rewrite Count_all in *.
    rewrite rounded_percentage_all, raw_percentage_all in * by lia.
    done.
  - rewrite (Count_none present_or_late) in *
      by (intros r Hr; by eapply Forall_forall in Hall).
    rewrite rounded_percentage_zero in * by done.
    destruct (Count (λ _, True) records) as [|p|p] eqn:Hc; try lia.
    done.
Qed.

(** ** Confirming a mark *)

(** X10.  [send_attendance_confirmation] does nothing for an absent or
    excused record.  For a present or late record whose student, session
    and course exist it creates one 'attendance_marked' notification of low
    priority and logs two deliveries, by email as well as by push: only
    [send_push] is passed, and [send_email] is on by default.  No parent
    notification is made, the ledger is left as it was, and nothing keeps a
    second call from confirming the same record again. *)
Theorem send_attendance_confirmation_sends (db : DB) (pk : nat)
    (attendance : Attendance.t) (student : Student.t)
    (session : AttendanceSession.t) (course : Course.t) :
  students db !! Attendance.student attendance = Some student →
  sessions db !! Attendance.session attendance = Some session →
  courses db !! AttendanceSession.course session = Some course →
  (Attendance.status attendance = absent
   ∨ Attendance.status attendance = excused →
   send_attendance_confirmation pk attendance db = (Return None, db))
  ∧ (Attendance.status attendance = present
     ∨ Attendance.status attendance = late →
     ∃ key n db1 key2 db2,
       send_attendance_confirmation pk attendance db = (Return (Some key), db1)
       ∧ notifications db !! key = None
       ∧ notifications db1 = <[key := n]> (notifications db)
       ∧ Notification.notification_type n = attendance_marked
       ∧ Notification.priority n = low
       ∧ Notification.attendance n = Some pk
       ∧ Notification.is_sent n = true
       ∧ Notification.email_sent n = true
       ∧ Notification.push_sent n = true
       ∧ Notification.sms_sent n = false
       ∧ notification_logs db1
         = notification_logs db
           ++ [student_log key email (Student.email student);
               student_log key push
                 ("device_" +:+ pretty (Attendance.student attendance))]
       ∧ parent_notifications db1 = parent_notifications db
       ∧ same_ledger db db1
       ∧ send_attendance_confirmation pk attendance db1
         = (Return (Some key2), db2)
       ∧ key2 ≠ key
       ∧ size (notifications db2) = S (S (size (notifications db)))).
Proof.
  intros Hst Hse Hc. split.
  - intros Hstatus. unfold send_attendance_confirmation.
    rewrite bool_decide_eq_true_2; [done|].
    rewrite !elem_of_cons, elem_of_nil.
    destruct Hstatus as [-> | ->]; intuition congruence.
  - intros Hstatus.
    assert (Attendance.status attendance ∈ [present; late]) as Hin.
    { rewrite !elem_of_cons. tauto. }
    set (row := confirmation_notification (Attendance.student attendance)
                  (Course.code course) pk).
    set (final := set_push_sent (set_email_sent (set_is_sent row))).
    assert (∀ db0,
              students db0 = students db → sessions db0 = sessions db →
              courses db0 = courses db →
              send_attendance_confirmation pk attendance db0
              = (Return (Some (new_pk (notifications db0))),
                 set_notifications (insert (new_pk (notifications db0)) final)
                   (set_notification_logs
                      (λ logs,
                         logs
                         ++ [student_log (new_pk (notifications db0)) email
                               (Student.email student);
                             student_log (new_pk (notifications db0)) push
                               ("device_"
                                +:+ pretty (Attendance.student attendance))])
                      db0))) as Hrun.
    { intros db0 Hst0 Hse0 Hc0. unfold send_attendance_confirmation.
      rewrite bool_decide_eq_false_2 by (intros Hout; by apply Hout).
      rewrite (bind_Return _ _ db0 student db0)
        by (unfold fetch; by rewrite Hst0, Hst).
      rewrite (bind_Return _ _ db0 session db0)
        by (unfold fetch; by rewrite Hse0, Hse).
      rewrite (bind_Return _ _ db0 course db0)
        by (unfold fetch; by rewrite Hc0, Hc).
      unfold bind, Notification_create, _simulate_send_notification, bind,
        NotificationLog_create, Notification_save, modify, ret,
        set_notifications, set_notification_logs.
      simpl. rewrite <- app_assoc, insert_insert_eq. reflexivity. }
    pose proof (Hrun db eq_refl eq_refl eq_refl) as Hfirst.
    set (key := new_pk (notifications db)) in *.
    set (db1 := set_notifications (insert key final) _) in Hfirst.
    pose proof (Hrun db1 eq_refl eq_refl eq_refl) as Hsecond.
    set (key2 := new_pk (notifications db1)) in *.
    pose proof (new_pk_fresh (notifications db)) as Hfresh. fold key in Hfresh.
    pose proof (new_pk_fresh (notifications db1)) as Hfresh2. fold key2 in Hfresh2.
    eexists key, final, db1, key2, _.
    split; [exact Hfirst|]. split; [exact Hfresh|].
    split; [reflexivity|]. do 7 (split; [reflexivity|]).
    split; [reflexivity|]. split; [reflexivity|].
    split; [by repeat split|]. split; [exact Hsecond|].
    split.
    + intros Heq. rewrite Heq in Hfresh2. subst db1. simpl in Hfresh2.
      by rewrite lookup_insert_eq in Hfresh2.
    + simpl notifications.
      rewrite map_size_insert_None by exact Hfresh2.
      subst db1. simpl notifications.
      by rewrite map_size_insert_None by exact Hfresh.
Qed.

(** ** The view of the automatic absences *)

Lemma referential_integrity_ledger db db' :
  same_ledger db db' → referential_integrity db → referential_integrity db'.
Proof.
  intros (Hp & Hs & _ & _ & Ha) [Hrows Hparents]. split.
  - intros pk r. rewrite Ha, Hs. apply Hrows.
  - intros st row p. rewrite Hs, Hp. apply Hparents.
Qed.

Lemma absent_rows_insert db pk row s :
  attendances db !! pk = None →
  Attendance.session row = s →
  Attendance.status row = absent →
  size (absent_rows (set_attendances (insert pk row) db) s)
  = S (size (absent_rows db s)).
Proof.
  intros Hfresh Hs Hstatus. unfold absent_rows, session_rows. simpl attendances.
  rewrite map_filter_insert_True by done.
  rewrite map_filter_insert_True by done.
  apply map_size_insert_None.
  apply map_lookup_filter_None. left.
  apply map_lookup_filter_None. by left.
Qed.

Section AutoMarkTables.
Context (s : nat) (marked_by : option nat).

(** The loop of [auto_mark_absentees], table by table. *)
Lemma auto_mark_loop_tables (l : list (nat * Student.t)) :
  ∀ db count,
    NoDup l.*1 →
    (∀ st, st ∈ l.*1 → pair_rows db s st = ∅) →
    (∀ st, st ∈ l.*1 → is_Some (students db !! st)) →
    ∃ db',
      for_fold l count (λ count student,
        let* _ := Attendance_create (auto_absent_row s student.1 marked_by) in
        ret (count + 1)) db
      = (Return (count + length l), db')
      ∧ only_attendances db db'
      ∧ size (attendances db') = size (attendances db) + length l
      ∧ size (absent_rows db' s) = size (absent_rows db s) + length l
      ∧ (referential_integrity db → referential_integrity db')
      ∧ (∀ st, pair_rows db s st ≠ ∅ ∨ st ∈ l.*1 → pair_rows db' s st ≠ ∅).
Proof.
  induction l as [|[st row] l IH]; intros db count Hnodup Hnone Hexist; simpl.
  - exists db. rewrite !Nat.add_0_r. split; [done|]. split; [reflexivity|].
    do 3 (split; [done|]).
    intros st [? | Hin]; [done | by apply elem_of_nil in Hin].
  - apply NoDup_cons in Hnodup as [Hst_l Hnodup].
    set (r := auto_absent_row s st marked_by).
    set (pk := new_pk (attendances db)).
    set (db1 := set_attendances (insert pk r) db).
    assert (attendances db !! pk = None) as Hfresh by apply new_pk_fresh.
    assert (∀ st', st' ≠ st → pair_rows db1 s st' = pair_rows db s st')
      as Hother.
    { intros st' Hne. apply pair_rows_insert_other; [done|].
      simpl. intros [_ ?]. congruence. }
    assert (pair_rows db1 s st = {[pk := r]}) as Hsame.
    { apply (pair_rows_insert_same db pk r). apply Hnone. by left. }
    destruct (IH db1 (count + 1))
      as (db' & Hrun & Hframe & Hsize & Habsent & Hint & Hkeep); [done | | |].
    { intros st' Hst'. rewrite Hother; [|by intros ->].
      apply Hnone. by right. }
    { intros st' Hst'. apply Hexist. by right. }
    exists db'. split.
    { rewrite (bind_Return _ _ db (count + 1) db1).
      - rewrite Hrun. f_equal. f_equal. lia.
      - rewrite (bind_Return _ _ db (pk, r) db1); [done|].
        apply Attendance_create_fresh. apply Hnone. by left. }
    split; [etransitivity; [|exact Hframe]; by repeat split|].
    split.
    { rewrite Hsize. subst db1. simpl attendances.
      rewrite map_size_insert_None by done. lia. }
    split.
    { rewrite Habsent. subst db1.
      rewrite (absent_rows_insert db pk r s) by done. lia. }
    split.
    { intros Hdb. apply Hint. apply insert_referential_integrity; [done|].
      apply Hexist. by left. }
    intros st' Hst'. apply Hkeep.
    destruct (decide (st' = st)) as [->|Hne].
    + left. rewrite Hsame. apply insert_non_empty.
    + destruct Hst' as [Hsome|Hin].
      * left. by rewrite Hother.
      * right. apply elem_of_cons in Hin as [?|?]; [done|done].
Qed.

End AutoMarkTables.

(** What one call of the detector's [auto_mark_absentees] does. *)
Lemma auto_mark_absentees_run db session_pk session course marked_by :
  courses db !! AttendanceSession.course session = Some course →
  ∃ db1,
    auto_mark_absentees session_pk session marked_by db
    = (Return (size (unmarked db session_pk course)), db1)
    ∧ only_attendances db db1
    ∧ size (attendances db1)
      = size (attendances db) + size (unmarked db session_pk course)
    ∧ size (absent_rows db1 session_pk)
      = size (absent_rows db session_pk) + size (unmarked db session_pk course)
    ∧ (referential_integrity db → referential_integrity db1)
    ∧ unmarked db1 session_pk course = ∅.
Proof.
  intros Hcourse.
  set (l := map_to_list (unmarked db session_pk course)).
  assert (∀ st, st ∈ l.*1 ↔ is_Some (unmarked db session_pk course !! st))
    as Hl.
  { intros st. subst l. rewrite list_elem_of_fmap. split.
    - intros ([st' row] & -> & Hin). apply elem_of_map_to_list in Hin. eauto.
    - intros [row Hrow]. exists (st, row). split; [done|].
      by apply elem_of_map_to_list. }
  destruct (auto_mark_loop_tables session_pk marked_by l db 0)
    as (db1 & Hrun & Hframe & Hsize & Habsent & Hint & Hkeep).
  { apply NoDup_fst_map_to_list. }
  { intros st [row Hrow]%Hl. by apply unmarked_lookup in Hrow as (_&_&_&?). }
  { intros st [row Hrow]%Hl. apply unmarked_lookup in Hrow as (?&_). eauto. }
  assert (length l = size (unmarked db session_pk course)) as Hlen
    by apply length_map_to_list.
  exists db1. split.
  { unfold auto_mark_absentees.
    rewrite (bind_Return _ _ db course db) by (unfold fetch; by rewrite Hcourse).
    rewrite (bind_Return _ _ db db db) by done.
    fold l. by rewrite Hrun, <- Hlen. }
  split; [done|]. split; [by rewrite Hsize, Hlen|].
  split; [by rewrite Habsent, Hlen|]. split; [done|].
  apply map_empty. intros st.
  destruct (unmarked db1 session_pk course !! st) as [row|] eqn:Hrow; [|done].
  exfalso. apply unmarked_lookup in Hrow as (Hst & Hin & Hactive & Hnone).
  destruct Hframe as (_ & Hstudents & _).
  rewrite Hstudents in Hst.
  apply (Hkeep st); [|done].
  destruct (decide (pair_rows db session_pk st = ∅)) as [Hnone0|Hsome0];
    [right | by left].
  apply Hl. exists row. by apply unmarked_lookup.
Qed.

(** X11.  The view [auto_mark_absentees] of a session that exists, on a
    database whose foreign keys resolve: it answers the number of unmarked
    students, who each get an absent record, and then notifies every absent
    record of the session, the new ones and those that were there.  Called
    again right away it marks nobody, answers 0 and leaves the attendance
    table as it is, yet it sends a notification for every absent record of
    the session once more.  For a session that does not exist it raises
    the 404 and writes nothing. *)
Theorem auto_mark_absentees_view (db : DB) (session_pk user : nat)
    (session : AttendanceSession.t) (course : Course.t) :
  sessions db !! session_pk = Some session →
  courses db !! AttendanceSession.course session = Some course →
  referential_integrity db →
  ∃ db1 db2,
    FaceRecognitionViews.auto_mark_absentees session_pk user db
    = (Return (size (unmarked db session_pk course)), db1)
    ∧ size (attendances db1)
      = size (attendances db) + size (unmarked db session_pk course)
    ∧ size (absent_rows db1 session_pk)
      = size (absent_rows db session_pk) + size (unmarked db session_pk course)
    ∧ size (notifications db1)
      = size (notifications db) + size (absent_rows db1 session_pk)
    ∧ FaceRecognitionViews.auto_mark_absentees session_pk user db1
      = (Return 0, db2)
    ∧ attendances db2 = attendances db1
    ∧ size (notifications db2)
      = size (notifications db1) + size (absent_rows db1 session_pk)
    ∧ (∀ db0,
         sessions db0 !! session_pk = None →
         FaceRecognitionViews.auto_mark_absentees session_pk user db0
         = (Raise Http404, db0)).
Proof.
  intros Hsession Hcourse Hint.
  assert (∀ db0 dbA dbB n m,
            sessions db0 !! session_pk = Some session →
            auto_mark_absentees session_pk session (Some user) db0
            = (Return n, dbA) →
            send_absentee_notifications session_pk session dbA
            = (Return m, dbB) →
            FaceRecognitionViews.auto_mark_absentees session_pk user db0
            = (Return n, dbB)) as Hview.
  { intros db0 dbA dbB n m Hs Hmark Hsend.
    unfold FaceRecognitionViews.auto_mark_absentees.
    rewrite (bind_Return _ _ db0 session db0)
      by (unfold get_object_or_404; by rewrite Hs).
    rewrite (bind_Return _ _ db0 n dbA Hmark).
    by rewrite (bind_Return _ _ dbA m dbB Hsend). }
  destruct (auto_mark_absentees_run db session_pk session course (Some user)
              Hcourse)
    as (dbA & Hmark & HframeA & HsizeA & HabsentA & HintA & HnoneA).
  pose proof HframeA as (_ & _ & HcA & HsA & HnA & _).
  assert (courses dbA !! AttendanceSession.course session = Some course)
    as HcourseA by (by rewrite HcA).
  destruct (send_absentee_notifications_count dbA session course (HintA Hint)
              HcourseA session_pk) as (db1 & Hsend1 & Hframe1 & Hsize1).
  pose proof Hframe1 as (_ & Hst1 & Hc1 & Hs1 & Ha1).
  assert (courses db1 !! AttendanceSession.course session = Some course)
    as Hcourse1 by (by rewrite Hc1).
  assert (referential_integrity db1) as Hint1
    by (eapply referential_integrity_ledger; [exact Hframe1 | by apply HintA]).
  destruct (auto_mark_absentees_run db1 session_pk session course (Some user)
              Hcourse1)
    as (dbB & Hmark2 & HframeB & HsizeB & _ & _ & _).
  assert (unmarked db1 session_pk course = ∅) as Hnone1.
  { rewrite <- HnoneA. unfold unmarked, enrolled_active, marked_students.
    by rewrite (session_rows_ledger dbA db1), Hst1. }
  rewrite Hnone1, map_size_empty in Hmark2, HsizeB.
  assert (dbB = db1) as ->.
  { revert Hmark2. unfold auto_mark_absentees.
    rewrite (bind_Return _ _ db1 course db1)
      by (unfold fetch; by rewrite Hcourse1).
    rewrite (bind_Return _ _ db1 db1 db1) by done.
    rewrite Hnone1, map_to_list_empty. by intros [= <-]. }
  destruct (send_absentee_notifications_count db1 session course Hint1
              Hcourse1 session_pk) as (db2 & Hsend2 & Hframe2 & Hsize2).
  exists db1, db2.
  split; [by eapply Hview|].
  split; [by rewrite Ha1|].
  split; [by rewrite (absent_rows_ledger dbA db1)|].
  split; [by rewrite Hsize1, HnA, (absent_rows_ledger dbA db1)|].
  split; [eapply Hview; [by rewrite Hs1, HsA | exact Hmark2 | exact Hsend2]|].
  split; [by destruct Hframe2 as (_ & _ & _ & _ & ?)|].
  split; [exact Hsize2|].
  intros db0 Hmissing. unfold FaceRecognitionViews.auto_mark_absentees.
  unfold bind, get_object_or_404. by rewrite Hmissing.
Qed.

(** ** The manual form *)

Lemma pair_rows_overwrite_same db pk old row :
  attendances db !! pk = Some old →
  Attendance.session row = Attendance.session old →
  Attendance.student row = Attendance.student old →
  pair_rows db (Attendance.session old) (Attendance.student old) = {[pk := old]} →
  pair_rows (set_attendances (insert pk row) db)
    (Attendance.session old) (Attendance.student old) = {[pk := row]}.
Proof.
  intros Hold Hs Hst Hone. unfold pair_rows in *. simpl attendances.
  rewrite map_filter_insert_True by (simpl; by rewrite Hs, Hst).
  by rewrite Hone, insert_singleton_eq.
Qed.

Lemma pair_rows_overwrite_other db pk old row s st :
  attendances db !! pk = Some old →
  Attendance.session row = Attendance.session old →
  Attendance.student row = Attendance.student old →
  ¬ (Attendance.session old = s ∧ Attendance.student old = st) →
  pair_rows (set_attendances (insert pk row) db) s st = pair_rows db s st.
Proof.
  intros Hold Hs Hst Hother. unfold pair_rows. simpl attendances.
  rewrite map_filter_insert_False by (simpl; by rewrite Hs, Hst).
  rewrite map_filter_delete_not; [done|].
  intros y Hy. rewrite Hold in Hy. by injection Hy as <-.
Qed.

Lemma pair_rows_singleton db s st pk old :
  size (pair_rows db s st) ≤ 1 →
  pair_rows db s st !! pk = Some old →
  pair_rows db s st = {[pk := old]}.
Proof.
  intros Hle Hlook.
  destruct (map_size_le_1 _ Hle) as [Hnone | (pk' & old' & Hone)].
  - by rewrite Hnone in Hlook.
  - rewrite Hone in Hlook |- *.
    by apply lookup_singleton_Some in Hlook as [-> ->].
Qed.

(** The dict of the records by student: a key is there exactly when a
    record of the list has this student, and its value is such a record. *)
Lemma records_by_student_lookup (l : list (nat * Attendance.t)) :
  ∀ (d : gmap nat (nat * Attendance.t)) st,
    (∀ att,
       foldl (λ d att, <[Attendance.student att.2 := att]> d) d l !! st
       = Some att →
       att ∈ l ∧ Attendance.student att.2 = st ∨ d !! st = Some att)
    ∧ (foldl (λ d att, <[Attendance.student att.2 := att]> d) d l !! st = None
       ↔ d !! st = None ∧ ∀ att, att ∈ l → Attendance.student att.2 ≠ st).
Proof.
  induction l as [|att0 l IH]; intros d st; simpl.
  - split; [by right|]. split; [|by intros [? _]].
    intros Hnone. split; [done|]. intros att Hin. by apply elem_of_nil in Hin.
  - destruct (IH (<[Attendance.student att0.2 := att0]> d) st) as [Hsome Hnone].
    split.
    + intros att Hatt. destruct (Hsome att Hatt) as [[Hin Hst]|Hd].
      * left. split; [by right | done].
      * destruct (decide (Attendance.student att0.2 = st)) as [Heq|Hne].
        -- rewrite Heq, lookup_insert_eq in Hd. injection Hd as <-.
           left. split; [by left | done].
        -- rewrite lookup_insert_ne in Hd by done. by right.
    + rewrite Hnone. rewrite lookup_insert_None. split.
      * intros [[Hd Hne] Hl]. split; [done|].
        intros att Hin. apply elem_of_cons in Hin as [->|Hin]; [done|].
        by apply Hl.
      * intros [Hd Hl]. split; [split; [done|]|].
        -- apply Hl. by left.
        -- intros att Hin. apply Hl. by right.
Qed.

Lemma existing_records_Some db s st pk old :
  unique_together db →
  AttendanceViews.existing_records db s !! st = Some (pk, old) →
  pair_rows db s st = {[pk := old]}.
Proof.
  intros Hu Hlook. unfold AttendanceViews.existing_records in Hlook.
  destruct (records_by_student_lookup (map_to_list (session_rows db s)) ∅ st)
    as [Hsome _].
  destruct (Hsome _ Hlook) as [[Hin Hst]|Hempty]; [|by rewrite lookup_empty in Hempty].
  apply elem_of_map_to_list, session_rows_lookup in Hin as [Hrow Hs].
  simpl in *. apply pair_rows_singleton; [apply Hu|].
  by apply pair_rows_lookup.
Qed.

Lemma existing_records_None db s st :
  AttendanceViews.existing_records db s !! st = None →
  pair_rows db s st = ∅.
Proof.
  intros Hlook. unfold AttendanceViews.existing_records in Hlook.
  destruct (records_by_student_lookup (map_to_list (session_rows db s)) ∅ st)
    as [_ Hnone].
  apply Hnone in Hlook as [_ Hl].
  apply map_empty. intros pk.
  destruct (pair_rows db s st !! pk) as [r|] eqn:Hr; [|done].
  exfalso. apply pair_rows_lookup in Hr as (Hrow & Hs & Hst).
  apply (Hl (pk, r)); [|done].
  apply elem_of_map_to_list, session_rows_lookup. done.
Qed.

Section ManualForm.
Context (db0 : DB) (s : nat) (form : AttendanceViews.ManualForm).
Hypothesis Hu : unique_together db0.

(** The loop of the form over distinct students whose records in the
    session are still those of [db0], the database of the snapshot. *)
Lemma mark_student_loop (l : list (nat * Student.t)) :
  ∀ db1,
    NoDup l.*1 →
    (∀ st, st ∈ l.*1 → pair_rows db1 s st = pair_rows db0 s st) →
    (∀ st, st ∈ l.*1 → is_Some (students db1 !! st)) →
    ∃ db',
      for_fold l tt
        (AttendanceViews.mark_student s
           (AttendanceViews.existing_records db0 s) form) db1
      = (Return tt, db')
      ∧ only_attendances db1 db'
      ∧ (∀ st, st ∈ l.*1 →
           ∃ pk row,
             pair_rows db' s st = {[pk := row]}
             ∧ (pair_rows db0 s st = ∅ →
                attendances db1 !! pk = None
                ∧ row = AttendanceViews.manual_row s st
                          (default absent (AttendanceViews.form_status form !! st))
                          (AttendanceViews.form_user form)
                          (default EmptyString
                             (AttendanceViews.form_notes form !! st)))
             ∧ (∀ pk0 old,
                  pair_rows db0 s st = {[pk0 := old]} →
                  pk = pk0
                  ∧ row = with_notes
                            (default EmptyString
                               (AttendanceViews.form_notes form !! st))
                            (with_status
                               (default absent
                                  (AttendanceViews.form_status form !! st))
                               old)))
      ∧ (∀ s' st', ¬ (s' = s ∧ st' ∈ l.*1) →
           pair_rows db' s' st' = pair_rows db1 s' st')
      ∧ (referential_integrity db1 → referential_integrity db').
Proof using Hu.
  induction l as [|[st student] l IH]; intros db1 Hnodup Hsnap Hexist.
  { exists db1. split; [done|]. split; [reflexivity|].
    split; [intros st Hin; by apply elem_of_nil in Hin|]. done. }
  simpl in Hnodup. apply NoDup_cons in Hnodup as [Hst_l Hnodup].
  set (status := default absent (AttendanceViews.form_status form !! st)).
  set (notes := default EmptyString (AttendanceViews.form_notes form !! st)).
  assert (pair_rows db1 s st = pair_rows db0 s st) as Hpair
    by (apply Hsnap; simpl; by left).
  assert (is_Some (students db1 !! st)) as Hstudent
    by (apply Hexist; simpl; by left).
  (* one turn *)
  assert (∃ db2 pk row,
            AttendanceViews.mark_student s
              (AttendanceViews.existing_records db0 s) form tt (st, student) db1
            = (Return tt, db2)
            ∧ db2 = set_attendances (insert pk row) db1
            ∧ Attendance.student row = st
            ∧ pair_rows db2 s st = {[pk := row]}
            ∧ (∀ s' st', ¬ (s' = s ∧ st' = st) →
                 pair_rows db2 s' st' = pair_rows db1 s' st')
            ∧ (pair_rows db0 s st = ∅ →
               attendances db1 !! pk = None
               ∧ row = AttendanceViews.manual_row s st status
                         (AttendanceViews.form_user form) notes)
            ∧ (∀ pk0 old,
                 pair_rows db0 s st = {[pk0 := old]} →
                 pk = pk0 ∧ row = with_notes notes (with_status status old)))
    as (db2 & pk & row & Hstep & Hdb2 & Hrow_st & Hsame & Hother & Hnew & Hupd).
  { unfold AttendanceViews.mark_student. cbn [fst snd]. fold status notes.
    destruct (AttendanceViews.existing_records db0 s !! st) as [[pk old]|]
      eqn:Hex.
    - apply existing_records_Some in Hex; [|done].
      assert (pair_rows db1 s st !! pk = Some old) as Hold
        by (rewrite Hpair, Hex; apply lookup_singleton_eq).
      apply pair_rows_lookup in Hold as (Hold & Hs & Hst).
      exists (set_attendances (insert pk (with_notes notes (with_status status old)))
                db1), pk, (with_notes notes (with_status status old)).
      split; [done|]. split; [done|]. split; [done|]. split.
      { pose proof (pair_rows_overwrite_same db1 pk old
                      (with_notes notes (with_status status old)) Hold
                      eq_refl eq_refl) as Hsame.
        rewrite Hs, Hst in Hsame. apply Hsame. by rewrite Hpair. }
      split.
      { intros s' st' Hne.
        apply (pair_rows_overwrite_other db1 pk old); try done.
        rewrite Hs, Hst. intros [<- <-]. by apply Hne. }
      split.
      { intros Hnone. rewrite Hnone in Hex. symmetry in Hex.
        by apply map_non_empty_singleton in Hex. }
      intros pk0 old0 Hone. rewrite Hex in Hone.
      assert (({[pk := old]} : gmap nat Attendance.t) !! pk = Some old) as Hlook
        by apply lookup_singleton_eq.
      rewrite Hone in Hlook. by apply lookup_singleton_Some in Hlook as [<- <-].
    - apply existing_records_None in Hex.
      set (row := AttendanceViews.manual_row s st status
                    (AttendanceViews.form_user form) notes).
      exists (set_attendances (insert (new_pk (attendances db1)) row) db1),
        (new_pk (attendances db1)), row.
      split.
      { rewrite (bind_Return _ _ db1 (new_pk (attendances db1), row)
                   (set_attendances (insert (new_pk (attendances db1)) row) db1));
          [done|].
        apply Attendance_create_fresh. simpl. by rewrite Hpair. }
      split; [done|]. split; [done|]. split.
      { apply (pair_rows_insert_same db1 _ row). simpl. by rewrite Hpair. }
      split.
      { intros s' st' Hne. apply pair_rows_insert_other; [apply new_pk_fresh|].
        simpl. intros [<- <-]. by apply Hne. }
      split; [intros _; split; [apply new_pk_fresh | done]|].
      intros pk0 old0 Hone. rewrite Hex in Hone. symmetry in Hone.
      by apply map_non_empty_singleton in Hone. }
  assert (only_attendances db1 db2) as Hframe2 by (subst db2; by repeat split).
  destruct (IH db2) as (db' & Hloop & Hframe & Hrows & Hrest & Hint); [done | | |].
  { intros st' Hin. rewrite Hother; [apply Hsnap; simpl; by right|].
    intros [_ ->]. done. }
  { intros st' Hin. destruct Hframe2 as (_ & -> & _). apply Hexist.
    simpl. by right. }
  exists db'. split.
  { simpl for_fold. by rewrite (bind_Return _ _ db1 tt db2 Hstep). }
  split; [by etransitivity|]. split.
  { intros st' Hin. simpl in Hin. apply elem_of_cons in Hin as [->|Hin].
    - exists pk, row. split; [|done].
      rewrite Hrest by (intros [_ ?]; done). done.
    - destruct (Hrows st' Hin) as (pk' & row' & Hone & Hnew' & Hupd').
      exists pk', row'. split; [done|]. split; [|done].
      intros Hnone. destruct (Hnew' Hnone) as [Hfresh ->]. split; [|done].
      rewrite Hdb2 in Hfresh. simpl in Hfresh.
      apply lookup_insert_None in Hfresh. tauto. }
  split.
  { intros s' st' Hne. rewrite Hrest.
    - apply Hother. intros [-> ->]. apply Hne. split; [done|]. simpl. by left.
    - intros [-> Hin]. apply Hne. split; [done|]. simpl. by right. }
  intros Hdb. apply Hint. rewrite Hdb2.
  apply insert_referential_integrity; [done|]. by rewrite Hrow_st.
Qed.

End ManualForm.

(** X12.  A POST of the manual form, for a session and course that exist,
    over a table with unique pairs whose foreign keys resolve, in whatever
    order the students come.  The view returns, whether or not the session
    is active.  Afterwards every active student enrolled in the course has
    exactly one record in the session, with the status of the form
    ('absent' when the form has none for the student) and its notes.  A
    student without a record gets a new one, 'manual', marked by the user;
    an existing record keeps its key, method, marker, face confidence and
    GPS position.  The pairs of the other sessions and students are as they
    were and all pairs stay unique.  Every absent record of the session is
    then notified, whether or not it was notified before. *)
Theorem manual_mark_attendance (db : DB)
    (by_roll_number : list (nat * Student.t) → list (nat * Student.t))
    (session_pk : nat) (form : AttendanceViews.ManualForm)
    (session : AttendanceSession.t) (course : Course.t) :
  (∀ l, by_roll_number l ≡ₚ l) →
  sessions db !! session_pk = Some session →
  courses db !! AttendanceSession.course session = Some course →
  unique_together db →
  referential_integrity db →
  ∃ db',
    AttendanceViews.mark_attendance by_roll_number session_pk form db
    = (Return tt, db')
    ∧ (∀ st student,
         students db !! st = Some student →
         Student.is_active student = true →
         st ∈ Course.students course →
         ∃ pk row,
           pair_rows db' session_pk st = {[pk := row]}
           ∧ Attendance.status row
             = default absent (AttendanceViews.form_status form !! st)
           ∧ Attendance.notes row
             = default EmptyString (AttendanceViews.form_notes form !! st)
           ∧ (pair_rows db session_pk st = ∅ →
              attendances db !! pk = None
              ∧ Attendance.verification_method row = manual
              ∧ Attendance.marked_by row
                = Some (AttendanceViews.form_user form))
           ∧ (∀ pk0 old,
                pair_rows db session_pk st = {[pk0 := old]} →
                pk = pk0
                ∧ Attendance.verification_method row
                  = Attendance.verification_method old
                ∧ Attendance.marked_by row = Attendance.marked_by old
                ∧ Attendance.face_confidence row
                  = Attendance.face_confidence old
                ∧ Attendance.location_lat row = Attendance.location_lat old
                ∧ Attendance.location_lng row = Attendance.location_lng old))
    ∧ (∀ s' st',
         s' ≠ session_pk ∨ enrolled_active db course !! st' = None →
         pair_rows db' s' st' = pair_rows db s' st')
    ∧ unique_together db'
    ∧ size (notifications db')
      = size (notifications db) + size (absent_rows db' session_pk).
Proof.
  intros Horder Hsession Hcourse Hu Hint.
  set (l := by_roll_number (map_to_list (enrolled_active db course))).
  assert (∀ st, st ∈ l.*1 ↔ is_Some (enrolled_active db course !! st)) as Hl.
  { intros st. subst l. rewrite (Horder _), list_elem_of_fmap. split.
    - intros ([st' row] & -> & Hin). apply elem_of_map_to_list in Hin. eauto.
    - intros [row Hrow]. exists (st, row). split; [done|].
      by apply elem_of_map_to_list. }
  assert (∀ st row,
            enrolled_active db course !! st = Some row
            ↔ students db !! st = Some row
              ∧ st ∈ Course.students course ∧ Student.is_active row = true)
    as Henrolled.
  { intros st row. unfold enrolled_active.
    rewrite map_lookup_filter_Some. simpl. tauto. }
  destruct (mark_student_loop db session_pk form Hu l db)
    as (db1 & Hloop & Hframe1 & Hrows & Hrest & Hint1).
  { subst l. rewrite (Horder _). apply NoDup_fst_map_to_list. }
  { done. }
  { intros st [row Hrow]%Hl. apply Henrolled in Hrow as (? & _). eauto. }
  pose proof Hframe1 as (_ & _ & Hc1 & _ & Hn1 & _).
  assert (courses db1 !! AttendanceSession.course session = Some course)
    as Hcourse1 by (by rewrite Hc1).
  destruct (send_absentee_notifications_count db1 session course (Hint1 Hint)
              Hcourse1 session_pk) as (db' & Hsend & Hframe & Hsize).
  pose proof Hframe as (_ & _ & _ & _ & Ha).
  assert (∀ s' st', pair_rows db' s' st' = pair_rows db1 s' st') as Hsame
    by (intros s' st'; by apply pair_rows_ledger).
  exists db'. split.
  { unfold AttendanceViews.mark_attendance.
    rewrite (bind_Return _ _ db session db)
      by (unfold get_object_or_404; by rewrite Hsession).
    rewrite (bind_Return _ _ db course db) by (unfold fetch; by rewrite Hcourse).
    rewrite (bind_Return _ _ db db db) by done.
    fold l. rewrite (bind_Return _ _ db tt db1 Hloop).
    by rewrite (bind_Return _ _ db1 _ db' Hsend). }
  split.
  { intros st student Hst Hactive Hin.
    destruct (Hrows st) as (pk & row & Hone & Hnew & Hupd).
    { apply Hl. exists student. by apply Henrolled. }
    exists pk, row. rewrite Hsame. split; [done|].
    destruct (map_size_le_1 _ (Hu session_pk st))
      as [Hnone | (pk0 & old & Hold)].
    - destruct (Hnew Hnone) as [Hfresh ->].
      repeat (split; [done|]). intros pk1 old1 Hold1.
      rewrite Hnone in Hold1. symmetry in Hold1.
      by apply map_non_empty_singleton in Hold1.
    - destruct (Hupd pk0 old Hold) as [-> ->].
      repeat (split; [done|]). split.
      { intros Hnone. rewrite Hnone in Hold. symmetry in Hold.
        by apply map_non_empty_singleton in Hold. }
      intros pk1 old1 Hold1. rewrite Hold in Hold1.
      assert (({[pk0 := old]} : gmap nat Attendance.t) !! pk0 = Some old)
        as Hlook by apply lookup_singleton_eq.
      rewrite Hold1 in Hlook. apply lookup_singleton_Some in Hlook as [<- <-].
      done. }
  split.
  { intros s' st' Hcond. rewrite Hsame. apply Hrest.
    intros [-> Hin]. destruct Hcond as [?|Hnone]; [done|].
    apply Hl in Hin as [row Hrow]. congruence. }
  split.
  { intros s' st'. rewrite Hsame.
    destruct (decide (s' = session_pk ∧ st' ∈ l.*1)) as [[-> Hin]|Hne].
    - destruct (Hrows st' Hin) as (pk & row & -> & _).
      by rewrite map_size_singleton.
    - rewrite Hrest by done. apply Hu. }
  by rewrite Hsize, Hn1, (absent_rows_ledger db1 db').
Qed.

(** ** What the single path keeps *)

Global Instance keeps_notified_once_refl : Reflexive keeps_notified_once.
Proof. intros db Hn. exact Hn. Qed.

Global Instance keeps_notified_once_trans : Transitive keeps_notified_once.
Proof. intros db1 db2 db3 H12 H23 Hn. by apply H23, H12. Qed.

Lemma update_or_create_keeps_notified_once s st d :
  preserves keeps_notified_once (Attendance_update_or_create s st d).
Proof.
  intros db o db'. unfold Attendance_update_or_create.
  destruct (map_to_list (pair_rows db s st)) as [|[pk old] [|? ?]];
    intros [= <- <-]; intros Hn; exact Hn.
Qed.

Lemma mark_attendance_keeps_notified_once data :
  preserves keeps_notified_once (mark_attendance data).
Proof.
  unfold mark_attendance.
  apply preserves_try_except; try typeclasses eauto;
    [|intros e; apply preserves_ret; typeclasses eauto].
  apply preserves_bind; try typeclasses eauto;
    [apply preserves_get_object_or_404; typeclasses eauto | intros session].
  apply preserves_bind; try typeclasses eauto;
    [apply preserves_get_object_or_404; typeclasses eauto | intros _].
  destruct (negb _); [apply preserves_ret; typeclasses eauto|].
  apply preserves_bind; try typeclasses eauto;
    [apply preserves_fetch; typeclasses eauto | intros course].
  destruct (negb _); [apply preserves_ret; typeclasses eauto|].
  apply preserves_bind; try typeclasses eauto;
    [apply update_or_create_keeps_notified_once
    | intros [[pk attendance] created]].
  apply preserves_bind; try typeclasses eauto;
    [|intros _; apply preserves_ret; typeclasses eauto].
  case_decide; [|apply preserves_ret; typeclasses eauto].
  apply preserves_try_except; try typeclasses eauto;
    [|intros e; apply preserves_ret; typeclasses eauto].
  apply preserves_bind; try typeclasses eauto;
    [apply send_single_absentee_notification_once
    |intros _; apply preserves_ret; typeclasses eauto].
Qed.

(** X13.  Whatever [mark_attendance] answers, and whatever the request, it
    leaves the (session, student) pairs unique when they were, and it
    leaves no record with two absence notifications when none had two:
    both are invariants of the single path. *)
Theorem mark_attendance_keeps_invariants (db : DB) (data : MarkRequest) :
  (unique_together db → unique_together (after (mark_attendance data) db))
  ∧ (notified_once db → notified_once (after (mark_attendance data) db)).
Proof.
  unfold after.
  destruct (mark_attendance data db) as [o db'] eqn:Hrun. simpl. split.
  - by eapply mark_attendance_keeps_unique.
  - by eapply mark_attendance_keeps_notified_once.
Qed.

(** ** The bulk path, record by record *)

Section BulkPath.
Context (db : DB) (session : AttendanceSession.t) (course : Course.t).
Hypothesis Hintegrity : referential_integrity db.
Hypothesis Hcourse : courses db !! AttendanceSession.course session = Some course.

(** One turn of the loop adds one absence notification for its record and
    none for another. *)
Lemma notify_absent_record_adds db0 n pk r :
  same_ledger db db0 →
  attendances db !! pk = Some r →
  ∃ db1,
    notify_absent_record session n (pk, r) db0 = (Return (n + 1), db1)
    ∧ same_ledger db db1
    ∧ ∀ st a,
        size (absence_notifications db1 st a)
        = size (absence_notifications db0 st a)
          + (if decide (a = pk ∧ Attendance.student r = st) then 1 else 0).
Proof using Hintegrity Hcourse.
  intros Hframe Hr. destruct Hintegrity as [Hstudents Hparents].
  destruct (Hstudents pk r Hr) as [student Hst].
  destruct Hframe as (Hp & Hs & Hc & Hse & Ha).
  unfold notify_absent_record. cbn [fst snd].
  rewrite (bind_Return _ _ db0 student db0)
    by (unfold fetch; by rewrite Hs, Hst).
  rewrite (bind_Return _ _ db0 course db0)
    by (unfold fetch; by rewrite Hc, Hcourse).
  set (row := absence_notification (Attendance.student r) (Course.code course)
                pk).
  set (key := new_pk (notifications db0)).
  set (final := set_push_sent (set_email_sent (set_is_sent row))).
  set (db_a := set_notifications (insert key row) db0).
  rewrite (bind_Return _ _ db0 key db_a) by done.
  set (db_b :=
         set_notifications (insert key final)
           (set_notification_logs
              (λ logs, logs ++ [student_log key email (Student.email student);
                                student_log key push
                                  ("device_" +:+ pretty (Attendance.student r))])
              db_a)).
  rewrite (bind_Return _ _ db_a tt db_b)
    by apply simulate_send_absence_notification.
  destruct (notify_parent_returns (Attendance.student r) student absence
              ("Child Absence Alert: " +:+ Student.full_name student) db_b)
    as [db1 Hnotify].
  { intros p Hparent. change (parents db_b) with (parents db0).
    rewrite Hp. by eapply Hparents. }
  destruct (notify_parent_side _ _ _ _ _ _ _ Hnotify)
    as (Hframe1 & Hnotifs & _).
  rewrite (bind_Return _ _ db_b tt db1 Hnotify).
  exists db1. split; [done|].
  assert (notifications db1 = <[key := final]> (notifications db0)) as Hn.
  { rewrite Hnotifs. subst db_b db_a. simpl notifications.
    apply insert_insert_eq. }
  split.
  - etransitivity; [|exact Hframe1]. by repeat split.
  - intros st a. unfold absence_notifications. rewrite Hn.
    case_decide as Hkey.
    + destruct Hkey as [-> <-].
      rewrite map_filter_insert_True by done.
      rewrite map_size_insert_None; [lia|].
      apply map_lookup_filter_None. left. apply new_pk_fresh.
    + rewrite map_filter_insert_False
        by (simpl; intros (? & [= ?] & _); apply Hkey; by split).
      rewrite delete_id by apply new_pk_fresh. lia.
Qed.

Lemma send_absentee_notifications_loop_adds (l : list (nat * Attendance.t)) :
  (∀ kv, kv ∈ l → attendances db !! kv.1 = Some kv.2) →
  ∀ db0 n,
    same_ledger db db0 →
    ∃ db',
      for_fold l n (notify_absent_record session) db0
      = (Return (n + length l), db')
      ∧ same_ledger db db'
      ∧ ∀ st a,
          size (absence_notifications db' st a)
          = size (absence_notifications db0 st a)
            + length (filter (λ kv, kv.1 = a ∧ Attendance.student kv.2 = st) l).
Proof using Hintegrity Hcourse.
  induction l as [|[pk r] l IH]; intros Hl db0 n Hframe.
  - exists db0. simpl for_fold. rewrite Nat.add_0_r.
    split; [done|]. split; [done|].
    intros st a. rewrite filter_nil. simpl. lia.
  - destruct (notify_absent_record_adds db0 n pk r Hframe)
      as (db1 & Hstep & Hframe1 & Hsize1).
    { apply (Hl (pk, r)). by left. }
    destruct (IH (λ kv Hkv, Hl kv (list_elem_of_further _ _ _ Hkv)) db1 (n + 1)
                Hframe1) as (db' & Hrun & Hframe' & Hsize').
    exists db'. simpl for_fold.
    rewrite (bind_Return _ _ db0 _ db1 Hstep), Hrun.
    split; [f_equal; f_equal; simpl; lia|]. split; [done|].
    intros st a. rewrite Hsize', Hsize1, filter_cons. simpl.
    repeat case_decide; simpl; try lia; tauto.
Qed.

End BulkPath.

(** Among rows with distinct keys, a test that names one key finds at
    most its row. *)
Lemma filter_key_once {A} (P : nat * A → Prop) `{∀ kv, Decision (P kv)}
    (l : list (nat * A)) pk x :
  NoDup l.*1 → (pk, x) ∈ l → P (pk, x) →
  (∀ kv, P kv → kv.1 = pk) →
  length (filter P l) = 1.
Proof.
  intros Hnodup Hin HP Hkey.
  induction l as [|[pk' x'] l IH]; [by apply elem_of_nil in Hin|].
  simpl in Hnodup. apply NoDup_cons in Hnodup as [Hnotin Hnodup].
  rewrite filter_cons.
  apply elem_of_cons in Hin as [[= <- <-]|Hin].
  - rewrite decide_True by done. simpl. f_equal.
    destruct (filter P l) as [|[pk2 x2] rest] eqn:Hf; [done|]. exfalso.
    assert ((pk2, x2) ∈ filter P l) as Hin2 by (rewrite Hf; by left).
    apply list_elem_of_filter in Hin2 as [HP2 Hin2].
    apply Hkey in HP2. simpl in HP2. subst pk2.
    apply Hnotin, list_elem_of_fmap. by exists (pk, x2).
  - rewrite decide_False.
    + by apply IH.
    + intros HP'. apply Hkey in HP'. simpl in HP'. subst pk'.
      apply Hnotin, list_elem_of_fmap. by exists (pk, x).
Qed.

(** X14.  On a database whose foreign keys resolve,
    [send_absentee_notifications] returns the number of absent records of
    the session and adds exactly one absence notification to each of them,
    whatever notifications they have: a record that was notified before
    has one more afterwards.  The records that are not absent in the
    session get none, and the ledger is left as it was. *)
Theorem send_absentee_notifications_adds_one (db : DB) (session_pk : nat)
    (session : AttendanceSession.t) (course : Course.t) :
  referential_integrity db →
  courses db !! AttendanceSession.course session = Some course →
  ∃ db',
    send_absentee_notifications session_pk session db
    = (Return (size (absent_rows db session_pk)), db')
    ∧ same_ledger db db'
    ∧ (∀ pk r,
         absent_rows db session_pk !! pk = Some r →
         size (absence_notifications db' (Attendance.student r) pk)
         = S (size (absence_notifications db (Attendance.student r) pk)))
    ∧ (∀ st pk,
         (∀ r, absent_rows db session_pk !! pk = Some r →
               Attendance.student r ≠ st) →
         size (absence_notifications db' st pk)
         = size (absence_notifications db st pk)).
Proof.
  intros Hint Hcourse.
  set (l := map_to_list (absent_rows db session_pk)).
  destruct (send_absentee_notifications_loop_adds db session course Hint
              Hcourse l) with (db0 := db) (n := 0)
    as (db' & Hrun & Hframe & Hsize).
  { intros [pk r] Hkv. simpl.
    apply elem_of_map_to_list, map_lookup_filter_Some in Hkv as [Hkv _].
    by apply session_rows_lookup in Hkv as [? _]. }
  { reflexivity. }
  exists db'. split.
  { unfold send_absentee_notifications.
    rewrite (bind_Return _ _ db db db) by done. fold l.
    rewrite Hrun. subst l. by rewrite length_map_to_list. }
  split; [done|]. split.
  - intros pk r Hr. rewrite Hsize.
    rewrite (filter_key_once _ l pk r); [lia | | | done |].
    + apply NoDup_fst_map_to_list.
    + by apply elem_of_map_to_list.
    + by intros kv [? _].
  - intros st pk Hnot. rewrite Hsize.
    destruct (filter _ l) as [|[pk' r'] rest] eqn:Hf; [simpl; lia|].
    exfalso.
    assert ((pk', r') ∈ filter (λ kv : nat * Attendance.t,
                                  kv.1 = pk ∧ Attendance.student kv.2 = st) l)
      as Hin by (rewrite Hf; by left).
    apply list_elem_of_filter in Hin as [[Hpk Hst] Hin]. simpl in *. subst pk'.
    apply elem_of_map_to_list in Hin. by apply (Hnot r').
Qed.

(** ** The detector's list *)

(** X15.  [detect_session_absentees] does not depend on the attendance
    table: on a session whose course exists it returns, without writing,
    exactly the active students enrolled in the course, each once, so a
    student with a 'present' or 'late' record in the session is on the
    list as well. *)
Theorem detect_session_absentees_lists_enrolled (db : DB) (session_pk : nat)
    (session : AttendanceSession.t) (course : Course.t) :
  courses db !! AttendanceSession.course session = Some course →
  ∃ absentees,
    detect_session_absentees session_pk session db = (Return absentees, db)
    ∧ NoDup absentees
    ∧ length absentees = size (enrolled_active db course)
    ∧ (∀ st student,
         StudentInstance st student ∈ absentees
         ↔ students db !! st = Some student
           ∧ st ∈ Course.students course
           ∧ Student.is_active student = true)
    ∧ (∀ n, IntObject n ∉ absentees).
Proof.
  intros Hcourse. eexists. split; [by apply detect_session_absentees_all|].
  split.
  { apply (NoDup_fmap_2_strong _).
    - intros [st1 r1] [st2 r2] _ _ [= -> ->]. done.
    - apply NoDup_map_to_list. }
  split; [by rewrite length_fmap, length_map_to_list|]. split.
  - intros st student. rewrite list_elem_of_fmap. split.
    + intros ([st' row] & [= -> ->] & Hin).
      apply elem_of_map_to_list in Hin. unfold enrolled_active in Hin.
      apply map_lookup_filter_Some in Hin. simpl in Hin. tauto.
    + intros (Hst & Hin & Hactive). exists (st, student). split; [done|].
      apply elem_of_map_to_list. unfold enrolled_active.
      apply map_lookup_filter_Some. simpl. tauto.
  - intros n Hin. apply list_elem_of_fmap in Hin as ([st row] & Heq & _).
    discriminate Heq.
Qed.

(** ** The sweep, again *)



(** ** The small campus satisfies the assumptions *)

Lemma unique_together_few db : size (attendances db) ≤ 1 → unique_together db.
Proof.
  intros Hle s st. etransitivity; [|exact Hle].
  apply map_subseteq_size, map_filter_subseteq.
Qed.

Lemma campus_parents_exist (rows : gmap nat Attendance.t) st row p :
  students (set_attendances (λ _, rows) campus) !! st = Some row →
  Student.parent row = Some p →
  is_Some (parents (set_attendances (λ _, rows) campus) !! p).
Proof.
  simpl. intros Hst Hp.
  assert (row = alice ∨ Student.parent row = None) as [-> | Hnone].
  { apply lookup_insert_Some in Hst as [[_ <-]|[_ Hst]]; [by left|].
    apply lookup_insert_Some in Hst as [[_ <-]|[_ Hst]]; [by right|].
    apply lookup_singleton_Some in Hst as [_ <-]. by right. }
  - injection Hp as <-. by eexists.
  - congruence.
Qed.

Lemma campus_referential_integrity (rows : gmap nat Attendance.t) :
  (∀ pk r, rows !! pk = Some r →
           is_Some (students campus !! Attendance.student r)) →
  referential_integrity (set_attendances (λ _, rows) campus).
Proof.
  intros Hrows. split; [exact Hrows|]. apply campus_parents_exist.
Qed.

Lemma campus_one_record_integrity pk s st status :
  is_Some (students campus !! st) →
  referential_integrity
    (set_attendances (λ _, {[pk := record_with s st status]}) campus).
Proof.
  intros Hst. apply campus_referential_integrity.
  intros pk' r Hr. by apply lookup_singleton_Some in Hr as [_ <-].
Qed.

Lemma campus_alice_notified_integrity :
  referential_integrity campus_alice_notified.
Proof.
  unfold campus_alice_notified, after.
  destruct (send_single_absentee_notification 0 alice_absent
              campus_alice_absent) as [o db'] eqn:Hrun.
  simpl. eapply referential_integrity_ledger.
  - by eapply send_single_absentee_notification_ledger.
  - apply campus_one_record_integrity. by eexists.
Qed.

(** ** The properties at work on the small campus *)



Lemma bulk_mark_attendance_renotifies_witness :
  ∃ response db',
    bulk_mark_attendance (bulk_request 1 [bulk_item (Some 2) None])
      campus_alice_notified
    = (Return response, db')
    ∧ size (notifications db')
      = size (notifications campus_alice_notified)
        + size (absent_rows db' 1).
Proof.
  apply (bulk_mark_attendance_renotifies campus_alice_notified
           (bulk_request 1 [bulk_item (Some 2) None]) open_session cs101);
    [reflexivity | reflexivity | reflexivity
    | apply unique_together_few; vm_compute; lia |].
  apply campus_alice_notified_integrity.
Defined.



Lemma update_attendance_ajax_notifies_witness :
  ∃ db',
    AttendanceViews.update_attendance_ajax (Some 0) (Some absent)
      campus_alice_present
    = (Return (AttendanceViews.Ajax200 absent), db')
    ∧ attendances db'
      = <[0 := with_status absent (record_with 1 1 present)]>
          (attendances campus_alice_present).
Proof.
  destruct (update_attendance_ajax_notifies campus_alice_present 0
              (record_with 1 1 present) alice open_session cs101)
    as (db' & Hrun & Hrows & _);
    [reflexivity | done | reflexivity | reflexivity | reflexivity
    | intros p [= <-]; by eexists |].
  exists db'. split; [exact Hrun | exact Hrows].
Defined.

Lemma percentage_extremes_witness :
  Stats.percentage (get_session_stats_on (records_of 1 1 [present; late; late]))
  = Py.Float (Py.float_of_int 100)
  ∧ low_percentage attendance_threshold (records_of 1 1 [present; late; late])
    = None.
Proof.
  destruct (percentage_extremes (records_of 1 1 [present; late; late]))
    as [Hall _]; [done|].
  destruct Hall as (Hstats & _ & _ & Hlow).
  { repeat constructor; simpl; tauto. }
  split; [exact Hstats | exact Hlow].
Defined.

Lemma send_attendance_confirmation_sends_witness :
  ∃ key db1,
    send_attendance_confirmation 0 (record_with 1 1 present)
      campus_alice_present
    = (Return (Some key), db1)
    ∧ notification_logs db1
      = notification_logs campus_alice_present
        ++ [student_log key email (Student.email alice);
            student_log key push ("device_" +:+ pretty 1)].
Proof.
  destruct (send_attendance_confirmation_sends campus_alice_present 0
              (record_with 1 1 present) alice open_session cs101)
    as [_ Hsends]; [reflexivity | reflexivity | reflexivity |].
  destruct Hsends
    as (key & n & db1 & key2 & db2 & Hrun & _ & _ & _ & _ & _ & _ & _ & _ & _
        & Hlogs & _); [by left|].
  exists key, db1. split; [exact Hrun | exact Hlogs].
Defined.

Lemma auto_mark_absentees_view_witness :
  ∃ db1 db2,
    FaceRecognitionViews.auto_mark_absentees 1 7 campus_alice_present
    = (Return (size (unmarked campus_alice_present 1 cs101)), db1)
    ∧ FaceRecognitionViews.auto_mark_absentees 1 7 db1 = (Return 0, db2)
    ∧ size (notifications db2)
      = size (notifications db1) + size (absent_rows db1 1).
Proof.
  destruct (auto_mark_absentees_view campus_alice_present 1 7 open_session
              cs101)
    as (db1 & db2 & Hrun & _ & _ & _ & Hagain & _ & Hsize & _);
    [reflexivity | reflexivity
    | apply campus_one_record_integrity; by eexists |].
  exists db1, db2. split; [exact Hrun|]. split; [exact Hagain | exact Hsize].
Defined.

Lemma manual_mark_attendance_witness :
  ∃ db',
    AttendanceViews.mark_attendance (λ l, l) 2
      (manual_form {[1 := present]}) campus
    = (Return tt, db')
    ∧ AttendanceSession.is_active closed_session = false
    ∧ unique_together db'.
Proof.
  destruct (manual_mark_attendance campus (λ l, l) 2
              (manual_form {[1 := present]}) closed_session cs101)
    as (db' & Hrun & _ & _ & Hu & _);
    [reflexivity | reflexivity | reflexivity
    | apply unique_together_few; vm_compute; lia
    | apply (campus_referential_integrity ∅); by intros pk r |].
  exists db'. split; [exact Hrun|]. split; [reflexivity | exact Hu].
Defined.

Lemma send_absentee_notifications_adds_one_witness :
  ∃ db',
    send_absentee_notifications 1 open_session campus_alice_absent
    = (Return (size (absent_rows campus_alice_absent 1)), db')
    ∧ same_ledger campus_alice_absent db'.
Proof.
  destruct (send_absentee_notifications_adds_one campus_alice_absent 1
              open_session cs101)
    as (db' & Hrun & Hframe & _);
    [apply campus_one_record_integrity; by eexists | reflexivity |].
  exists db'. split; [exact Hrun | exact Hframe].
Defined.

Lemma detect_session_absentees_lists_enrolled_witness :
  ∃ absentees,
    detect_session_absentees 1 open_session campus_alice_present
    = (Return absentees, campus_alice_present)
    ∧ length absentees = size (enrolled_active campus_alice_present cs101).
Proof.
  destruct (detect_session_absentees_lists_enrolled campus_alice_present 1
              open_session cs101)
    as (absentees & Hrun & _ & Hlen & _); [reflexivity|].
  exists absentees. split; [exact Hrun | exact Hlen].
Defined.

